(** * mtga-reader: the card data reader (mtga.py) and the database
      discovery of the schema inspector (inspect_mtga_db.py)

    A shallow embedding of the Python sources.  Python strings are modelled
    as Stdlib strings of 8-bit characters, [dict]s as association lists in
    insertion order, exceptions as the [Raise] branch of a result type, and
    the mutable reader object as a record threaded through the methods. *)

From Stdlib Require Import String Ascii List ZArith Lia Bool Arith.
From Stdlib Require Import Sorted Permutation DecimalString.
From Stdlib Require OrderedTypeEx.
Import ListNotations.

Local Open Scope list_scope.
Local Open Scope string_scope.

(* ================================================================== *)
(** ** Python builtins used by the sources *)
(* ================================================================== *)

Module Py.

(** [str.lower] on the ASCII range. *)
Definition lower_ascii (c : ascii) : ascii :=
  let n := nat_of_ascii c in
  if (65 <=? n)%nat && (n <=? 90)%nat then ascii_of_nat (n + 32) else c.

Fixpoint lower (s : string) : string :=
  match s with
  | EmptyString => EmptyString
  | String c s' => String (lower_ascii c) (lower s')
  end.

(** [sub in s]. *)
Fixpoint contains (sub s : string) : bool :=
  String.prefix sub s ||
  match s with
  | EmptyString => false
  | String _ s' => contains sub s'
  end.

(** [s.replace(old, new)] for a non-empty [old]: occurrences are found
    left to right and do not overlap.  [skip] counts the characters of a
    matched occurrence that are still to be dropped. *)
Fixpoint replace_from (old new : string) (skip : nat) (s : string) : string :=
  match s with
  | EmptyString => EmptyString
  | String c s' =>
      match skip with
      | S k => replace_from old new k s'
      | O =>
          if String.prefix old s
          then new ++ replace_from old new (String.length old - 1) s'
          else String c (replace_from old new 0 s')
      end
  end.

Definition replace (s old new : string) : string := replace_from old new 0 s.

(** [s.split(sep)] for a non-empty [sep]; [cur] is the piece being read,
    in reverse. *)
Fixpoint split_from (sep : string) (skip : nat) (cur : list ascii) (s : string)
  : list string :=
  match s with
  | EmptyString => [string_of_list_ascii (rev cur)]
  | String c s' =>
      match skip with
      | S k => split_from sep k cur s'
      | O =>
          if String.prefix sep s
          then string_of_list_ascii (rev cur)
                 :: split_from sep (String.length sep - 1) [] s'
          else split_from sep 0 (c :: cur) s'
      end
  end.

Definition split (s sep : string) : list string := split_from sep 0 [] s.

(** [sep.join(l)]. *)
Definition join (sep : string) (l : list string) : string := String.concat sep l.

(** [str(n)] for an integer. *)
Definition str_of_Z (z : Z) : string := NilZero.string_of_int (Z.to_int z).

Fixpoint zeros (n : nat) : string :=
  match n with
  | O => EmptyString
  | S k => String "0" (zeros k)
  end.

(** [s.zfill(width)]: a leading sign stays in front of the padding. *)
Definition zfill (s : string) (width : nat) : string :=
  let n := String.length s in
  if (width <=? n)%nat then s
  else
    match s with
    | String c s' =>
        if Ascii.eqb c "+" || Ascii.eqb c "-"
        then String c (zeros (width - n) ++ s')
        else zeros (width - n) ++ s
    | EmptyString => zeros (width - n)
    end.

(** [sorted] with a boolean order: a stable insertion sort. *)
Section Sorted.
Context {A : Type} (leb : A -> A -> bool).

Fixpoint insert (x : A) (l : list A) : list A :=
  match l with
  | [] => [x]
  | h :: t => if leb x h then x :: l else h :: insert x t
  end.

Definition sorted (l : list A) : list A := fold_right insert [] l.
End Sorted.

(** Dictionaries keep their keys in insertion order; assigning to an
    existing key keeps its position. *)
Section Dict.
Context {K V : Type} (eqb : K -> K -> bool).

Fixpoint dict_get (d : list (K * V)) (k : K) : option V :=
  match d with
  | [] => None
  | (k', v) :: d' => if eqb k' k then Some v else dict_get d' k
  end.

Fixpoint dict_set (d : list (K * V)) (k : K) (v : V) : list (K * V) :=
  match d with
  | [] => [(k, v)]
  | (k', v') :: d' =>
      if eqb k' k then (k', v) :: d' else (k', v') :: dict_set d' k v
  end.

Definition dict_keys (d : list (K * V)) : list K := map fst d.
End Dict.

(** [os.path.join] of posixpath, for two components. *)
Definition ends_with_sep (s : string) : bool :=
  match rev (list_ascii_of_string s) with
  | c :: _ => Ascii.eqb c "/"
  | [] => false
  end.

Definition path_join2 (a b : string) : string :=
  if String.prefix "/" b then b
  else if (String.length a =? 0)%nat || ends_with_sep a then a ++ b
  else a ++ "/" ++ b.

Definition path_join (a : string) (ps : list string) : string :=
  fold_left path_join2 ps a.

(** [fnmatch] of one path against a [glob] pattern: [*] and [?] never
    match the separator; character classes are not modelled. *)
Fixpoint glob_chars (p s : list ascii) : bool :=
  match p with
  | [] => match s with [] => true | _ => false end
  | c :: p' =>
      if Ascii.eqb c "*" then
        (fix star (s : list ascii) : bool :=
           glob_chars p' s ||
           match s with
           | [] => false
           | d :: s' => if Ascii.eqb d "/" then false else star s'
           end) s
      else
        match s with
        | [] => false
        | d :: s' =>
            (if Ascii.eqb c "?" then negb (Ascii.eqb d "/") else Ascii.eqb c d)
            && glob_chars p' s'
        end
  end.

Definition glob_match (pattern path : string) : bool :=
  glob_chars (list_ascii_of_string pattern) (list_ascii_of_string path).

(** [glob.has_magic]: the text holds a character that [glob] reads as a
    pattern. *)
Definition has_magic (s : string) : bool :=
  contains "*" s || contains "?" s || contains "[" s.

End Py.

(* ================================================================== *)
(** ** Exceptions: a call returns a value or raises *)
(* ================================================================== *)

Module PyExc.

Inductive exn : Type :=
| ValueError (msg : string)
| IndexError
| KeyError (key : string)
| StopIteration
| NotImplementedError (msg : string)
| OperationalError (msg : string)   (* sqlite3: no such table *)
| ProgrammingError (msg : string)   (* sqlite3: closed connection *)
| DatabaseError (msg : string)      (* sqlite3: damaged file *)
| OverflowError (msg : string)
| RuntimeError (msg : string).

Inductive result (A : Type) : Type :=
| Ok (a : A)
| Raise (e : exn).
Arguments Ok {A} a.
Arguments Raise {A} e.

Definition bind {A B : Type} (m : result A) (k : A -> result B) : result B :=
  match m with
  | Ok a => k a
  | Raise e => Raise e
  end.

Notation "x <- m ;; k" := (bind m (fun x => k))
  (at level 61, m at next level, right associativity).

(** A loop whose body may raise: [for x in l: acc = body(acc, x)]. *)
Fixpoint for_each {A S : Type} (body : S -> A -> result S) (l : list A) (acc : S)
  : result S :=
  match l with
  | [] => Ok acc
  | x :: l' => acc' <- body acc x ;; for_each body l' acc'
  end.

(** A loop that assigns to an object as it goes: the object as the loop
    leaves it, also when the body raises. *)
Fixpoint for_each_assign {A S : Type} (body : S -> A -> S * result unit) (l : list A)
  (s : S) : S * result unit :=
  match l with
  | [] => (s, Ok tt)
  | x :: l' =>
      match body s x with
      | (s', Ok _) => for_each_assign body l' s'
      | (s', Raise e) => (s', Raise e)
      end
  end.

End PyExc.

(* ================================================================== *)
(** ** The SQLite databases, as far as the reader queries them *)
(* ================================================================== *)

Module Sql.
Import PyExc.

(** A column value.  Python sees [SNull] as [None], [SInt] as an [int]
    and [SText] as a [str]. *)
Inductive sqlval : Type :=
| SNull
| SInt (n : Z)
| SText (s : string).

(** A row with its column names (what [dict_factory] zips together from
    [cursor.description] and the row), a table and a database file. *)
Definition row : Type := list (string * sqlval).
Definition table : Type := list row.
Definition database : Type := list (string * table).

(** Python's [==] on column values; also the hash key equality of a dict. *)
Definition py_eqb (a b : sqlval) : bool :=
  match a, b with
  | SNull, SNull => true
  | SInt x, SInt y => (x =? y)%Z
  | SText x, SText y => String.eqb x y
  | _, _ => false
  end.

(** SQL's [=] between a stored value and a parameter: a comparison with
    NULL is never true, and two numbers or two texts compare as they are.
    A number and a text are taken as different, which is what the engine
    does in a column declared without a type; in a column declared with
    one it converts the parameter first where it can ('10' then equals
    10).  The properties that speak of the absence of rows are stated for
    parameters of the storage class of the column ([Notions.same_class]). *)
Definition sql_eq (a b : sqlval) : bool :=
  match a, b with
  | SInt x, SInt y => (x =? y)%Z
  | SText x, SText y => String.eqb x y
  | _, _ => false
  end.

(** An integer of the engine has 64 bits. *)
Definition int64 (n : Z) : bool :=
  (-9223372036854775808 <=? n)%Z && (n <=? 9223372036854775807)%Z.

Definition storable (v : sqlval) : bool :=
  match v with
  | SInt n => int64 n
  | _ => true
  end.

(** Binding a Python value to a [?] of a statement: an [int] that does
    not fit in 64 bits raises OverflowError.  This comes after the
    statement has been compiled, so after the errors of its text. *)
Definition bind_parameter (v : sqlval) : result sqlval :=
  if storable v then Ok v
  else Raise (OverflowError "Python int too large to convert to SQLite INTEGER").

(** A name written into the text of a statement without quotes.  The
    engine reads it as one name when it is a run of letters, digits,
    underscores, dollar signs and bytes above 127 that does not begin with
    a digit or a dollar sign, and is none of the words the engine keeps
    for itself (those of SQLite 3.40 that cannot name a table). *)
Definition is_letter (c : ascii) : bool :=
  let n := nat_of_ascii c in
  ((65 <=? n)%nat && (n <=? 90)%nat) || ((97 <=? n)%nat && (n <=? 122)%nat).

Definition is_digit (c : ascii) : bool :=
  let n := nat_of_ascii c in (48 <=? n)%nat && (n <=? 57)%nat.

Definition starts_name (c : ascii) : bool :=
  is_letter c || Ascii.eqb c "_" || (128 <=? nat_of_ascii c)%nat.

Definition continues_name (c : ascii) : bool :=
  starts_name c || is_digit c || Ascii.eqb c "$".

Definition reserved_words : list string :=
  ["add"; "all"; "alter"; "and"; "as"; "autoincrement"; "between"; "case";
   "check"; "collate"; "commit"; "constraint"; "create"; "default";
   "deferrable"; "delete"; "distinct"; "drop"; "else"; "escape"; "except";
   "exists"; "foreign"; "from"; "group"; "having"; "in"; "index"; "insert";
   "intersect"; "into"; "is"; "isnull"; "join"; "limit"; "not"; "nothing";
   "notnull"; "null"; "on"; "or"; "order"; "primary"; "references";
   "returning"; "select"; "set"; "table"; "then"; "to"; "transaction";
   "union"; "unique"; "update"; "using"; "values"; "when"; "where"].

Definition is_plain_name (text : string) : bool :=
  match text with
  | EmptyString => false
  | String c rest =>
      starts_name c
      && forallb continues_name (list_ascii_of_string rest)
      && negb (existsb (String.eqb (Py.lower text)) reserved_words)
  end.

(** The run of name characters that a text begins with, and the rest. *)
Fixpoint name_run (text : string) : string * string :=
  match text with
  | EmptyString => (EmptyString, EmptyString)
  | String c rest =>
      if continues_name c
      then let (run, after) := name_run rest in (String c run, after)
      else (EmptyString, text)
  end.

(** A plain name, one hyphen, and more (no second hyphen at once, which
    would open a comment, and no null character, which sqlite3 refuses
    beforehand): Localizations_en-US is such a text. *)
Definition is_hyphenated (text : string) : bool :=
  let (run, after) := name_run text in
  is_plain_name run
  && match after with
     | String c rest =>
         Ascii.eqb c "-" && negb (String.prefix "-" rest)
         && negb (Py.contains (String "000"%char EmptyString) rest)
     | EmptyString => false
     end.

(** The texts of which the model says what the engine does with them. *)
Definition understood (text : string) : bool :=
  is_plain_name text || is_hyphenated text.

(** The order of [ORDER BY]: NULL first, then numbers, then text. *)
Definition sql_leb (a b : sqlval) : bool :=
  match a, b with
  | SNull, _ => true
  | _, SNull => false
  | SInt x, SInt y => (x <=? y)%Z
  | SInt _, SText _ => true
  | SText _, SInt _ => false
  | SText x, SText y => String.leb x y
  end.

(** [mtga_reader.dict_factory], the row factory of every connection: the
    row as a dict from column name to value. *)
Definition dict_factory (r : row) : list (string * sqlval) :=
  fold_left (fun d cv => Py.dict_set String.eqb d (fst cv) (snd cv)) r [].

(** The value of a column in a row; NULL when the row lacks the column
    (the tables are taken to have the columns the queries name). *)
Definition col (r : row) (name : string) : sqlval :=
  match Py.dict_get String.eqb (dict_factory r) name with
  | Some v => v
  | None => SNull
  end.

(** [x LIKE pattern]: [%] is any run of characters, [_] any one character,
    letters compare without case. *)
Fixpoint like_chars (p s : list ascii) : bool :=
  match p with
  | [] => match s with [] => true | _ => false end
  | c :: p' =>
      if Ascii.eqb c "%" then
        (fix star (s : list ascii) : bool :=
           like_chars p' s ||
           match s with
           | [] => false
           | _ :: s' => star s'
           end) s
      else
        match s with
        | [] => false
        | d :: s' =>
            (Ascii.eqb c "_" || Ascii.eqb (Py.lower_ascii c) (Py.lower_ascii d))
            && like_chars p' s'
        end
  end.

Definition like (pattern text : string) : bool :=
  like_chars (list_ascii_of_string pattern) (list_ascii_of_string text).

(** [v LIKE pattern] on a column value: a number is compared as its text,
    NULL never matches. *)
Definition sql_like (v : sqlval) (pattern : string) : bool :=
  match v with
  | SNull => false
  | SInt n => like pattern (Py.str_of_Z n)
  | SText s => like pattern s
  end.

(** [ORDER BY column DESC], rows with equal keys in table order. *)
Definition order_by_desc (column : string) (t : list row) : list row :=
  Py.sorted (fun a b => sql_leb (col b column) (col a column)) t.

(** [LIMIT n]: a negative [n] is no limit. *)
Definition sql_limit {A : Type} (n : Z) (l : list A) : list A :=
  if (n <? 0)%Z then l else firstn (Z.to_nat n) l.

(** The values of a column without repeats, as [GROUP BY] gives them; the
    engine chooses the order of the groups, here the first occurrences. *)
Fixpoint distinct (seen l : list sqlval) : list sqlval :=
  match l with
  | [] => []
  | v :: l' =>
      if existsb (py_eqb v) seen then distinct seen l'
      else v :: distinct (v :: seen) l'
  end.

End Sql.

(* ================================================================== *)
(** ** mtga.py: class [mtga_reader] *)
(* ================================================================== *)

Module Mtga.
Import PyExc Sql.

(** *** The world outside the reader: files, databases, asset bundles *)

(** A decoded raster image: rows of BGR pixels. *)
Definition image : Type := list (list (Z * Z * Z)).

(** One entry of [env.container.items()]: the path inside the bundle, the
    name of the object's type, and what reading, re-encoding and
    [cv2.imdecode] give for it ([None] when decoding fails). *)
Record asset : Type := {
  asset_path : string;
  asset_type : string;
  asset_image : option image
}.

Inductive file_content : Type :=
| SqliteFile (db : database)
| BundleFile (container : list asset)
| OtherFile.

(** A directory entry that a pattern can match: its path, its creation
    time, what a reader of it finds, and whether [sqlite3] gets to open
    it (a directory, or a file that the process may not read, it does
    not). *)
Record file : Type := {
  file_path : string;
  file_ctime : Z;
  file_content_of : file_content;
  file_opens : bool
}.

Definition filesystem : Type := list file.

(** [glob.glob(pattern)]: the files whose path matches. *)
Definition glob (fs : filesystem) (pattern : string) : list file :=
  filter (fun f => Py.glob_match pattern (file_path f)) fs.

(** An open or closed [sqlite3] connection on a file; [None] when the file
    is not a database. *)
Record connection : Type := {
  conn_open : bool;
  conn_db : option database
}.

(** [sqlite3.connect(path)]: the file is opened at once, and the call
    raises when it cannot be.  A file that opens and is no database gives
    a connection all the same, and is refused by the first query. *)
Definition sqlite3_connect (f : file) : result connection :=
  if file_opens f then
    Ok {| conn_open := true;
          conn_db := match file_content_of f with SqliteFile db => Some db | _ => None end |}
  else Raise (OperationalError "unable to open database file").

(** *** The reader object *)

Definition enum_table : Type := list (sqlval * list (sqlval * sqlval)).

Record reader : Type := {
  mtga_root_dir : string;
  mtga_data_dir : string;
  mtga_assets_dir : string;
  mtga_raw_dir : string;
  lang : string;
  lang_table : option string;
  default_lang_table : option string;
  connections : list (string * connection);
  enums : enum_table
}.

Definition with_connections (self : reader) (c : list (string * connection)) : reader :=
  {| mtga_root_dir := mtga_root_dir self; mtga_data_dir := mtga_data_dir self;
     mtga_assets_dir := mtga_assets_dir self; mtga_raw_dir := mtga_raw_dir self;
     lang := lang self; lang_table := lang_table self;
     default_lang_table := default_lang_table self;
     connections := c; enums := enums self |}.

Definition with_default_lang_table (self : reader) (t : option string) : reader :=
  {| mtga_root_dir := mtga_root_dir self; mtga_data_dir := mtga_data_dir self;
     mtga_assets_dir := mtga_assets_dir self; mtga_raw_dir := mtga_raw_dir self;
     lang := lang self; lang_table := lang_table self;
     default_lang_table := t;
     connections := connections self; enums := enums self |}.

Definition with_lang (self : reader) (l : string) (t : option string) : reader :=
  {| mtga_root_dir := mtga_root_dir self; mtga_data_dir := mtga_data_dir self;
     mtga_assets_dir := mtga_assets_dir self; mtga_raw_dir := mtga_raw_dir self;
     lang := l; lang_table := t;
     default_lang_table := default_lang_table self;
     connections := connections self; enums := enums self |}.

Definition with_enums (self : reader) (e : enum_table) : reader :=
  {| mtga_root_dir := mtga_root_dir self; mtga_data_dir := mtga_data_dir self;
     mtga_assets_dir := mtga_assets_dir self; mtga_raw_dir := mtga_raw_dir self;
     lang := lang self; lang_table := lang_table self;
     default_lang_table := default_lang_table self;
     connections := connections self; enums := e |}.

(** What a database file can hold: integers of 64 bits. *)
Definition well_formed (db : database) : bool :=
  forallb (fun nt => forallb (forallb (fun cv => storable (snd cv))) (snd nt)) db.

(** [self.connections['CardDatabase'].cursor()], returning what the cursor
    can read.  A content with an integer beyond 64 bits is the content of
    no database file; the model takes such a file as a damaged one. *)
Definition cursor (self : reader) : result database :=
  match Py.dict_get String.eqb (connections self) "CardDatabase" with
  | None => Raise (KeyError "CardDatabase")
  | Some c =>
      if conn_open c then
        match conn_db c with
        | Some db =>
            if well_formed db then Ok db
            else Raise (DatabaseError "database disk image is malformed")
        | None => Raise (DatabaseError "file is not a database")
        end
      else Raise (ProgrammingError "Cannot operate on a closed database.")
  end.

(** [FROM name]: the table must exist. *)
Definition from_table (db : database) (name : string) : result table :=
  match Py.dict_get String.eqb db name with
  | Some t => Ok t
  | None => Raise (OperationalError ("no such table: " ++ name))
  end.

(** A statement whose text holds [{table_name}] as the f-string puts it,
    without quotes.  A plain name is read as the name of a table.  A
    hyphenated text, as Localizations_en-US, is read as a name and a minus
    sign, and the statement is a syntax error.  Any other text (with a
    blank, a comma, a dot, a comment in it) may make another statement of
    the query; the model does not follow the engine there and refuses the
    text, and the properties of the lookups are stated for the texts it
    understands. *)
Definition near_hyphen : string :=
  "near " ++ String "034"%char ("-" ++ String "034"%char ": syntax error").

Definition parse_table_name (text : string) : result string :=
  if is_plain_name text then Ok text
  else if is_hyphenated text then Raise (OperationalError near_hyphen)
  else Raise (OperationalError "syntax error").

Definition from_pasted (db : database) (text : string) : result table :=
  name <- parse_table_name text ;;
  from_table db name.

(** Truth value of a column value in Python. *)
Definition truthy (v : sqlval) : bool :=
  match v with
  | SNull => false
  | SInt n => negb (n =? 0)%Z
  | SText s => negb (String.eqb s "")
  end.

(** [str(v)], also what an f-string puts for [v]. *)
Definition py_str (v : sqlval) : string :=
  match v with
  | SNull => "None"
  | SInt n => Py.str_of_Z n
  | SText s => s
  end.

Definition str_of_table_name (t : option string) : string :=
  match t with
  | Some s => s
  | None => "None"
  end.

(** *** get_databases *)

Definition dbs : list string :=
  ["ArtCropDatabase"; "CardDatabase"; "ClientLocalization"; "altArtCredits";
   "altFlavorTexts"; "credits"].

(** [max(files, key=os.path.getctime)]: the first file of the greatest
    creation time; [ValueError] on an empty list. *)
Fixpoint max_by_ctime (best : file) (l : list file) : file :=
  match l with
  | [] => best
  | f :: l' =>
      if (file_ctime best <? file_ctime f)%Z then max_by_ctime f l'
      else max_by_ctime best l'
  end.

Definition max_ctime (l : list file) : result file :=
  match l with
  | [] => Raise (ValueError "max() arg is an empty sequence")
  | f :: l' => Ok (max_by_ctime f l')
  end.

Definition get_databases (fs : filesystem) (self : reader) : reader * bool :=
  match
    for_each
      (fun conns db =>
         f <- max_ctime
                (glob fs (Py.path_join (mtga_raw_dir self) ["Raw_" ++ db ++ "_*.mtga"])) ;;
         c <- sqlite3_connect f ;;
         Ok (Py.dict_set String.eqb conns db c))
      dbs (connections self)
  with
  | Ok conns => (with_connections self conns, true)
  | Raise _ => (with_connections self [], false)
  end.

(** *** set_language *)

Definition normalize (name : string) : string :=
  Py.lower (Py.replace (Py.replace name "-" "") "_" "").

(** [SELECT name FROM sqlite_master WHERE type='table' AND name LIKE
    'Localizations_%'], in catalog order. *)
Definition localization_tables (db : database) : list string :=
  filter (like "Localizations_%") (map fst db).

(** [{normalize(name.split('Localizations_')[1]): name for name in
    available_tables}]; the subscript raises when the name does not hold the
    separator. *)
Definition available_langs_of (available_tables : list string)
  : result (list (string * string)) :=
  for_each
    (fun d name =>
       match nth_error (Py.split name "Localizations_") 1 with
       | Some code => Ok (Py.dict_set String.eqb d (normalize code) name)
       | None => Raise IndexError
       end)
    available_tables [].

Definition not_available_message (lang : string) (keys : list string) : string :=
  "Language '" ++ lang ++ "' not available. Options: "
  ++ Py.join ", " (Py.sorted String.leb keys).

(** The method returns the reader as it leaves it, and the table it
    returns or the exception it raises. *)
Definition set_language (self : reader) (lang : string) : reader * result string :=
  match cursor self with
  | Raise e => (self, Raise e)
  | Ok db =>
      let available_tables := localization_tables db in
      match available_langs_of available_tables with
      | Raise e => (self, Raise e)
      | Ok available_langs =>
          match available_langs with
          | [] => (self, Raise (ValueError "No localization tables found in CardDatabase."))
          | _ :: _ =>
              let normalized_target := normalize lang in
              let matched_table := Py.dict_get String.eqb available_langs normalized_target in
              let default :=
                match Py.dict_get String.eqb available_langs (normalize "enUS") with
                | Some t => if String.eqb t "" then hd_error available_tables else Some t
                | None => hd_error available_tables
                end in
              match default with
              | None => (self, Raise StopIteration)
              | Some d =>
                  let self1 := with_default_lang_table self (Some d) in
                  match matched_table with
                  | Some t =>
                      if String.eqb t "" then
                        (self1, Raise (ValueError
                           (not_available_message lang (Py.dict_keys available_langs))))
                      else (with_lang self1 lang (Some t), Ok t)
                  | None =>
                      (self1, Raise (ValueError
                         (not_available_message lang (Py.dict_keys available_langs))))
                  end
              end
          end
      end
  end.

(** *** close *)

Definition close (self : reader) : reader * bool :=
  (with_connections self
     (map (fun nc => (fst nc, {| conn_open := false; conn_db := conn_db (snd nc) |}))
          (connections self)),
   true).

(** *** _lookup_localization and get_card_translation_id *)

(** [SELECT Loc FROM {table_name} WHERE LocId = ? ORDER BY Formatted DESC
    LIMIT 1], then [fetchone]. *)
Definition select_loc (t : table) (text_id : sqlval) : option row :=
  hd_error
    (map (fun r => [("Loc", col r "Loc")])
       (sql_limit 1
          (order_by_desc "Formatted"
             (filter (fun r => sql_eq (col r "LocId") text_id) t)))).

Definition _lookup_localization (self : reader) (text_id : sqlval)
  (table_name : option string) : result sqlval :=
  db <- cursor self ;;
  t <- from_pasted db (str_of_table_name table_name) ;;
  _ <- bind_parameter text_id ;;
  match select_loc t text_id with
  | Some r => Ok (col r "Loc")
  | None => Ok SNull
  end.

Definition option_string_eqb (a b : option string) : bool :=
  match a, b with
  | Some x, Some y => String.eqb x y
  | None, None => true
  | _, _ => false
  end.

Definition truthy_table (t : option string) : bool :=
  match t with
  | Some s => negb (String.eqb s "")
  | None => false
  end.

(** The [try] block: [Some v] when it returns [v], [None] when control
    leaves it at its end. *)
Definition translation_try (self : reader) (text_id : sqlval) : result (option sqlval) :=
  translation <- _lookup_localization self text_id (lang_table self) ;;
  if truthy translation then Ok (Some translation)
  else if truthy_table (default_lang_table self)
          && negb (option_string_eqb (default_lang_table self) (lang_table self))
  then
    fallback <- _lookup_localization self text_id (default_lang_table self) ;;
    if truthy fallback then Ok (Some fallback) else Ok None
  else Ok None.

Definition get_card_translation_id (self : reader) (text_id : sqlval) : result sqlval :=
  match text_id with
  | SNull => Ok SNull
  | _ =>
      match translation_try self text_id with
      | Ok (Some v) => Ok v
      | Ok None => Ok text_id
      | Raise _ => Ok text_id   (* except Exception: pass *)
      end
  end.

(** *** get_enums *)

(** [self.enums[enum_type][value] = text]. *)
Definition enums_set (e : enum_table) (enum_type value text : sqlval) : enum_table :=
  match Py.dict_get py_eqb e enum_type with
  | Some d => Py.dict_set py_eqb e enum_type (Py.dict_set py_eqb d value text)
  | None => e
  end.

(** The method assigns to [self.enums] as it goes; when a statement of
    the second loop raises, the assignments made so far stay. *)
Definition get_enums (self : reader) : reader * result bool :=
  match (db <- cursor self ;; from_table db "Enums") with
  | Raise x => (self, Raise x)
  | Ok t =>
      (* Select "Type" FROM Enums GROUP BY "Type" *)
      let types := distinct [] (map (fun r => col r "Type") t) in
      let e0 := fold_left (fun e ty => Py.dict_set py_eqb e ty []) types (enums self) in
      let (e, outcome) :=
        for_each_assign
          (fun e enum_type =>
             (* Select Value, LocId FROM Enums WHERE "Type" = ? *)
             match bind_parameter enum_type with
             | Raise x => (e, Raise x)
             | Ok _ =>
                 for_each_assign
                   (fun e linha =>
                      match get_card_translation_id self (col linha "LocId") with
                      | Ok text => (enums_set e enum_type (col linha "Value") text, Ok tt)
                      | Raise x => (e, Raise x)
                      end)
                   (filter (fun r => sql_eq (col r "Type") enum_type) t) e
             end)
          (Py.dict_keys e0) e0 in
      (with_enums self e, _ <- outcome ;; Ok true)
  end.

(** *** Card records *)

(** What a field of a card record can hold. *)
Inductive field_value : Type :=
| Plain (v : sqlval)
| AbilityRecord (d : list (string * sqlval))
| ArtResult (d : list (string * option image)).

Definition card_record : Type := list (string * field_value).

Definition get_card_abilities (self : reader) (ability_id : sqlval) : field_value :=
  match
    (db <- cursor self ;;
     t <- from_table db "Abilities" ;;
     _ <- bind_parameter ability_id ;;
     ret <- for_each
              (fun ret r =>
                 let linha := dict_factory r in
                 match Py.dict_get String.eqb linha "TextId" with
                 | None => Raise (KeyError "TextId")
                 | Some v =>
                     text <- get_card_translation_id self v ;;
                     Ok (ret ++ [Py.dict_set String.eqb linha "TextId" text])%list
                 end)
              (filter (fun r => sql_eq (col r "Id") ability_id) t) [] ;;
     Ok (match ret with
         | d :: _ => AbilityRecord d
         | [] => Plain SNull
         end))
  with
  | Ok v => v
  | Raise _ => Plain ability_id   (* except Exception: return ability_id *)
  end.

(** *** find_card_art_file and get_card_art_by_id *)

Definition art_pattern (self : reader) (card_id : sqlval) : string :=
  mtga_assets_dir self ++ Py.zfill (py_str card_id) 6 ++ "*.mtga".

(** [env.container.items()] of [UnityPy.load(file_name)]. *)
Definition container_items (f : file) : list asset :=
  match file_content_of f with
  | BundleFile c => c
  | _ => []
  end.

(** [path.split(".")[0].split("_")[-1]]. *)
Definition role_label (path : string) : string :=
  last (Py.split (hd "" (Py.split path ".")) "_") "".

Definition is_image_type (name : string) : bool :=
  String.eqb name "Texture2D" || String.eqb name "Sprite".

(** The body of the inner loop, for one object of the container. *)
Definition label_asset (card_id : sqlval) (ret : list (string * option image)) (a : asset)
  : list (string * option image) :=
  if is_image_type (asset_type a) then
    let image := asset_image a in
    let ret1 :=
      if Py.contains "Util" (asset_path a)
      then Py.dict_set String.eqb ret "util" image else ret in
    if Py.contains (py_str card_id ++ "_AIF.") (asset_path a)
    then Py.dict_set String.eqb ret1 "image" image
    else Py.dict_set String.eqb ret1 (role_label (asset_path a)) image
  else ret.

Definition find_card_art_file (fs : filesystem) (self : reader) (card_id : sqlval)
  : list (string * option image) :=
  fold_left
    (fun ret file_name => fold_left (label_asset card_id) (container_items file_name) ret)
    (glob fs (art_pattern self card_id))
    [("image", None); ("util", None)].

Definition get_card_art_by_id (fs : filesystem) (self : reader) (card_id : sqlval)
  : list (string * option image) :=
  find_card_art_file fs self card_id.

(** *** get_card_by_id and get_card_by_name *)

Definition is_text_key (key : string) : bool :=
  Py.contains "TextId" key || Py.contains "TitleId" key.

Definition is_ability_key (key : string) : bool := Py.contains "AbilityIds" key.

Definition is_art_key (key : string) : bool := Py.contains "ArtId" key.

Definition renamed (key : string) : string := Py.lower (Py.replace key "Id" "").

(** The body of [for key, val in linha.items()]. *)
Definition card_field (fs : filesystem) (self : reader) (get_art : bool)
  (tmp : card_record) (kv : string * sqlval) : result card_record :=
  let key := fst kv in
  let val := snd kv in
  if is_text_key key then
    v <- match val with
         | SNull => Ok val
         | _ => get_card_translation_id self val
         end ;;
    Ok (Py.dict_set String.eqb tmp (renamed key) (Plain v))
  else if is_ability_key key then
    Ok (Py.dict_set String.eqb tmp (renamed key)
          match val with
          | SNull => Plain val
          | _ => get_card_abilities self val
          end)
  else if is_art_key key then
    Ok (Py.dict_set String.eqb tmp "art"
          match val with
          | SNull => Plain val
          | _ => if negb get_art then Plain val
                 else ArtResult (get_card_art_by_id fs self val)
          end)
  else Ok (Py.dict_set String.eqb tmp key (Plain val)).

Definition get_card_by_id (fs : filesystem) (self : reader) (card_id : sqlval)
  (get_art : bool) : result (option card_record) :=
  db <- cursor self ;;
  t <- from_table db "Cards" ;;
  (* SELECT * FROM Cards WHERE GrpId = ? LIMIT 1 *)
  _ <- bind_parameter card_id ;;
  ret <- for_each
           (fun ret linha =>
              tmp <- for_each (card_field fs self get_art) (dict_factory linha) [] ;;
              Ok (ret ++ [tmp])%list)
           (sql_limit 1 (filter (fun r => sql_eq (col r "GrpId") card_id) t)) [] ;;
  Ok (hd_error ret).

(** The rows of Cards that [FROM Cards WHERE TitleId IN (select LocId from
    {lang_table} WHERE Loc like ?)] keeps, cut by [LIMIT ?] when [limit] is
    truthy. *)
Definition limited_cards (cards loc : table) (card_name : string) (limit : option Z)
  : list row :=
  let ids := map (fun r => col r "LocId")
               (filter (fun r => sql_like (col r "Loc") card_name) loc) in
  let found := filter (fun r => existsb (sql_eq (col r "TitleId")) ids) cards in
  match limit with
  | Some n => if (n =? 0)%Z then found else sql_limit n found
  | None => found
  end.

(** The parameters of the statement: the name, a text, and the limit when
    it is truthy. *)
Definition bind_limit (limit : option Z) : result unit :=
  match limit with
  | Some n => if (n =? 0)%Z then Ok tt else (_ <- bind_parameter (SInt n) ;; Ok tt)
  | None => Ok tt
  end.

(** [SELECT GrpId] of these rows. *)
Definition select_by_name (cards loc : table) (card_name : string) (limit : option Z)
  : list row :=
  map (fun r => [("GrpId", col r "GrpId")]) (limited_cards cards loc card_name limit).

Definition get_card_by_name (fs : filesystem) (self : reader) (card_name : string)
  (limit : option Z) (get_art : bool) : result (list (option card_record)) :=
  db <- cursor self ;;
  name <- parse_table_name (str_of_table_name (lang_table self)) ;;
  cards <- from_table db "Cards" ;;
  loc <- from_table db name ;;
  _ <- bind_limit limit ;;
  for_each
    (fun ret linha =>
       card <- get_card_by_id fs self (col linha "GrpId") get_art ;;
       Ok (ret ++ [card])%list)
    (select_by_name cards loc card_name limit) [].

(** *** __init__ *)

(** The object before [get_databases] runs: the directories are set, the
    class attributes still have their initial values. *)
Definition new_reader (root_dir : string) (language : string) : reader :=
  let data_dir := Py.path_join root_dir ["MTGA_Data"] in
  {| mtga_root_dir := root_dir;
     mtga_data_dir := data_dir;
     mtga_assets_dir := Py.path_join data_dir ["Downloads"; "AssetBundle"];
     mtga_raw_dir := Py.path_join data_dir ["Downloads"; "Raw"];
     lang := language; lang_table := None; default_lang_table := None;
     connections := []; enums := [] |}.

Definition mtga_reader (fs : filesystem) (root_dir : string) (language : string)
  : result reader :=
  let self1 := fst (get_databases fs (new_reader root_dir language)) in
  let (self2, matched) := set_language self1 language in
  _ <- matched ;;
  let (self3, loaded) := get_enums self2 in
  _ <- loaded ;;
  Ok self3.

End Mtga.

(* ================================================================== *)
(** ** inspect_mtga_db.py: [discover_databases] *)
(* ================================================================== *)

Module Inspect.
Import PyExc.

(** A [pathlib.Path], as its [parts]. *)
Definition path : Type := list string.

(** [Path(target)]: the components between separators, without the empty
    ones and the dots; the root is a part of its own. *)
Definition Path (target : string) : path :=
  ((if String.prefix "/" target then ["/"] else [])
   ++ filter (fun c => negb (String.eqb c "" || String.eqb c "."))
        (Py.split target "/"))%list.

(** [path.name]: the last part, unless it is the root. *)
Definition name (p : path) : string :=
  match rev p with
  | n :: _ => if String.eqb n "/" then "" else n
  | [] => ""
  end.

(** The characters after the last dot of [s] (given in reverse), and the
    number of characters before that dot. *)
Fixpoint rsplit_dot (rs : list ascii) (after : list ascii) : option (list ascii * nat) :=
  match rs with
  | [] => None
  | c :: rs' =>
      if Ascii.eqb c "." then Some (after, List.length rs')
      else rsplit_dot rs' (c :: after)
  end.

(** [path.suffix]: [i = name.rfind('.')], and [name[i:]] when
    [0 < i < len(name) - 1]. *)
Definition suffix (p : path) : string :=
  match rsplit_dot (rev (list_ascii_of_string (name p))) [] with
  | Some (after, i) =>
      if (0 <? i)%nat && (0 <? List.length after)%nat
      then String "." (string_of_list_ascii after)
      else ""
  | None => ""
  end.

Definition is_mtga (p : path) : bool := String.eqb (Py.lower (suffix p)) ".mtga".

(** Paths compare as their parts do, and strings by their characters. *)
Fixpoint path_leb (p q : path) : bool :=
  match p, q with
  | [], _ => true
  | _ :: _, [] => false
  | a :: p', b :: q' =>
      match String.compare a b with
      | Lt => true
      | Gt => false
      | Eq => path_leb p' q'
      end
  end.

Fixpoint path_eqb (p q : path) : bool :=
  match p, q with
  | [], [] => true
  | a :: p', b :: q' => String.eqb a b && path_eqb p' q'
  | _, _ => false
  end.

(** What the calls ask of the file system.  [no_home] says that the path
    begins with [~] or [~user] and that no home directory is known for it:
    [expanduser] then raises. *)
Record filesystem : Type := {
  expanduser : path -> path;
  no_home : path -> bool;
  is_file : path -> bool;
  is_dir : path -> bool;
  glob : path -> string -> list path;
  resolve : path -> path
}.

(** A pattern with [**] inside a component, as in [**.mtga]. *)
Definition misplaced_recursion (pattern : string) : bool :=
  existsb (fun part => Py.contains "**" part && negb (String.eqb part "**"))
    (Py.split pattern "/").

(** [path.glob(pattern)] refuses an empty pattern, an absolute one, and one
    where [**] is not a whole component (pathlib of Python 3.12 and
    before). *)
Definition path_glob (fs : filesystem) (p : path) (pattern : string)
  : result (list path) :=
  if String.eqb pattern "" then Raise (ValueError "Unacceptable pattern: ''")
  else if String.prefix "/" pattern
  then Raise (NotImplementedError "Non-relative patterns are unsupported")
  else if misplaced_recursion pattern
  then Raise (ValueError "Invalid pattern: '**' can only be an entire path component")
  else Ok (glob fs p pattern).

(** The first loop: what one target adds to [discovered]. *)
Definition discover_target (fs : filesystem) (recursive : bool)
  (discovered : list path) (target : string) : result (list path) :=
  if no_home fs (Path target)
  then Raise (RuntimeError "Could not determine home directory.")
  else
  let p := expanduser fs (Path target) in
  if is_file fs p && is_mtga p then Ok (discovered ++ [p])%list
  else if is_dir fs p then
    let pattern := if recursive then "**/*.mtga" else "*.mtga" in
    found <- path_glob fs p pattern ;;
    Ok (discovered ++ Py.sorted path_leb found)%list
  else
    found <- path_glob fs [] target ;;
    Ok (discovered ++ Py.sorted path_leb found)%list.

(** The second loop, with its [seen] set and its [unique_paths] list. *)
Fixpoint unique_loop (fs : filesystem) (discovered seen unique_paths : list path)
  : list path :=
  match discovered with
  | [] => unique_paths
  | p :: rest =>
      if negb (is_mtga p) then unique_loop fs rest seen unique_paths
      else if existsb (path_eqb (resolve fs p)) seen
      then unique_loop fs rest seen unique_paths
      else unique_loop fs rest (resolve fs p :: seen) (unique_paths ++ [p])%list
  end.

Definition discover_databases (fs : filesystem) (targets : list string)
  (recursive : bool) : result (list path) :=
  discovered <- for_each (discover_target fs recursive) targets [] ;;
  Ok (Py.sorted path_leb (unique_loop fs discovered [] [])).

End Inspect.

(* ================================================================== *)
(** ** Notions of the specification and of the proofs *)
(* ================================================================== *)

Module Notions.

(** A separator of a language identifier: a hyphen or an underscore. *)
Definition is_separator (c : ascii) : bool := Ascii.eqb c "-" || Ascii.eqb c "_".

(** Two language identifiers differ only in letter case or in separators:
    character by character they agree up to case, with separators put in
    or left out on either side. *)
Inductive same_language : string -> string -> Prop :=
| same_empty : same_language "" ""
| same_letter (c d : ascii) (s t : string) :
    Py.lower_ascii c = Py.lower_ascii d ->
    same_language s t -> same_language (String c s) (String d t)
| same_separator_left (c : ascii) (s t : string) :
    is_separator c = true -> same_language s t -> same_language (String c s) t
| same_separator_right (c : ascii) (s t : string) :
    is_separator c = true -> same_language s t -> same_language s (String c t).

(** [key] occurs in [text]. *)
Definition occurs_in (key text : string) : Prop :=
  exists before after, text = before ++ key ++ after.

(** The columns of a card row by their naming convention: a text or title
    reference, an ability reference, an art reference, or a plain field;
    the first convention that applies decides. *)
Inductive field_kind : Type :=
| TextReference
| AbilityReference
| ArtReference
| PlainField.

Definition classify (key : string) : field_kind :=
  if Mtga.is_text_key key then TextReference
  else if Mtga.is_ability_key key then AbilityReference
  else if Mtga.is_art_key key then ArtReference
  else PlainField.

(** The key of the card record under which a column is stored. *)
Definition record_key (key : string) : string :=
  match classify key with
  | TextReference | AbilityReference => Mtga.renamed key
  | ArtReference => "art"
  | PlainField => key
  end.

(** A mark is a character that neither [replace("Id", "")] nor [lower]
    takes away, and that "art" does not have. *)
Definition is_mark (c : ascii) : bool := Ascii.eqb c "x" || Ascii.eqb c "l".

Fixpoint has_mark (s : string) : bool :=
  match s with
  | EmptyString => false
  | String c s' => is_mark c || has_mark s'
  end.

(** The roles under which the art extractor files an object of a bundle:
    none when it is not an image; otherwise "util" when its path has the
    utility marker, and "image" when its path has the identifier and the
    art marker, the last token of its base name when not. *)
Definition asset_roles (card_id : Sql.sqlval) (a : Mtga.asset) : list string :=
  if Mtga.is_image_type (Mtga.asset_type a) then
    ((if Py.contains "Util" (Mtga.asset_path a) then ["util"] else [])
     ++ [if Py.contains (Mtga.py_str card_id ++ "_AIF.") (Mtga.asset_path a)
         then "image" else Mtga.role_label (Mtga.asset_path a)])%list
  else [].

(** A stored value and a parameter that the engine compares as they are,
    whatever type the column was declared with: not a number with a text
    (there the declared type decides whether one is converted). *)
Definition same_class (stored param : Sql.sqlval) : bool :=
  match stored, param with
  | Sql.SInt _, Sql.SText _ | Sql.SText _, Sql.SInt _ => false
  | _, _ => true
  end.

(** The number of separators in a path or a pattern. *)
Fixpoint count_sep (s : list ascii) : nat :=
  match s with
  | [] => 0
  | c :: s' => (if Ascii.eqb c "/" then 1 else 0) + count_sep s'
  end.

(** [p] is one of the paths that [target] stands for: the target itself
    when it is a database file, the matches of the pattern in it when it
    is a directory, and the matches of the target as a pattern otherwise. *)
Definition reaches (fs : Inspect.filesystem) (recursive : bool) (target : string)
  (p : Inspect.path) : Prop :=
  let t := Inspect.expanduser fs (Inspect.Path target) in
  if Inspect.is_file fs t && Inspect.is_mtga t then p = t
  else if Inspect.is_dir fs t
  then In p (Inspect.glob fs t (if recursive then "**/*.mtga" else "*.mtga"))
  else In p (Inspect.glob fs [] target).

End Notions.

(* ================================================================== *)
(** ** Sample databases and readers *)
(* ================================================================== *)

Module Scenario.
Import PyExc Sql Mtga.

Definition loc_row (loc_id : Z) (loc : string) (formatted : Z) : row :=
  [("LocId", SInt loc_id); ("Loc", SText loc); ("Formatted", SInt formatted)].

(** A reader on an open card database, with its two language tables set. *)
Definition reader_on (db : database) (active default : option string) : reader :=
  {| mtga_root_dir := "/games/MTGA";
     mtga_data_dir := "/games/MTGA/MTGA_Data";
     mtga_assets_dir := "/games/MTGA/MTGA_Data/Downloads/AssetBundle";
     mtga_raw_dir := "/games/MTGA/MTGA_Data/Downloads/Raw";
     lang := "enUS"; lang_table := active; default_lang_table := default;
     connections := [("CardDatabase", {| conn_open := true; conn_db := Some db |})];
     enums := [] |}.

(** The localization table of the Lightning Bolt scenario. *)
Definition bolt_table : table :=
  [loc_row 10 "Lightning Bolt" 1; loc_row 10 "lightning bolt" 0].

Definition bolt_db : database :=
  [("Localizations_enUS", bolt_table);
   ("Localizations_jaJP", [loc_row 10 "Inazuma" 1]);
   ("Cards", []); ("Abilities", []); ("Enums", [])].

Definition bolt_reader : reader :=
  reader_on bolt_db (Some "Localizations_enUS") (Some "Localizations_enUS").

(** A Japanese table whose text 10 is stored empty, next to an English
    table that has it. *)
Definition empty_loc_db : database :=
  [("Localizations_enUS", [loc_row 10 "Lightning Bolt" 1]);
   ("Localizations_jaJP", [loc_row 10 "" 1]);
   ("Cards", []); ("Abilities", []); ("Enums", [])].

Definition empty_loc_reader : reader :=
  reader_on empty_loc_db (Some "Localizations_jaJP") (Some "Localizations_enUS").

(** The same reader after [close]. *)
Definition closed_reader : reader := fst (close bolt_reader).

(** A card database with the tables Localizations_enUS and
    Localizations_jaJP, before a language is chosen. *)
Definition two_languages_db : database :=
  [("Cards", []); ("Abilities", []); ("Enums", []);
   ("Localizations_enUS", [loc_row 10 "Lightning Bolt" 1]);
   ("Localizations_jaJP", [loc_row 10 "Inazuma" 1])].

Definition two_languages_reader : reader := reader_on two_languages_db None None.

(** Two cards with their titles; the first has no art. *)
Definition card_row (grp_id : Z) (art_id : sqlval) (title_id : Z) : row :=
  [("GrpId", SInt grp_id); ("ArtId", art_id); ("TitleId", SInt title_id)].

Definition cards_db : database :=
  [("Localizations_enUS",
     [loc_row 10 "Lightning Bolt" 1; loc_row 11 "Lightning Helix" 1]);
   ("Cards", [card_row 7 SNull 10; card_row 8 (SInt 123) 11]);
   ("Abilities", []); ("Enums", [])].

Definition cards_reader : reader :=
  reader_on cards_db (Some "Localizations_enUS") (Some "Localizations_enUS").

(** The records of the two cards, without art extraction. *)
Definition bolt_record : card_record :=
  [("GrpId", Plain (SInt 7)); ("art", Plain SNull);
   ("title", Plain (SText "Lightning Bolt"))].

Definition helix_record : card_record :=
  [("GrpId", Plain (SInt 8)); ("art", Plain (SInt 123));
   ("title", Plain (SText "Lightning Helix"))].

(** A Cards table in which two rows carry the identifier 7. *)
Definition repeated_db : database :=
  [("Localizations_enUS",
     [loc_row 10 "Lightning Bolt" 1; loc_row 11 "Lightning Helix" 1]);
   ("Cards", [card_row 7 SNull 10; card_row 7 (SInt 123) 11]);
   ("Abilities", []); ("Enums", [])].

Definition repeated_reader : reader :=
  reader_on repeated_db (Some "Localizations_enUS") (Some "Localizations_enUS").

(** An installation whose card database has no localization table. *)
Definition raw_file (name : string) (db : database) : file :=
  {| file_path := "/games/MTGA/MTGA_Data/Downloads/Raw/" ++ name;
     file_ctime := 1;
     file_content_of := SqliteFile db;
     file_opens := true |}.

(** A bundle of card art 123 where the game keeps it: in the AssetBundle
    directory, under a name that starts with the padded identifier. *)
Definition art_texture : asset :=
  {| asset_path := "Assets/Core/CardArt/000000/000123_AIF.tga";
     asset_type := "Texture2D";
     asset_image := Some [[(0, 0, 0)%Z]] |}.

Definition art_fs : filesystem :=
  [{| file_path := "/games/MTGA/MTGA_Data/Downloads/AssetBundle/000123_CardArt_ab12.mtga";
      file_ctime := 1;
      file_content_of := BundleFile [art_texture];
      file_opens := true |}].

(** The one place where the pattern of the extractor finds a bundle: next
    to the AssetBundle directory, with its name glued to the identifier. *)
Definition glued_fs : filesystem :=
  [{| file_path := "/games/MTGA/MTGA_Data/Downloads/AssetBundle000123_CardArt_ab12.mtga";
      file_ctime := 1;
      file_content_of := BundleFile [art_texture];
      file_opens := true |}].

Definition bare_fs : filesystem :=
  [raw_file "Raw_ArtCropDatabase_1a.mtga" [];
   raw_file "Raw_CardDatabase_2b.mtga" [("Cards", []); ("Abilities", []); ("Enums", [])];
   raw_file "Raw_ClientLocalization_3c.mtga" [];
   raw_file "Raw_altArtCredits_4d.mtga" [];
   raw_file "Raw_altFlavorTexts_5e.mtga" [];
   raw_file "Raw_credits_6f.mtga" []].

(** A working directory /w with the database a.mtga and the directory
    data: the file is reached as "a.mtga" and as "data/../a.mtga". *)
Definition same_file (p : Inspect.path) : bool :=
  Inspect.path_eqb p ["a.mtga"] || Inspect.path_eqb p ["data"; ".."; "a.mtga"].

Definition two_ways_fs : Inspect.filesystem :=
  {| Inspect.expanduser := fun p => p;
     Inspect.no_home := fun _ => false;
     Inspect.is_file := same_file;
     Inspect.is_dir := fun p => Inspect.path_eqb p ["data"];
     Inspect.glob := fun _ _ => [];
     Inspect.resolve :=
       fun p => if same_file p then ["/"; "w"; "a.mtga"] else ("/" :: "w" :: p)%list |}.

End Scenario.

(* ================================================================== *)
(** ** More sample installations *)
(* ================================================================== *)

Module Samples.
Import PyExc Sql Mtga.

(** A database file in the Raw directory, with its creation time. *)
Definition raw_at (name : string) (ctime : Z) (db : database) : file :=
  {| file_path := "/games/MTGA/MTGA_Data/Downloads/Raw/" ++ name;
     file_ctime := ctime;
     file_content_of := SqliteFile db;
     file_opens := true |}.

(** An installation with two card databases, the second one newer. *)
Definition updated_fs : filesystem :=
  [raw_at "Raw_ArtCropDatabase_1a.mtga" 1 [];
   raw_at "Raw_CardDatabase_old.mtga" 1 Scenario.bolt_db;
   raw_at "Raw_CardDatabase_new.mtga" 5 Scenario.cards_db;
   raw_at "Raw_ClientLocalization_3c.mtga" 1 [];
   raw_at "Raw_altArtCredits_4d.mtga" 1 [];
   raw_at "Raw_altFlavorTexts_5e.mtga" 1 [];
   raw_at "Raw_credits_6f.mtga" 1 []].

(** The same installation without its credits database. *)
Definition incomplete_fs : filesystem := removelast updated_fs.

(** An installation whose newest card database cannot be opened. *)
Definition locked_fs : filesystem :=
  {| file_path := "/games/MTGA/MTGA_Data/Downloads/Raw/Raw_CardDatabase_zz.mtga";
     file_ctime := 9;
     file_content_of := OtherFile;
     file_opens := false |} :: updated_fs.

(** A catalog with a table that the LIKE pattern lets through although
    its name does not hold the prefix as it is written. *)
Definition lowercase_db : database :=
  [("Localizations_enUS", []); ("localizations_fr", []);
   ("Cards", []); ("Abilities", []); ("Enums", [])].

Definition lowercase_reader : reader := Scenario.reader_on lowercase_db None None.

(** A card database with every table filled in. *)
Definition full_db : database :=
  [("Localizations_enUS",
     [Scenario.loc_row 10 "Lightning Bolt" 1;
      Scenario.loc_row 20 "Lightning Bolt deals 3 damage to any target." 1;
      Scenario.loc_row 30 "Creature" 1;
      Scenario.loc_row 31 "Instant" 1;
      Scenario.loc_row 32 "Red" 1]);
   ("Cards",
     [[("GrpId", SInt 7); ("ArtId", SInt 123); ("TitleId", SInt 10);
       ("AbilityIds", SInt 5); ("Power", SText "3")]]);
   ("Abilities", [[("Id", SInt 5); ("TextId", SInt 20)]]);
   ("Enums",
     [[("Type", SText "CardType"); ("Value", SInt 1); ("LocId", SInt 30)];
      [("Type", SText "Color"); ("Value", SInt 4); ("LocId", SInt 32)];
      [("Type", SText "CardType"); ("Value", SInt 2); ("LocId", SInt 31)]])].

Definition full_reader : reader :=
  Scenario.reader_on full_db (Some "Localizations_enUS") (Some "Localizations_enUS").

(** A bundle with two textures that are both filed under "Art", next to
    the AssetBundle directory where the pattern of the extractor looks. *)
Definition texture (path : string) (shade : Z) : asset :=
  {| asset_path := path;
     asset_type := "Texture2D";
     asset_image := Some [[(shade, shade, shade)]] |}.

Definition doubled_fs : filesystem :=
  [{| file_path := "/games/MTGA/MTGA_Data/Downloads/AssetBundle000123_CardArt_ab12.mtga";
      file_ctime := 1;
      file_content_of :=
        BundleFile [texture "Assets/000123_Art.tga" 1; texture "Assets/999999_Art.tga" 2];
      file_opens := true |}].


(** An installation whose card database has every table. *)
Definition installed_fs : filesystem :=
  [raw_at "Raw_ArtCropDatabase_1a.mtga" 1 [];
   raw_at "Raw_CardDatabase_2b.mtga" 2 full_db;
   raw_at "Raw_ClientLocalization_3c.mtga" 1 [];
   raw_at "Raw_altArtCredits_4d.mtga" 1 [];
   raw_at "Raw_altFlavorTexts_5e.mtga" 1 [];
   raw_at "Raw_credits_6f.mtga" 1 []].


(** A catalog whose Portuguese table is named as the language code pt-BR is
    written, with a hyphen.  Its text 11 is stored empty. *)
Definition hyphen_db : database :=
  [("Localizations_enUS", [Scenario.loc_row 10 "Lightning Bolt" 1; Scenario.loc_row 11 "Shock" 1]);
   ("Localizations_pt-BR", [Scenario.loc_row 10 "Raio" 1; Scenario.loc_row 11 "" 1]);
   ("Cards", [Scenario.card_row 7 SNull 10]); ("Abilities", []); ("Enums", [])].

(** The reader after [set_language("pt-BR")] on that catalog. *)
Definition hyphen_reader : reader :=
  fst (set_language (Scenario.reader_on hyphen_db None None) "pt-BR").

(** A catalog whose Portuguese table has no row for the text 10. *)
Definition absent_db : database :=
  [("Localizations_enUS", [Scenario.loc_row 10 "Lightning Bolt" 1]);
   ("Localizations_ptBR", [Scenario.loc_row 11 "Choque" 1]);
   ("Cards", []); ("Abilities", []); ("Enums", [])].

Definition absent_reader : reader :=
  fst (set_language (Scenario.reader_on absent_db None None) "pt-BR").


End Samples.

(* ================================================================== *)
(** ** Notions for the further properties *)
(* ================================================================== *)

Module Derived.
Import PyExc Sql Mtga.

(** What [card_field] stores for a column, by the kind of the column. *)
Definition stored_value (fs : filesystem) (self : reader) (get_art : bool)
  (key : string) (val : sqlval) : field_value :=
  match Notions.classify key with
  | Notions.TextReference =>
      Plain match get_card_translation_id self val with
            | Ok text => text
            | Raise _ => val
            end
  | Notions.AbilityReference =>
      match val with
      | SNull => Plain SNull
      | _ => get_card_abilities self val
      end
  | Notions.ArtReference =>
      match val with
      | SNull => Plain SNull
      | _ => if get_art then ArtResult (find_card_art_file fs self val) else Plain val
      end
  | Notions.PlainField => Plain val
  end.

(** The translation of a text identifier, as a value:
    [get_card_translation_id] never raises. *)
Definition translated (self : reader) (text_id : sqlval) : sqlval :=
  match get_card_translation_id self text_id with
  | Ok text => text
  | Raise _ => text_id
  end.

(** The categories that [get_enums] finds in a table of enums. *)
Definition enum_types (t : table) : list sqlval :=
  distinct [] (map (fun r => col r "Type") t).

(** The two loops of [get_enums], as runs of assignments. *)
Definition load_rows (self : reader) (enum_type : sqlval) (rows : list row)
  (e : enum_table) : enum_table :=
  fold_left
    (fun e linha =>
       enums_set e enum_type (col linha "Value") (translated self (col linha "LocId")))
    rows e.

Definition load_types (self : reader) (t : table) (types : list sqlval)
  (e : enum_table) : enum_table :=
  fold_left
    (fun e enum_type =>
       load_rows self enum_type (filter (fun r => sql_eq (col r "Type") enum_type) t) e)
    types e.

(** The enum table after the first loop: every category of the table is
    there, and empty. *)
Definition reset_types (t : table) (e : enum_table) : enum_table :=
  fold_left (fun e ty => Py.dict_set py_eqb e ty []) (enum_types t) e.


(** A target that the first loop of [discover_databases] gets past: its
    home directory, if it names one, is known, and it is a database file,
    a directory, or a pattern that [Path().glob] takes. *)
Definition accepted (fs : Inspect.filesystem) (target : string) : bool :=
  let p := Inspect.expanduser fs (Inspect.Path target) in
  negb (Inspect.no_home fs (Inspect.Path target))
  && ((Inspect.is_file fs p && Inspect.is_mtga p)
      || Inspect.is_dir fs p
      || negb (String.eqb target EmptyString || String.prefix "/" target
               || Inspect.misplaced_recursion target)).

(** The newest file of a database name cannot be had: there is no file
    of the name, or the newest one does not open. *)
Definition unavailable (fs : Mtga.filesystem) (self : reader) (db : string) : Prop :=
  Mtga.glob fs (Py.path_join (mtga_raw_dir self) ["Raw_" ++ db ++ "_*.mtga"]) = []
  \/ exists f,
       max_ctime (Mtga.glob fs (Py.path_join (mtga_raw_dir self) ["Raw_" ++ db ++ "_*.mtga"]))
       = Ok f
       /\ file_opens f = false.

End Derived.

(* ================================================================== *)
(** ** inspect_mtga_db.py: identifiers and the listing of tables *)
(* ================================================================== *)

Module Summary.
Import PyExc Sql.

(** The double quote character. *)
Definition quote_char : ascii := "034"%char.
Definition quote_string : string := String quote_char EmptyString.

(** [quote_identifier]: the name between double quotes, each double quote
    of the name written twice. *)
Definition quote_identifier (name : string) : string :=
  quote_string
  ++ Py.replace name quote_string (quote_string ++ quote_string)
  ++ quote_string.

(** How SQLite reads an identifier in double quotes, after the opening
    quote: two quotes in a row stand for one quote of the name, a single
    one ends it.  The result is the name and the text after it. *)
Fixpoint read_quoted (s : string) : option (string * string) :=
  match s with
  | EmptyString => None
  | String c s' =>
      if Ascii.eqb c quote_char then
        match s' with
        | String c' s'' =>
            if Ascii.eqb c' quote_char
            then match read_quoted s'' with
                 | Some (n, rest) => Some (String quote_char n, rest)
                 | None => None
                 end
            else Some (EmptyString, s')
        | EmptyString => Some (EmptyString, EmptyString)
        end
      else match read_quoted s' with
           | Some (n, rest) => Some (String c n, rest)
           | None => None
           end
  end.

Definition read_identifier (s : string) : option (string * string) :=
  match s with
  | String c s' => if Ascii.eqb c quote_char then read_quoted s' else None
  | EmptyString => None
  end.

(** A row of sqlite_master: the kind of the object, its name and the
    statement that made it. *)
Record master_row : Type := {
  m_type : string;
  m_name : string;
  m_sql : sqlval
}.

(** The two listings of [inspect_database]:
    SELECT name FROM sqlite_master WHERE type = 'table'
      AND name NOT LIKE 'sqlite_%' ORDER BY name,
    SELECT name FROM sqlite_master WHERE type = 'view' ORDER BY name. *)
Definition tables (master : list master_row) : list string :=
  Py.sorted String.leb
    (map m_name
       (filter (fun r => String.eqb (m_type r) "table" && negb (like "sqlite_%" (m_name r)))
          master)).

Definition views (master : list master_row) : list string :=
  Py.sorted String.leb
    (map m_name (filter (fun r => String.eqb (m_type r) "view") master)).

(** The statement of an object, as [inspect_table] and [inspect_view] ask
    for it: SELECT sql FROM sqlite_master WHERE type = kind AND name = ?,
    then [fetchone()]; [None] is the [None] of [fetchone], which the
    subscript [0] turns into a TypeError. *)
Definition fetch_sql (master : list master_row) (kind name : string) : option sqlval :=
  match find (fun r => String.eqb (m_type r) kind && String.eqb (m_name r) name) master with
  | Some r => Some (m_sql r)
  | None => None
  end.

(** A sqlite_master with a table of the engine, a table whose name only
    begins like one, an index and a view. *)
Definition sample_master : list master_row :=
  [{| m_type := "table"; m_name := "Cards"; m_sql := SText "CREATE TABLE Cards (GrpId)" |};
   {| m_type := "table"; m_name := "sqlite_sequence";
      m_sql := SText "CREATE TABLE sqlite_sequence(name,seq)" |};
   {| m_type := "table"; m_name := "Sqlite3Cache";
      m_sql := SText "CREATE TABLE Sqlite3Cache (k)" |};
   {| m_type := "index"; m_name := "sqlite_autoindex_Cards_1"; m_sql := SNull |};
   {| m_type := "view"; m_name := "CardNames";
      m_sql := SText "CREATE VIEW CardNames AS SELECT GrpId FROM Cards" |};
   {| m_type := "table"; m_name := "Abilities"; m_sql := SText "CREATE TABLE Abilities (Id)" |}].

End Summary.

(* ================================================================== *)
(** ** Facts about the Python builtins *)
(* ================================================================== *)

Section SortedFacts.
Context {A : Type} (leb : A -> A -> bool).
Hypothesis leb_total : forall x y, leb x y = true \/ leb y x = true.

Let le (x y : A) : Prop := leb x y = true.

Lemma insert_perm (x : A) (l : list A) : Permutation (x :: l) (Py.insert leb x l).
Proof.
  induction l as [|h t IH]; simpl.
  - apply Permutation_refl.
  - destruct (leb x h).
    + apply Permutation_refl.
    + eapply Permutation_trans; [apply perm_swap|].
      apply perm_skip, IH.
Qed.

Lemma sorted_perm (l : list A) : Permutation l (Py.sorted leb l).
Proof.
  induction l as [|h t IH]; simpl.
  - apply perm_nil.
  - eapply Permutation_trans; [apply perm_skip, IH|].
    apply insert_perm.
Qed.

Lemma sorted_In (l : list A) (x : A) : In x (Py.sorted leb l) <-> In x l.
Proof.
  split; apply Permutation_in.
  - apply Permutation_sym, sorted_perm.
  - apply sorted_perm.
Qed.

Lemma insert_Sorted (x : A) (l : list A) :
  Sorted le l -> Sorted le (Py.insert leb x l).
Proof.
  induction 1 as [|h t Hs IH Hhd]; simpl.
  - repeat constructor.
  - destruct (leb x h) eqn:E.
    + constructor; [constructor; assumption|]. constructor. exact E.
    + constructor; [exact IH|].
      destruct t as [|h' t']; simpl.
      * constructor. destruct (leb_total x h) as [H|H]; [congruence|exact H].
      * destruct (leb x h').
        -- constructor. destruct (leb_total x h) as [H|H]; [congruence|exact H].
        -- inversion Hhd; subst. constructor. assumption.
Qed.

Lemma sorted_Sorted (l : list A) : Sorted le (Py.sorted leb l).
Proof.
  induction l as [|h t IH]; simpl.
  - constructor.
  - apply insert_Sorted, IH.
Qed.

Hypothesis leb_trans : forall x y z, leb x y = true -> leb y z = true -> leb x z = true.

Lemma sorted_head_least (l rest : list A) (x : A) :
  Py.sorted leb l = x :: rest -> forall y, In y l -> leb x y = true.
Proof.
  intros E y Hy.
  assert (Hs : StronglySorted le (x :: rest)).
  { rewrite <- E. apply Sorted_StronglySorted.
    - intros a b c. apply leb_trans.
    - apply sorted_Sorted. }
  apply sorted_In in Hy. rewrite E in Hy.
  destruct Hy as [->|Hy].
  - destruct (leb_total y y); assumption.
  - apply StronglySorted_inv in Hs. destruct Hs as [_ Hall].
    rewrite Forall_forall in Hall. apply Hall, Hy.
Qed.

End SortedFacts.

Section DictFacts.
Context {V : Type}.

Lemma dict_get_set_same (d : list (string * V)) (k : string) (v : V) :
  Py.dict_get String.eqb (Py.dict_set String.eqb d k v) k = Some v.
Proof.
  induction d as [|[k' v'] d IH]; simpl.
  - now rewrite String.eqb_refl.
  - destruct (String.eqb k' k) eqn:E; simpl; rewrite E; [reflexivity|exact IH].
Qed.

Lemma dict_get_set_other (d : list (string * V)) (k k0 : string) (v : V) :
  k <> k0 ->
  Py.dict_get String.eqb (Py.dict_set String.eqb d k v) k0
  = Py.dict_get String.eqb d k0.
Proof.
  intros Hne. induction d as [|[k' v'] d IH]; simpl.
  - destruct (String.eqb_spec k k0); [contradiction|reflexivity].
  - destruct (String.eqb_spec k' k) as [->|Hk]; simpl.
    + destruct (String.eqb_spec k k0); [contradiction|reflexivity].
    + destruct (String.eqb k' k0); [reflexivity|exact IH].
Qed.

Lemma dict_set_keys (d : list (string * V)) (k k0 : string) (v : V) :
  In k0 (Py.dict_keys (Py.dict_set String.eqb d k v))
  <-> k0 = k \/ In k0 (Py.dict_keys d).
Proof.
  unfold Py.dict_keys. induction d as [|[k' v'] d IH]; simpl.
  - intuition.
  - destruct (String.eqb_spec k' k) as [->|Hk]; simpl.
    + intuition.
    + rewrite IH. intuition.
Qed.

Lemma dict_get_In (d : list (string * V)) (k : string) (v : V) :
  Py.dict_get String.eqb d k = Some v -> In (k, v) d.
Proof.
  induction d as [|[k' v'] d IH]; simpl; [discriminate|].
  destruct (String.eqb_spec k' k) as [->|Hk].
  - intros [= ->]. now left.
  - intros H. right. apply IH, H.
Qed.

End DictFacts.

Lemma dict_set_In {V : Type} (d : list (string * V)) (k k0 : string) (v v0 : V) :
  In (k, v) (Py.dict_set String.eqb d k0 v0) -> (k, v) = (k0, v0) \/ In (k, v) d.
Proof.
  induction d as [|[k' v'] d IH]; simpl.
  - intros [E|[]]. left. now symmetry.
  - destruct (String.eqb_spec k' k0) as [->|Hne]; simpl.
    + intros [E|H]; [left; now symmetry|right; now right].
    + intros [E|H]; [right; now left|].
      destruct (IH H) as [E|Hin]; [now left|right; now right].
Qed.

Lemma dict_get_of_key {V : Type} (d : list (string * V)) (k : string) :
  In k (Py.dict_keys d) -> exists v, Py.dict_get String.eqb d k = Some v.
Proof.
  unfold Py.dict_keys. induction d as [|[k' v'] d IH]; simpl; [contradiction|].
  intros [->|H].
  - rewrite String.eqb_refl. eauto.
  - destruct (String.eqb k' k); eauto.
Qed.

Lemma filter_nil {A : Type} (f : A -> bool) (l : list A) :
  (forall x, In x l -> f x = false) -> filter f l = [].
Proof.
  induction l as [|a l IH]; simpl; intros H; [reflexivity|].
  rewrite (H a (or_introl eq_refl)). apply IH. intros x Hx. apply H. now right.
Qed.

(* ================================================================== *)
(** ** The order of ORDER BY *)
(* ================================================================== *)

Import PyExc Sql Mtga.

Lemma string_leb_trans (x y z : string) :
  String.leb x y = true -> String.leb y z = true -> String.leb x z = true.
Proof.
  unfold String.leb.
  destruct (String.compare x y) eqn:E1; try discriminate;
    destruct (String.compare y z) eqn:E2; try discriminate; intros _ _.
  - apply String.compare_eq_iff in E1. subst. now rewrite E2.
  - apply String.compare_eq_iff in E1. subst. now rewrite E2.
  - apply String.compare_eq_iff in E2. subst. now rewrite E1.
  - apply OrderedTypeEx.String_as_OT.cmp_lt in E1, E2.
    pose proof (OrderedTypeEx.String_as_OT.lt_trans _ _ _ E1 E2) as H.
    apply OrderedTypeEx.String_as_OT.cmp_lt in H.
    unfold OrderedTypeEx.String_as_OT.cmp in H. now rewrite H.
Qed.

Lemma sql_leb_total (a b : sqlval) : sql_leb a b = true \/ sql_leb b a = true.
Proof.
  destruct a, b; simpl; auto.
  - destruct (Z.leb_spec n n0); [now left|right]. apply Z.leb_le. lia.
  - apply String.leb_total.
Qed.

Lemma sql_leb_trans (a b c : sqlval) :
  sql_leb a b = true -> sql_leb b c = true -> sql_leb a c = true.
Proof.
  destruct a, b, c; simpl; try congruence.
  - rewrite !Z.leb_le. lia.
  - apply string_leb_trans.
Qed.

Lemma sql_eq_eq (a b : sqlval) : sql_eq a b = true -> a = b.
Proof.
  destruct a, b; simpl; try discriminate.
  - intros H. apply Z.eqb_eq in H. now subst.
  - intros H. apply String.eqb_eq in H. now subst.
Qed.

(** What a cursor reads can be bound again. *)
Lemma cursor_well_formed (self : reader) (db : database) :
  cursor self = Ok db -> well_formed db = true.
Proof.
  unfold cursor.
  destruct (Py.dict_get String.eqb (connections self) "CardDatabase") as [c|];
    [|discriminate].
  destruct (conn_open c); [|discriminate].
  destruct (conn_db c) as [db'|]; [|discriminate].
  destruct (well_formed db') eqn:E; [|discriminate].
  now intros [= <-].
Qed.

Lemma dict_factory_In (r : row) (k : string) (v : sqlval) :
  In (k, v) (dict_factory r) -> In (k, v) r.
Proof.
  unfold dict_factory.
  assert (H : forall d : list (string * sqlval),
             In (k, v) (fold_left (fun d cv => Py.dict_set String.eqb d (fst cv) (snd cv)) r d) ->
             In (k, v) d \/ In (k, v) r).
  { induction r as [|[k0 v0] r IH]; intros d; cbn [fold_left fst snd]; [now left|].
    intros Hin. destruct (IH _ Hin) as [Hd|Hr]; [|right; now right].
    destruct (dict_set_In _ _ _ _ _ Hd) as [E|Hd']; [right; left; now symmetry|now left]. }
  intros Hin. destruct (H [] Hin) as [[]|Hr]. exact Hr.
Qed.

Lemma col_storable (r : row) (column : string) :
  forallb (fun cv => storable (snd cv)) r = true -> storable (col r column) = true.
Proof.
  intros Hall. unfold col.
  destruct (Py.dict_get String.eqb (dict_factory r) column) as [v|] eqn:E; [|reflexivity].
  apply dict_get_In, dict_factory_In in E.
  rewrite forallb_forall in Hall. exact (Hall _ E).
Qed.

Lemma stored_storable (self : reader) (db : database) (name : string) (t : table)
  (r : row) (column : string) :
  cursor self = Ok db -> from_table db name = Ok t -> In r t ->
  storable (col r column) = true.
Proof.
  intros Hc Ht Hr. apply cursor_well_formed in Hc.
  unfold from_table in Ht.
  destruct (Py.dict_get String.eqb db name) as [t'|] eqn:E; [|discriminate].
  injection Ht as ->. apply dict_get_In in E.
  unfold well_formed in Hc. rewrite forallb_forall in Hc.
  specialize (Hc _ E). cbn [snd] in Hc. rewrite forallb_forall in Hc.
  apply col_storable, Hc, Hr.
Qed.

Lemma bind_parameter_ok (v : sqlval) : storable v = true -> bind_parameter v = Ok v.
Proof. intros H. unfold bind_parameter. now rewrite H. Qed.

Lemma bind_parameter_overflow (v : sqlval) :
  storable v = false ->
  bind_parameter v
  = Raise (OverflowError "Python int too large to convert to SQLite INTEGER").
Proof. intros H. unfold bind_parameter. now rewrite H. Qed.

(** A parameter that some row of the database equals can be bound. *)
Lemma found_storable (self : reader) (db : database) (name : string) (t : table)
  (r : row) (column : string) (v : sqlval) :
  cursor self = Ok db -> from_table db name = Ok t -> In r t ->
  sql_eq (col r column) v = true -> storable v = true.
Proof.
  intros Hc Ht Hr Heq. apply sql_eq_eq in Heq. subst v.
  eapply stored_storable; eassumption.
Qed.

Lemma from_pasted_plain (db : database) (text : string) :
  is_plain_name text = true -> from_pasted db text = from_table db text.
Proof. intros H. unfold from_pasted, parse_table_name. now rewrite H. Qed.

Lemma hyphenated_not_plain (text : string) :
  is_hyphenated text = true -> is_plain_name text = false.
Proof.
  assert (Hrun : forall s, forallb continues_name (list_ascii_of_string s) = true ->
                           name_run s = (s, EmptyString)).
  { induction s as [|c s IH]; cbn [list_ascii_of_string forallb name_run]; [reflexivity|].
    intros H. apply andb_true_iff in H. destruct H as [-> H]. now rewrite (IH H). }
  intros Hh. destruct (is_plain_name text) eqn:Hp; [|reflexivity].
  exfalso. unfold is_hyphenated in Hh.
  assert (E : name_run text = (text, EmptyString)).
  { apply Hrun. destruct text as [|c rest]; [discriminate|].
    unfold is_plain_name in Hp. apply andb_true_iff in Hp. destruct Hp as [Hp _].
    apply andb_true_iff in Hp. destruct Hp as [Hc Hrest].
    cbn [list_ascii_of_string forallb]. rewrite Hrest.
    unfold continues_name. now rewrite Hc. }
  rewrite E in Hh. rewrite andb_false_r in Hh. discriminate.
Qed.

Lemma from_pasted_refused (db : database) (text : string) :
  is_hyphenated text = true ->
  from_pasted db text = Raise (OperationalError near_hyphen).
Proof.
  intros H. unfold from_pasted, parse_table_name.
  now rewrite (hyphenated_not_plain _ H), H.
Qed.

(** The row that [ORDER BY column DESC LIMIT 1] keeps is one of the rows,
    and no row has a greater key. *)
Lemma order_by_desc_head (column : string) (l rest : list row) (r : row) :
  order_by_desc column l = r :: rest ->
  In r l /\ forall r', In r' l -> sql_leb (col r' column) (col r column) = true.
Proof.
  unfold order_by_desc. intros E. split.
  - apply (sorted_In (fun a b => sql_leb (col b column) (col a column))).
    rewrite E. now left.
  - intros r' Hr'.
    apply (sorted_head_least (fun a b => sql_leb (col b column) (col a column)))
      with (l := l) (rest := rest); auto.
    + intros x y. destruct (sql_leb_total (col y column) (col x column)); auto.
    + intros x y z H1 H2. eapply sql_leb_trans; eassumption.
Qed.

Lemma order_by_desc_nonempty (column : string) (l : list row) :
  l <> [] -> exists r rest, order_by_desc column l = r :: rest.
Proof.
  intros Hne. destruct (order_by_desc column l) as [|r rest] eqn:E; eauto.
  exfalso. apply Hne.
  apply Permutation_nil. rewrite <- E.
  apply Permutation_sym, sorted_perm.
Qed.

(* ================================================================== *)
(** ** get_card_translation_id *)
(* ================================================================== *)

(** The query of [_lookup_localization], by what the table holds. *)
Lemma select_loc_none (t : table) (text_id : sqlval) :
  (forall r, In r t -> sql_eq (col r "LocId") text_id = false) ->
  select_loc t text_id = None.
Proof.
  intros H. unfold select_loc. rewrite filter_nil by exact H. reflexivity.
Qed.

Lemma select_loc_some (t : table) (text_id : sqlval) (r0 : row) :
  In r0 t -> sql_eq (col r0 "LocId") text_id = true ->
  exists r,
    In r t /\ sql_eq (col r "LocId") text_id = true
    /\ (forall r', In r' t -> sql_eq (col r' "LocId") text_id = true ->
                   sql_leb (col r' "Formatted") (col r "Formatted") = true)
    /\ select_loc t text_id = Some [("Loc", col r "Loc")].
Proof.
  intros Hin Heq.
  set (rows := filter (fun r => sql_eq (col r "LocId") text_id) t).
  assert (Hne : rows <> []).
  { intros E. assert (Hr : In r0 rows) by (apply filter_In; auto).
    rewrite E in Hr. destruct Hr. }
  destruct (order_by_desc_nonempty "Formatted" rows Hne) as (r & rest & E).
  destruct (order_by_desc_head _ _ _ _ E) as [Hr Hmax].
  apply filter_In in Hr. destruct Hr as [Hrt Hrid].
  exists r. repeat split; auto.
  - intros r' Hr' Hid. apply Hmax. apply filter_In. auto.
  - unfold select_loc. fold rows. rewrite E. reflexivity.
Qed.

Lemma col_Loc_projection (v : sqlval) : col [("Loc", v)] "Loc" = v.
Proof. reflexivity. Qed.

Lemma sqlval_null_dec (v : sqlval) : {v = SNull} + {v <> SNull}.
Proof. destruct v; [now left| |]; right; discriminate. Qed.

(** The method by the outcome of its two lookups. *)
Lemma get_card_translation_id_cases (self : reader) (text_id : sqlval) :
  text_id <> SNull ->
  get_card_translation_id self text_id =
  match _lookup_localization self text_id (lang_table self) with
  | Raise _ => Ok text_id
  | Ok v =>
      if truthy v then Ok v
      else if truthy_table (default_lang_table self)
              && negb (option_string_eqb (default_lang_table self) (lang_table self))
      then match _lookup_localization self text_id (default_lang_table self) with
           | Raise _ => Ok text_id
           | Ok w => if truthy w then Ok w else Ok text_id
           end
      else Ok text_id
  end.
Proof.
  intros Hne. unfold get_card_translation_id, translation_try.
  destruct text_id; [congruence| |];
    (destruct (_lookup_localization self _ (lang_table self)) as [v|e]; simpl;
     [|reflexivity];
     destruct (truthy v); [reflexivity|];
     destruct (truthy_table (default_lang_table self)
               && negb (option_string_eqb (default_lang_table self) (lang_table self)));
     [|reflexivity];
     destruct (_lookup_localization self _ (default_lang_table self)) as [w|e]; simpl;
     [|reflexivity];
     destruct (truthy w); reflexivity).
Qed.

Lemma lookup_on_table (self : reader) (text_id : sqlval) (name : option string)
  (db : database) (t : table) :
  cursor self = Ok db ->
  is_plain_name (str_of_table_name name) = true ->
  from_table db (str_of_table_name name) = Ok t ->
  storable text_id = true ->
  _lookup_localization self text_id name =
  Ok match select_loc t text_id with
     | Some r => col r "Loc"
     | None => SNull
     end.
Proof.
  intros Hc Hplain Ht Hbind. unfold _lookup_localization. rewrite Hc. cbn [bind].
  rewrite (from_pasted_plain _ _ Hplain), Ht. cbn [bind].
  rewrite (bind_parameter_ok _ Hbind). cbn [bind].
  destruct (select_loc t text_id); reflexivity.
Qed.

(** A hyphenated table name makes the statement a syntax error. *)
Lemma lookup_refused (self : reader) (text_id : sqlval) (name : option string)
  (db : database) :
  cursor self = Ok db ->
  is_hyphenated (str_of_table_name name) = true ->
  _lookup_localization self text_id name = Raise (OperationalError near_hyphen).
Proof.
  intros Hc Hplain. unfold _lookup_localization. rewrite Hc. cbn [bind].
  now rewrite (from_pasted_refused _ _ Hplain).
Qed.

Lemma select_loc_found (t : table) (text_id : sqlval) (r : row) :
  select_loc t text_id = Some r ->
  exists r0, In r0 t /\ sql_eq (col r0 "LocId") text_id = true.
Proof.
  unfold select_loc. intros H.
  destruct (filter (fun r => sql_eq (col r "LocId") text_id) t) as [|r0 rows] eqn:E.
  - discriminate.
  - exists r0. apply (filter_In (fun r => sql_eq (col r "LocId") text_id)).
    rewrite E. now left.
Qed.

(** A lookup on a table without a row for the identifier finds nothing. *)
Lemma lookup_unresolved (self : reader) (text_id : sqlval) (name : option string) :
  (forall db t r, cursor self = Ok db ->
                  from_table db (str_of_table_name name) = Ok t ->
                  In r t -> sql_eq (col r "LocId") text_id = false) ->
  _lookup_localization self text_id name = Ok SNull
  \/ exists e, _lookup_localization self text_id name = Raise e.
Proof.
  intros H. unfold _lookup_localization, from_pasted, parse_table_name.
  destruct (cursor self) as [db|e] eqn:Hc; cbn [bind]; [|eauto].
  destruct (is_plain_name (str_of_table_name name)); cbn [bind];
    [|destruct (is_hyphenated (str_of_table_name name)); cbn [bind]; eauto].
  destruct (from_table db (str_of_table_name name)) as [t|e] eqn:Ht; cbn [bind]; [|eauto].
  destruct (bind_parameter text_id); cbn [bind]; [|eauto].
  rewrite select_loc_none; [now left|].
  intros r Hr. eapply H; eauto.
Qed.

Lemma option_string_eqb_eq (a b : option string) :
  option_string_eqb a b = true -> a = b.
Proof.
  destruct a, b; simpl; try discriminate; auto.
  intros H. apply String.eqb_eq in H. now subst.
Qed.

Lemma sql_eq_null_r (v : sqlval) : sql_eq v SNull = false.
Proof. destruct v; reflexivity. Qed.

Lemma select_loc_not_null (t : table) (text_id : sqlval) (r : row) :
  select_loc t text_id = Some r -> text_id <> SNull.
Proof.
  intros H ->. rewrite select_loc_none in H; [discriminate|].
  intros r' _. apply sql_eq_null_r.
Qed.

(** C3, as stated, fails: a lookup that raises is not treated as one that
    finds nothing.  On the catalog with the table Localizations_pt-BR,
    which [set_language] selects for "pt-BR", the lookup in the active
    table raises (the name is pasted into the statement without quotes),
    the default table holds the text 10, and the identifier comes back;
    had the active table only lacked the text, the text of the default
    table would have come back. *)
Lemma failed_lookup_is_not_not_found :
  snd (set_language (Scenario.reader_on Samples.hyphen_db None None) "pt-BR")
  = Ok "Localizations_pt-BR"
  /\ _lookup_localization Samples.hyphen_reader (SInt 10)
       (lang_table Samples.hyphen_reader)
     = Raise (OperationalError near_hyphen)
  /\ _lookup_localization Samples.hyphen_reader (SInt 10)
       (default_lang_table Samples.hyphen_reader)
     = Ok (SText "Lightning Bolt")
  /\ get_card_translation_id Samples.hyphen_reader (SInt 10) = Ok (SInt 10)
  /\ _lookup_localization Samples.absent_reader (SInt 10)
       (lang_table Samples.absent_reader)
     = Ok SNull
  /\ get_card_translation_id Samples.absent_reader (SInt 10)
     = Ok (SText "Lightning Bolt").
Proof. repeat split; reflexivity. Qed.

(** C3, amended.  [get_card_translation_id] never raises, and a null
    identifier comes back as it is.  Let the names of the two tables be
    texts that the engine reads as a name or refuses, and let the rows of
    the two tables be compared with the identifier as they are (no number
    with a text).  Then an identifier that no row of the active and of the
    default localization table carries comes back as it is; and an
    exception of either lookup is swallowed and the identifier comes back.
    An exception of the lookup in the active table ends the call at once:
    the default table is not asked, whatever it holds. *)
Theorem get_card_translation_id_soft_failure :
  forall (self : reader) (text_id : sqlval),
    (exists v, get_card_translation_id self text_id = Ok v)
    /\ (text_id = SNull -> get_card_translation_id self text_id = Ok SNull)
    /\ (understood (str_of_table_name (lang_table self)) = true ->
        understood (str_of_table_name (default_lang_table self)) = true ->
        (forall name db t r,
            name = lang_table self \/ name = default_lang_table self ->
            cursor self = Ok db ->
            from_table db (str_of_table_name name) = Ok t ->
            In r t -> Notions.same_class (col r "LocId") text_id = true) ->
        ((forall name db t r,
             name = lang_table self \/ name = default_lang_table self ->
             cursor self = Ok db ->
             from_table db (str_of_table_name name) = Ok t ->
             In r t -> sql_eq (col r "LocId") text_id = false) ->
          get_card_translation_id self text_id = Ok text_id)
        /\ (forall e,
               _lookup_localization self text_id (lang_table self) = Raise e ->
               get_card_translation_id self text_id = Ok text_id)
        /\ (forall v e,
               _lookup_localization self text_id (lang_table self) = Ok v ->
               truthy v = false ->
               _lookup_localization self text_id (default_lang_table self) = Raise e ->
               get_card_translation_id self text_id = Ok text_id)).
Proof.
  intros self text_id.
  destruct (sqlval_null_dec text_id) as [->|Hne].
  { split; [exists SNull; reflexivity|]. repeat split; intros; reflexivity. }
  pose proof (get_card_translation_id_cases self text_id Hne) as Hcases.
  split; [|split; [|intros _ _ _; repeat split]].
  - rewrite Hcases.
    repeat match goal with
           | |- context [match ?x with _ => _ end] => destruct x
           end; eauto.
  - intros ->. congruence.
  - intros Habs. rewrite Hcases.
    assert (Ha := lookup_unresolved self text_id (lang_table self)
                    (fun db t r => Habs _ db t r (or_introl eq_refl))).
    assert (Hd := lookup_unresolved self text_id (default_lang_table self)
                    (fun db t r => Habs _ db t r (or_intror eq_refl))).
    destruct Ha as [E|[e E]]; rewrite E; [simpl|reflexivity].
    destruct (truthy_table _ && _); [|reflexivity].
    destruct Hd as [E'|[e E']]; now rewrite E'.
  - intros e E. rewrite Hcases, E. reflexivity.
  - intros v e E Hv E'. rewrite Hcases, E, Hv, E'.
    destruct (truthy_table _ && _); reflexivity.
Qed.

Lemma get_card_translation_id_soft_failure_witness :
  get_card_translation_id Scenario.bolt_reader (SInt 99) = Ok (SInt 99)
  /\ get_card_translation_id Samples.hyphen_reader (SInt 10) = Ok (SInt 10).
Proof.
  assert (Hbolt : forall name db t r,
             name = lang_table Scenario.bolt_reader
             \/ name = default_lang_table Scenario.bolt_reader ->
             cursor Scenario.bolt_reader = Ok db ->
             from_table db (str_of_table_name name) = Ok t ->
             In r t ->
             Notions.same_class (col r "LocId") (SInt 99) = true
             /\ sql_eq (col r "LocId") (SInt 99) = false).
  { intros name db t r [ -> | -> ] Hc Ht Hr;
      vm_compute in Hc; injection Hc as <-;
      vm_compute in Ht; injection Ht as <-;
      simpl in Hr; decompose [or] Hr; subst; try (split; reflexivity); contradiction. }
  assert (Hhyphen : forall name db t r,
             name = lang_table Samples.hyphen_reader
             \/ name = default_lang_table Samples.hyphen_reader ->
             cursor Samples.hyphen_reader = Ok db ->
             from_table db (str_of_table_name name) = Ok t ->
             In r t ->
             Notions.same_class (col r "LocId") (SInt 10) = true).
  { intros name db t r [ -> | -> ] Hc Ht Hr;
      vm_compute in Hc; injection Hc as <-;
      vm_compute in Ht; injection Ht as <-;
      simpl in Hr; decompose [or] Hr; subst; try reflexivity; contradiction. }
  split.
  - apply (proj1 (proj2 (proj2
             (get_card_translation_id_soft_failure Scenario.bolt_reader (SInt 99)))
             eq_refl eq_refl
             (fun name db t r Hn Hc Ht Hr => proj1 (Hbolt name db t r Hn Hc Ht Hr)))).
    intros name db t r Hn Hc Ht Hr. exact (proj2 (Hbolt name db t r Hn Hc Ht Hr)).
  - apply (proj1 (proj2 (proj2 (proj2
             (get_card_translation_id_soft_failure Samples.hyphen_reader (SInt 10)))
             eq_refl eq_refl Hhyphen))
             (OperationalError near_hyphen)).
    vm_compute. reflexivity.
Defined.

(** C10, as stated, fails: on the catalog with the table
    Localizations_pt-BR, which [set_language] selects for "pt-BR", the row
    of the text 11 holds the empty string and the default table has the
    text; the lookup in the active table raises instead of finding the
    empty text, and the identifier comes back, not the text of the
    default table. *)
Lemma hyphen_table_does_not_fall_through :
  snd (set_language (Scenario.reader_on Samples.hyphen_db None None) "pt-BR")
  = Ok "Localizations_pt-BR"
  /\ cursor Samples.hyphen_reader = Ok Samples.hyphen_db
  /\ from_table Samples.hyphen_db (str_of_table_name (lang_table Samples.hyphen_reader))
     = Ok [Scenario.loc_row 10 "Raio" 1; Scenario.loc_row 11 "" 1]
  /\ select_loc [Scenario.loc_row 10 "Raio" 1; Scenario.loc_row 11 "" 1] (SInt 11)
     = Some [("Loc", SText "")]
  /\ _lookup_localization Samples.hyphen_reader (SInt 11)
       (default_lang_table Samples.hyphen_reader)
     = Ok (SText "Shock")
  /\ get_card_translation_id Samples.hyphen_reader (SInt 11) = Ok (SInt 11)
  /\ get_card_translation_id Samples.hyphen_reader (SInt 11) <> Ok (SText "Shock").
Proof. repeat split; try reflexivity. vm_compute. discriminate. Qed.

(** C10, amended.  The name of the active table is pasted into the
    statement without quotes.  When it is a plain name and the row that
    the query selects for an identifier holds the empty string, the lookup
    counts as unresolved: the result is the text of the default table when
    that lookup gives a truthy value, and the identifier itself otherwise
    (no truthy value, no default table, or an exception); the empty text
    is never handed back as a translation.  (The default table under a
    name that the engine reads as a name or refuses, its rows compared
    with the identifier as they are: no number with a text.)  When the
    name of the active table is hyphenated, as Localizations_pt-BR, the
    statement is refused and the identifier comes back, whatever the two
    tables hold. *)
Theorem empty_translation_falls_through :
  (forall (self : reader) (text_id : sqlval) (db : database) (t : table) (r : row),
      cursor self = Ok db ->
      is_plain_name (str_of_table_name (lang_table self)) = true ->
      understood (str_of_table_name (default_lang_table self)) = true ->
      (forall t' r',
          from_table db (str_of_table_name (default_lang_table self)) = Ok t' ->
          In r' t' -> Notions.same_class (col r' "LocId") text_id = true) ->
      from_table db (str_of_table_name (lang_table self)) = Ok t ->
      select_loc t text_id = Some r ->
      col r "Loc" = SText "" ->
      (truthy_table (default_lang_table self) = true ->
       get_card_translation_id self text_id =
       Ok match _lookup_localization self text_id (default_lang_table self) with
          | Ok v => if truthy v then v else text_id
          | Raise _ => text_id
          end)
      /\ (truthy_table (default_lang_table self) = false ->
          get_card_translation_id self text_id = Ok text_id)
      /\ (forall v, get_card_translation_id self text_id = Ok v ->
                    v = text_id \/ truthy v = true))
  /\ (forall (self : reader) (text_id : sqlval) (db : database),
         cursor self = Ok db ->
         is_hyphenated (str_of_table_name (lang_table self)) = true ->
         get_card_translation_id self text_id = Ok text_id).
Proof.
  split.
  - intros self text_id db t r Hc Hplain _ _ Ht Hsel Hloc.
    pose proof (select_loc_not_null _ _ _ Hsel) as Hne.
    destruct (select_loc_found _ _ _ Hsel) as (r0 & Hr0 & Hid).
    pose proof (found_storable _ _ _ _ _ _ _ Hc Ht Hr0 Hid) as Hbind.
    pose proof (get_card_translation_id_cases self text_id Hne) as Hcases.
    pose proof (lookup_on_table self text_id _ db t Hc Hplain Ht Hbind) as Hact.
    rewrite Hsel, Hloc in Hact. rewrite Hact in Hcases. simpl in Hcases.
    repeat split.
    + intros Hdef. rewrite Hcases, Hdef. simpl.
      destruct (option_string_eqb (default_lang_table self) (lang_table self)) eqn:E; simpl.
      * apply option_string_eqb_eq in E. rewrite E, Hact. reflexivity.
      * destruct (_lookup_localization self text_id (default_lang_table self)) as [w|e];
          [destruct (truthy w)|]; reflexivity.
    + intros Hdef. rewrite Hcases, Hdef. reflexivity.
    + intros v. rewrite Hcases.
      destruct (truthy_table _ && _); [|intros [= <-]; now left].
      destruct (_lookup_localization self text_id (default_lang_table self)) as [w|e];
        [destruct (truthy w) eqn:Hw|]; intros [= <-]; auto.
  - intros self text_id db Hc Hplain.
    destruct (sqlval_null_dec text_id) as [->|Hne]; [reflexivity|].
    rewrite (get_card_translation_id_cases self text_id Hne).
    now rewrite (lookup_refused self text_id _ db Hc Hplain).
Qed.

Lemma empty_translation_falls_through_witness :
  get_card_translation_id Scenario.empty_loc_reader (SInt 10) = Ok (SText "Lightning Bolt")
  /\ get_card_translation_id Samples.hyphen_reader (SInt 11) = Ok (SInt 11).
Proof.
  split.
  - exact (proj1 (proj1 empty_translation_falls_through
                    Scenario.empty_loc_reader (SInt 10) Scenario.empty_loc_db
                    [Scenario.loc_row 10 "" 1] [("Loc", SText "")]
                    eq_refl eq_refl eq_refl
                    (fun t' r' (Ht' : from_table Scenario.empty_loc_db "Localizations_enUS"
                                      = Ok t') =>
                       match Ht' in _ = o
                             return match o with
                                    | Ok t0 => In r' t0 ->
                                               Notions.same_class (col r' "LocId") (SInt 10)
                                               = true
                                    | Raise _ => True
                                    end
                       with
                       | eq_refl => fun Hr' =>
                           match Hr' with
                           | or_introl E => match E with eq_refl => eq_refl end
                           | or_intror F => match F with end
                           end
                       end)
                    eq_refl eq_refl eq_refl) eq_refl).
  - exact (proj2 empty_translation_falls_through
             Samples.hyphen_reader (SInt 11) Samples.hyphen_db eq_refl eq_refl).
Defined.

(** C2, as stated, fails: the active table has a row for identifier 10,
    its text is empty, and the reader returns the text of the default
    table. *)
Lemma active_table_text_not_returned :
  cursor Scenario.empty_loc_reader = Ok Scenario.empty_loc_db
  /\ from_table Scenario.empty_loc_db
       (str_of_table_name (lang_table Scenario.empty_loc_reader))
     = Ok [Scenario.loc_row 10 "" 1]
  /\ sql_eq (col (Scenario.loc_row 10 "" 1) "LocId") (SInt 10) = true
  /\ from_table Scenario.empty_loc_db
       (str_of_table_name (default_lang_table Scenario.empty_loc_reader))
     = Ok [Scenario.loc_row 10 "Lightning Bolt" 1]
  /\ get_card_translation_id Scenario.empty_loc_reader (SInt 10)
     = Ok (col (Scenario.loc_row 10 "Lightning Bolt" 1) "Loc")
  /\ get_card_translation_id Scenario.empty_loc_reader (SInt 10)
     <> Ok (col (Scenario.loc_row 10 "" 1) "Loc").
Proof.
  repeat split; try reflexivity. vm_compute. discriminate.
Qed.

(** C2, amended.  The name of the active table is pasted into the
    statement without quotes; let it be a plain name.  For an identifier
    with at least one row in the active table, the query selects a row of
    that identifier whose Formatted value no other row of the identifier
    exceeds, and when the text of that row is truthy (not empty, not NULL)
    [get_card_translation_id] returns it, whatever the default table
    holds.  With the rows (10, "Lightning Bolt", 1) and (10, "lightning
    bolt", 0), in either order, identifier 10 resolves to "Lightning
    Bolt". *)
Theorem active_translation_preferred :
  (forall (self : reader) (text_id : sqlval) (db : database) (t : table) (r0 : row),
      cursor self = Ok db ->
      is_plain_name (str_of_table_name (lang_table self)) = true ->
      from_table db (str_of_table_name (lang_table self)) = Ok t ->
      In r0 t -> sql_eq (col r0 "LocId") text_id = true ->
      exists r,
        In r t /\ sql_eq (col r "LocId") text_id = true
        /\ (forall r', In r' t -> sql_eq (col r' "LocId") text_id = true ->
                       sql_leb (col r' "Formatted") (col r "Formatted") = true)
        /\ select_loc t text_id = Some [("Loc", col r "Loc")]
        /\ (truthy (col r "Loc") = true ->
            get_card_translation_id self text_id = Ok (col r "Loc")))
  /\ get_card_translation_id Scenario.bolt_reader (SInt 10) = Ok (SText "Lightning Bolt")
  /\ get_card_translation_id
       (Scenario.reader_on [("Localizations_enUS", rev Scenario.bolt_table)]
          (Some "Localizations_enUS") (Some "Localizations_enUS"))
       (SInt 10) = Ok (SText "Lightning Bolt").
Proof.
  split; [|split; reflexivity].
  intros self text_id db t r0 Hc Hplain Ht Hin Hid.
  destruct (select_loc_some t text_id r0 Hin Hid) as (r & Hr & Hrid & Hmax & Hsel).
  exists r. repeat split; auto.
  intros Htruthy.
  assert (Hne : text_id <> SNull) by (eapply select_loc_not_null; eassumption).
  pose proof (found_storable _ _ _ _ _ _ _ Hc Ht Hin Hid) as Hbind.
  rewrite (get_card_translation_id_cases self text_id Hne).
  rewrite (lookup_on_table self text_id _ db t Hc Hplain Ht Hbind), Hsel, col_Loc_projection.
  now rewrite Htruthy.
Qed.

Lemma active_translation_preferred_witness :
  exists r,
    In r Scenario.bolt_table
    /\ sql_eq (col r "LocId") (SInt 10) = true
    /\ (forall r', In r' Scenario.bolt_table ->
                   sql_eq (col r' "LocId") (SInt 10) = true ->
                   sql_leb (col r' "Formatted") (col r "Formatted") = true)
    /\ select_loc Scenario.bolt_table (SInt 10) = Some [("Loc", col r "Loc")]
    /\ (truthy (col r "Loc") = true ->
        get_card_translation_id Scenario.bolt_reader (SInt 10) = Ok (col r "Loc")).
Proof.
  exact (proj1 active_translation_preferred
           Scenario.bolt_reader (SInt 10) Scenario.bolt_db Scenario.bolt_table
           (Scenario.loc_row 10 "lightning bolt" 0)
           eq_refl eq_refl eq_refl (or_intror (or_introl eq_refl)) eq_refl).
Defined.

(* ================================================================== *)
(** ** set_language *)
(* ================================================================== *)

Lemma prefix_empty (s : string) : String.prefix "" s = true.
Proof. destruct s; reflexivity. Qed.

Lemma prefix_append (p s : string) :
  String.prefix p s = true -> exists rest, s = p ++ rest.
Proof.
  revert s. induction p as [|a p IH]; intros s; simpl.
  - exists s. reflexivity.
  - destruct s as [|b s]; simpl; [discriminate|].
    destruct (ascii_dec a b) as [->|]; [|discriminate].
    intros H. destruct (IH s H) as [rest ->]. exists rest. reflexivity.
Qed.

(** Replacing a single character by nothing drops its occurrences. *)
Lemma replace_char_cons (o c : ascii) (s : string) :
  Py.replace (String c s) (String o "") "" =
  if Ascii.eqb c o then Py.replace s (String o "") ""
  else String c (Py.replace s (String o "") "").
Proof.
  unfold Py.replace. simpl.
  destruct (ascii_dec o c) as [->|Hne].
  - rewrite prefix_empty, Ascii.eqb_refl. reflexivity.
  - destruct (Ascii.eqb_spec c o) as [->|_]; [contradiction|reflexivity].
Qed.

Lemma lower_ascii_separator (c : ascii) :
  Notions.is_separator (Py.lower_ascii c) = Notions.is_separator c.
Proof.
  destruct c as [[] [] [] [] [] [] [] []]; reflexivity.
Qed.

Lemma normalize_cons (c : ascii) (s : string) :
  normalize (String c s) =
  if Notions.is_separator c then normalize s
  else String (Py.lower_ascii c) (normalize s).
Proof.
  unfold normalize, Notions.is_separator.
  rewrite replace_char_cons.
  destruct (Ascii.eqb c "-"); simpl; [reflexivity|].
  rewrite replace_char_cons.
  destruct (Ascii.eqb c "_"); reflexivity.
Qed.

Lemma same_language_normalize (s t : string) :
  Notions.same_language s t -> normalize s = normalize t.
Proof.
  induction 1 as [|c d s t Hcd _ IH|c s t Hc _ IH|c s t Hc _ IH].
  - reflexivity.
  - rewrite !normalize_cons.
    rewrite <- (lower_ascii_separator c), <- (lower_ascii_separator d), Hcd, IH.
    reflexivity.
  - rewrite normalize_cons, Hc. exact IH.
  - rewrite normalize_cons, Hc. exact IH.
Qed.

(** The outcome of [set_language] depends on the requested language by its
    normalized form only, as far as the selected table goes. *)
Lemma set_language_normalized (self : reader) (l1 l2 t : string) :
  normalize l1 = normalize l2 ->
  snd (set_language self l1) = Ok t ->
  snd (set_language self l2) = Ok t
  /\ lang_table (fst (set_language self l1)) = Some t
  /\ lang_table (fst (set_language self l2)) = Some t.
Proof.
  intros Hn. unfold set_language. rewrite <- Hn.
  destruct (cursor self) as [db|e]; [|discriminate].
  destruct (available_langs_of (localization_tables db)) as [[|kv d]|e];
    try discriminate.
  set (default := match Py.dict_get String.eqb (kv :: d) (normalize "enUS") with
                  | Some t0 => if String.eqb t0 "" then hd_error (localization_tables db)
                               else Some t0
                  | None => hd_error (localization_tables db)
                  end).
  destruct default as [d0|]; [|discriminate].
  destruct (Py.dict_get String.eqb (kv :: d) (normalize l1)) as [t0|]; [|discriminate].
  destruct (String.eqb t0 ""); [discriminate|].
  simpl. intros [= ->]. auto.
Qed.

Lemma string_app_assoc (a b c : string) : (a ++ b) ++ c = a ++ (b ++ c).
Proof. induction a as [|x a IH]; simpl; [reflexivity|now rewrite IH]. Qed.

Lemma string_app_empty_r (a : string) : a ++ "" = a.
Proof. induction a as [|x a IH]; simpl; [reflexivity|now rewrite IH]. Qed.

Lemma occurs_in_prefixed (key p s : string) :
  Notions.occurs_in key s -> Notions.occurs_in key (p ++ s).
Proof.
  intros (b & a & ->). exists (p ++ b), a. now rewrite string_app_assoc.
Qed.

Lemma occurs_in_join (sep key : string) (l : list string) :
  In key l -> Notions.occurs_in key (Py.join sep l).
Proof.
  unfold Py.join. induction l as [|x l IH]; [contradiction|].
  intros [->|Hin].
  - destruct l as [|y l]; simpl.
    + exists "", "". now rewrite string_app_empty_r.
    + exists "", (sep ++ String.concat sep (y :: l)). reflexivity.
  - destruct l as [|y l]; [contradiction|].
    change (String.concat sep (x :: y :: l))
      with (x ++ sep ++ String.concat sep (y :: l)).
    apply occurs_in_prefixed, occurs_in_prefixed, IH, Hin.
Qed.

Lemma split_from_nonempty (sep : string) (s : string) :
  forall skip cur, Py.split_from sep skip cur s <> [].
Proof.
  induction s as [|c s IH]; intros skip cur; cbn [Py.split_from]; [discriminate|].
  destruct skip; [|apply IH].
  destruct (String.prefix sep (String c s)); [discriminate|apply IH].
Qed.

(** A table name that starts with the prefix has a language code. *)
Lemma split_localizations (name : string) :
  String.prefix "Localizations_" name = true ->
  exists code, nth_error (Py.split name "Localizations_") 1 = Some code.
Proof.
  intros H. apply prefix_append in H. destruct H as [rest ->].
  unfold Py.split. simpl. rewrite prefix_empty.
  destruct (Py.split_from "Localizations_" 0 [] rest) as [|code l] eqn:E.
  - exfalso. exact (split_from_nonempty _ _ _ _ E).
  - exists code. reflexivity.
Qed.

(** The keys of the dict comprehension of [set_language]. *)
Lemma available_langs_keys (tables : list string) :
  (forall name, In name tables ->
                exists code, nth_error (Py.split name "Localizations_") 1 = Some code) ->
  forall acc,
  exists d,
    for_each
      (fun d name =>
         match nth_error (Py.split name "Localizations_") 1 with
         | Some code => Ok (Py.dict_set String.eqb d (normalize code) name)
         | None => Raise IndexError
         end) tables acc = Ok d
    /\ forall k,
        In k (Py.dict_keys d) <->
        In k (Py.dict_keys acc)
        \/ exists name code,
            In name tables
            /\ nth_error (Py.split name "Localizations_") 1 = Some code
            /\ normalize code = k.
Proof.
  induction tables as [|name tables IH]; intros Hall acc; cbn [for_each].
  - exists acc. split; [reflexivity|]. intros k. split; [auto|].
    intros [H|(n & c & [] & _)]. exact H.
  - destruct (Hall name (or_introl eq_refl)) as [code Hcode]. rewrite Hcode.
    cbn [bind].
    destruct (IH (fun n Hn => Hall n (or_intror Hn))
                 (Py.dict_set String.eqb acc (normalize code) name)) as (d & Hd & Hkeys).
    exists d. split; [exact Hd|]. intros k. rewrite Hkeys, dict_set_keys.
    split.
    + intros [[->|H]|(n & c & Hn & Hc & Hk)].
      * right. exists name, code. repeat split; auto. now left.
      * now left.
      * right. exists n, c. repeat split; auto. now right.
    + intros [H|(n & c & [->|Hn] & Hc & Hk)].
      * left. now right.
      * left. left. rewrite Hcode in Hc. injection Hc as <-. now symmetry.
      * right. exists n, c. auto.
Qed.

Lemma dict_get_none_keys {V : Type} (d : list (string * V)) (k : string) :
  ~ In k (Py.dict_keys d) -> Py.dict_get String.eqb d k = None.
Proof.
  unfold Py.dict_keys. induction d as [|[k' v] d IH]; simpl; [reflexivity|].
  intros H. destruct (String.eqb_spec k' k) as [->|_].
  - exfalso. apply H. now left.
  - apply IH. intros Hin. apply H. now right.
Qed.

(** The constructor stops at [set_language] when the card database has no
    localization table. *)
Lemma mtga_reader_no_tables (fs : filesystem) (root_dir language : string)
  (db : database) :
  cursor (fst (get_databases fs (new_reader root_dir language))) = Ok db ->
  localization_tables db = [] ->
  mtga_reader fs root_dir language
  = Raise (ValueError "No localization tables found in CardDatabase.").
Proof.
  intros Hc Hnone. unfold mtga_reader, set_language. rewrite Hc, Hnone. reflexivity.
Qed.

Lemma set_language_unavailable_general (self : reader) (language : string)
  (db : database) :
  cursor self = Ok db ->
  (forall name, In name (localization_tables db) ->
                String.prefix "Localizations_" name = true) ->
  (forall name code,
      In name (localization_tables db) ->
      nth_error (Py.split name "Localizations_") 1 = Some code ->
      normalize code <> normalize language) ->
  exists msg,
    snd (set_language self language) = Raise (ValueError msg)
    /\ forall name code,
        In name (localization_tables db) ->
        nth_error (Py.split name "Localizations_") 1 = Some code ->
        Notions.occurs_in (normalize code) msg.
Proof.
  intros Hc Hschema Hnomatch. unfold set_language. rewrite Hc.
  unfold available_langs_of.
  destruct (available_langs_keys (localization_tables db)
              (fun n Hn => split_localizations n (Hschema n Hn)) [])
    as (d & -> & Hkeys).
  destruct d as [|kv d].
  - eexists. split; [reflexivity|].
    intros name code Hn Hcode. exfalso.
    assert (H : In (normalize code) (Py.dict_keys (@nil (string * string)))).
    { apply Hkeys. right. eauto. }
    destruct H.
  - assert (Hne : localization_tables db <> []).
    { intros E. rewrite E in Hkeys.
      destruct (proj1 (Hkeys (fst kv)) (or_introl eq_refl))
        as [[]|(n & c & [] & _)]. }
    assert (Hget : Py.dict_get String.eqb (kv :: d) (normalize language) = None).
    { apply dict_get_none_keys. intros Hin. apply Hkeys in Hin.
      destruct Hin as [[]|(n & c & Hn & Hcode & Hk)].
      exact (Hnomatch n c Hn Hcode Hk). }
    rewrite Hget.
    match goal with
    | |- context [match ?x with Some _ => _ | None => (self, Raise StopIteration) end] =>
        assert (Hdef : exists d0, x = Some d0)
    end.
    { destruct (localization_tables db) as [|t0 ts]; [contradiction|].
      destruct (Py.dict_get String.eqb (kv :: d) (normalize "enUS")) as [t1|];
        [destruct (String.eqb t1 "")|]; simpl; eauto. }
    destruct Hdef as [d0 ->].
    eexists. split; [reflexivity|].
    intros name code Hn Hcode. unfold not_available_message.
    apply occurs_in_prefixed, occurs_in_prefixed, occurs_in_prefixed.
    apply occurs_in_join. apply sorted_In.
    apply Hkeys. right. eauto.
Qed.

(** C4. With localization tables named Localizations_<code>, a request for
    a language whose normalized form is the key of no table makes
    [set_language] raise a ValueError, and the normalized key of every
    available table occurs in its message; asking for "xx" with the tables
    Localizations_enUS and Localizations_jaJP gives a message that lists
    "enus" and "jajp".  When the card database has no localization table,
    the constructor raises. *)
Theorem set_language_unavailable :
  (forall (self : reader) (language : string) (db : database),
      cursor self = Ok db ->
      (forall name, In name (localization_tables db) ->
                    String.prefix "Localizations_" name = true) ->
      (forall name code,
          In name (localization_tables db) ->
          nth_error (Py.split name "Localizations_") 1 = Some code ->
          normalize code <> normalize language) ->
      exists msg,
        snd (set_language self language) = Raise (ValueError msg)
        /\ forall name code,
            In name (localization_tables db) ->
            nth_error (Py.split name "Localizations_") 1 = Some code ->
            Notions.occurs_in (normalize code) msg)
  /\ snd (set_language Scenario.two_languages_reader "xx")
     = Raise (ValueError "Language 'xx' not available. Options: enus, jajp")
  /\ (forall (fs : filesystem) (root_dir language : string) (db : database),
         cursor (fst (get_databases fs (new_reader root_dir language))) = Ok db ->
         localization_tables db = [] ->
         mtga_reader fs root_dir language
         = Raise (ValueError "No localization tables found in CardDatabase.")).
Proof.
  split; [exact set_language_unavailable_general|].
  split; [reflexivity|].
  exact mtga_reader_no_tables.
Qed.

Lemma set_language_unavailable_witness :
  (exists msg,
      snd (set_language Scenario.two_languages_reader "xx") = Raise (ValueError msg)
      /\ Notions.occurs_in "enus" msg /\ Notions.occurs_in "jajp" msg)
  /\ mtga_reader Scenario.bare_fs "/games/MTGA" "enUS"
     = Raise (ValueError "No localization tables found in CardDatabase.").
Proof.
  split.
  - destruct (proj1 set_language_unavailable
                Scenario.two_languages_reader "xx" Scenario.two_languages_db eq_refl)
      as (msg & Hmsg & Hocc).
    + intros name H. vm_compute in H.
      destruct H as [<-|[<-|[]]]; reflexivity.
    + intros name code H Hcode. vm_compute in H.
      destruct H as [<-|[<-|[]]]; vm_compute in Hcode;
        injection Hcode as <-; vm_compute; discriminate.
    + exists msg. split; [exact Hmsg|]. split.
      * apply (Hocc "Localizations_enUS" "enUS"); [now left|reflexivity].
      * apply (Hocc "Localizations_jaJP" "jaJP"); [right; now left|reflexivity].
  - exact (proj2 (proj2 set_language_unavailable)
             Scenario.bare_fs "/games/MTGA" "enUS"
             [("Cards", []); ("Abilities", []); ("Enums", [])] eq_refl eq_refl).
Defined.

(* ================================================================== *)
(** ** Card records *)
(* ================================================================== *)

Import Notions.

Lemma has_mark_app (a b : string) : has_mark (a ++ b) = has_mark a || has_mark b.
Proof.
  induction a as [|c a IH]; simpl; [reflexivity|].
  now rewrite IH, orb_assoc.
Qed.

Lemma has_mark_contains (sub s : string) :
  Py.contains sub s = true -> has_mark sub = true -> has_mark s = true.
Proof.
  intros Hc Hm. induction s as [|c s IH]; cbn [Py.contains] in Hc.
  - rewrite orb_false_r in Hc. apply prefix_append in Hc. destruct Hc as [rest E].
    rewrite E, has_mark_app, Hm. reflexivity.
  - apply orb_true_iff in Hc. destruct Hc as [Hc|Hc].
    + apply prefix_append in Hc. destruct Hc as [rest E].
      rewrite E, has_mark_app, Hm. reflexivity.
    + simpl. rewrite (IH Hc). apply orb_true_r.
Qed.

Lemma has_mark_replace_Id (n : nat) :
  forall s, (String.length s <= n)%nat ->
            has_mark s = true -> has_mark (Py.replace s "Id" "") = true.
Proof.
  unfold Py.replace.
  induction n as [|n IH]; intros s Hlen Hm.
  - destruct s; [discriminate|simpl in Hlen; lia].
  - destruct s as [|c s]; [discriminate|].
    cbn [Py.replace_from].
    destruct (String.prefix "Id" (String c s)) eqn:Hp.
    + apply prefix_append in Hp. destruct Hp as [rest E].
      simpl in E. injection E as -> ->.
      simpl. simpl in Hm, Hlen. apply IH; [lia|exact Hm].
    + simpl in Hm. simpl. apply orb_true_iff in Hm.
      destruct Hm as [Hm|Hm]; [now rewrite Hm|].
      rewrite IH; [apply orb_true_r| |exact Hm]. simpl in Hlen. lia.
Qed.

Lemma is_mark_lower (c : ascii) : is_mark c = true -> is_mark (Py.lower_ascii c) = true.
Proof.
  unfold is_mark. intros H. apply orb_true_iff in H.
  destruct H as [H|H]; apply Ascii.eqb_eq in H; subst; reflexivity.
Qed.

Lemma has_mark_lower (s : string) : has_mark s = true -> has_mark (Py.lower s) = true.
Proof.
  induction s as [|c s IH]; simpl; [discriminate|].
  intros H. apply orb_true_iff in H. destruct H as [H|H].
  - now rewrite is_mark_lower.
  - rewrite IH by exact H. apply orb_true_r.
Qed.

(** A text, title or ability reference is never stored under "art". *)
Lemma renamed_has_mark (key : string) :
  is_text_key key = true \/ is_ability_key key = true ->
  has_mark (renamed key) = true.
Proof.
  intros H. unfold renamed. apply has_mark_lower.
  apply (has_mark_replace_Id (String.length key)); [lia|].
  unfold is_text_key, is_ability_key in H.
  destruct H as [H|H]; [apply orb_true_iff in H; destruct H as [H|H]|];
    eapply has_mark_contains; try exact H; reflexivity.
Qed.

Lemma lower_ascii_not_G (c : ascii) : Py.lower_ascii c <> "G"%char.
Proof.
  destruct c as [[] [] [] [] [] [] [] []]; vm_compute; discriminate.
Qed.

Lemma renamed_not_GrpId (key : string) : renamed key <> "GrpId".
Proof.
  unfold renamed. destruct (Py.replace key "Id" "") as [|c s]; simpl; [discriminate|].
  intros [= H _]. exact (lower_ascii_not_G c H).
Qed.

Lemma get_card_translation_id_total (self : reader) (text_id : sqlval) :
  exists v, get_card_translation_id self text_id = Ok v.
Proof.
  unfold get_card_translation_id.
  destruct text_id; [eauto| |];
    destruct (translation_try self _) as [[v|]|e]; eauto.
Qed.

(** A loop of dict assignments whose bodies may raise but do not: what it
    leaves under one key. *)
Lemma for_each_set_get {X V : Type} (body : list (string * V) -> X -> result (list (string * V)))
  (fk : X -> string) (key : string) (x : V) (l : list X) :
  (forall d a, In a l ->
     exists v, body d a = Ok (Py.dict_set String.eqb d (fk a) v)
               /\ (fk a = key -> v = x)) ->
  forall d,
    (Py.dict_get String.eqb d key = Some x \/ exists a, In a l /\ fk a = key) ->
    exists d', for_each body l d = Ok d'
               /\ Py.dict_get String.eqb d' key = Some x.
Proof.
  induction l as [|a l IH]; intros Hbody d Hd; cbn [for_each].
  - exists d. split; [reflexivity|]. destruct Hd as [H|(a & [] & _)]. exact H.
  - destruct (Hbody d a (or_introl eq_refl)) as (v & -> & Hv). cbn [bind].
    apply IH.
    + intros d0 b Hb. apply Hbody. now right.
    + destruct (String.eqb_spec (fk a) key) as [E|E].
      * left. rewrite (Hv E), <- E. apply dict_get_set_same.
      * rewrite dict_get_set_other by exact E.
        destruct Hd as [H|(b & [->|Hb] & Hk)]; [now left|contradiction|].
        right. eauto.
Qed.

(** A loop that appends one result per element. *)
Lemma for_each_collect {X Y : Type} (f : X -> result Y) (l : list X) :
  forall acc out,
    for_each (fun ret x => y <- f x ;; Ok (ret ++ [y])%list) l acc = Ok out ->
    exists ys, out = (acc ++ ys)%list /\ Forall2 (fun x y => f x = Ok y) l ys.
Proof.
  induction l as [|x l IH]; intros acc out; cbn [for_each].
  - intros [= <-]. exists []. split; [now rewrite app_nil_r|constructor].
  - destruct (f x) as [y|e] eqn:E; cbn [bind]; [|discriminate].
    intros H. destruct (IH _ _ H) as (ys & -> & Hall).
    exists (y :: ys). split.
    + now rewrite <- app_assoc.
    + constructor; assumption.
Qed.

Lemma dict_set_NoDup {V : Type} (d : list (string * V)) (k : string) (v : V) :
  NoDup (Py.dict_keys d) -> NoDup (Py.dict_keys (Py.dict_set String.eqb d k v)).
Proof.
  unfold Py.dict_keys. induction d as [|[k' v'] d IH]; simpl; intros H.
  - constructor; [intros []|constructor].
  - inversion H as [|? ? Hnotin Hnd]; subst.
    destruct (String.eqb_spec k' k) as [->|Hk]; simpl.
    + constructor; assumption.
    + constructor; [|apply IH, Hnd].
      intros Hin. apply (dict_set_keys d k k' v) in Hin.
      destruct Hin as [E|Hin]; [congruence|contradiction].
Qed.

Lemma dict_factory_NoDup (r : row) : NoDup (Py.dict_keys (dict_factory r)).
Proof.
  unfold dict_factory.
  assert (H : forall d : list (string * sqlval),
             NoDup (Py.dict_keys d) ->
             NoDup (Py.dict_keys
                      (fold_left (fun d cv => Py.dict_set String.eqb d (fst cv) (snd cv)) r d))).
  { induction r as [|cv r IH]; intros d Hd; simpl; [exact Hd|].
    apply IH, dict_set_NoDup, Hd. }
  apply H. constructor.
Qed.

Lemma dict_get_NoDup {V : Type} (d : list (string * V)) (k : string) (v : V) :
  NoDup (Py.dict_keys d) -> In (k, v) d -> Py.dict_get String.eqb d k = Some v.
Proof.
  unfold Py.dict_keys. induction d as [|[k' v'] d IH]; simpl; [contradiction|].
  intros Hnd [E|Hin].
  - injection E as -> ->. now rewrite String.eqb_refl.
  - inversion Hnd as [|? ? Hnotin Hnd']; subst.
    destruct (String.eqb_spec k' k) as [->|_].
    + exfalso. apply Hnotin. apply (in_map fst) in Hin. exact Hin.
    + apply IH; assumption.
Qed.

(** What [card_field] writes, by the kind of the column. *)
Lemma card_field_writes (fs : filesystem) (self : reader) (get_art : bool)
  (tmp : card_record) (key : string) (val : sqlval) :
  exists v,
    card_field fs self get_art tmp (key, val)
    = Ok (Py.dict_set String.eqb tmp (Notions.record_key key) v)
    /\ (Notions.classify key = Notions.ArtReference -> val = SNull -> v = Plain SNull)
    /\ (Notions.classify key = Notions.PlainField -> v = Plain val).
Proof.
  unfold card_field, Notions.record_key, Notions.classify. cbn [fst snd].
  destruct (is_text_key key).
  - destruct val.
    + cbn [bind]. eexists. split; [reflexivity|]. split; discriminate.
    + destruct (get_card_translation_id_total self (SInt n)) as [v ->].
      cbn [bind]. eexists. split; [reflexivity|]. split; discriminate.
    + destruct (get_card_translation_id_total self (SText s)) as [v ->].
      cbn [bind]. eexists. split; [reflexivity|]. split; discriminate.
  - destruct (is_ability_key key).
    + eexists. split; [reflexivity|]. split; discriminate.
    + destruct (is_art_key key).
      * eexists. split; [reflexivity|]. split; [|discriminate].
        intros _ ->. reflexivity.
      * eexists. split; [reflexivity|]. split; [discriminate|reflexivity].
Qed.

Lemma record_key_art (key : string) :
  Notions.record_key key = "art" ->
  Notions.classify key = Notions.ArtReference \/ key = "art".
Proof.
  unfold Notions.record_key, Notions.classify.
  destruct (is_text_key key) eqn:Ht.
  - intros E. pose proof (renamed_has_mark key (or_introl Ht)) as H.
    rewrite E in H. discriminate.
  - destruct (is_ability_key key) eqn:Ha.
    + intros E. pose proof (renamed_has_mark key (or_intror Ha)) as H.
      rewrite E in H. discriminate.
    + destruct (is_art_key key); auto.
Qed.

Lemma record_key_GrpId (key : string) :
  Notions.record_key key = "GrpId" ->
  Notions.classify key = Notions.PlainField /\ key = "GrpId".
Proof.
  unfold Notions.record_key, Notions.classify.
  destruct (is_text_key key); [intros E; now apply renamed_not_GrpId in E|].
  destruct (is_ability_key key); [intros E; now apply renamed_not_GrpId in E|].
  destruct (is_art_key key); [discriminate|auto].
Qed.

(** [get_card_by_id] by the rows the table has for the identifier. *)
Lemma get_card_by_id_none (fs : filesystem) (self : reader) (card_id : sqlval)
  (get_art : bool) (db : database) (cards : table) :
  cursor self = Ok db -> from_table db "Cards" = Ok cards ->
  storable card_id = true ->
  (forall r, In r cards -> sql_eq (col r "GrpId") card_id = false) ->
  get_card_by_id fs self card_id get_art = Ok None.
Proof.
  intros Hc Ht Hbind Habs. unfold get_card_by_id. rewrite Hc. cbn [bind]. rewrite Ht.
  cbn [bind]. rewrite (bind_parameter_ok _ Hbind). cbn [bind].
  rewrite filter_nil by exact Habs. reflexivity.
Qed.

Lemma get_card_by_id_overflow (fs : filesystem) (self : reader) (card_id : sqlval)
  (get_art : bool) (db : database) (cards : table) :
  cursor self = Ok db -> from_table db "Cards" = Ok cards ->
  storable card_id = false ->
  get_card_by_id fs self card_id get_art
  = Raise (OverflowError "Python int too large to convert to SQLite INTEGER").
Proof.
  intros Hc Ht Hbind. unfold get_card_by_id. rewrite Hc. cbn [bind]. rewrite Ht.
  cbn [bind]. now rewrite (bind_parameter_overflow _ Hbind).
Qed.

Lemma filter_head_In {A : Type} (f : A -> bool) (l : list A) (x : A) (rest : list A) :
  filter f l = x :: rest -> In x l /\ f x = true.
Proof.
  intros E. apply filter_In. rewrite E. now left.
Qed.

Lemma get_card_by_id_first (fs : filesystem) (self : reader) (card_id : sqlval)
  (get_art : bool) (db : database) (cards : table) (r : row) (rest : list row)
  (tmp : card_record) :
  cursor self = Ok db -> from_table db "Cards" = Ok cards ->
  filter (fun r => sql_eq (col r "GrpId") card_id) cards = r :: rest ->
  for_each (card_field fs self get_art) (dict_factory r) [] = Ok tmp ->
  get_card_by_id fs self card_id get_art = Ok (Some tmp).
Proof.
  intros Hc Ht Hf Htmp.
  destruct (filter_head_In _ _ _ _ Hf) as [Hr Hid].
  pose proof (found_storable _ _ _ _ _ _ _ Hc Ht Hr Hid) as Hbind.
  unfold get_card_by_id. rewrite Hc. cbn [bind]. rewrite Ht.
  cbn [bind]. rewrite (bind_parameter_ok _ Hbind). cbn [bind].
  rewrite Hf. change (sql_limit 1 (r :: rest)) with [r].
  cbn [for_each bind]. rewrite Htmp. reflexivity.
Qed.

(** C6, as stated, fails: an identifier that is not in the Cards table
    can make [get_card_by_id] raise.  The integer 2^63 is the identifier
    of no row, and binding it to the statement raises OverflowError, which
    the method does not catch. *)
Lemma absent_identifier_raises :
  cursor Scenario.cards_reader = Ok Scenario.cards_db
  /\ from_table Scenario.cards_db "Cards"
     = Ok [Scenario.card_row 7 SNull 10; Scenario.card_row 8 (SInt 123) 11]
  /\ (forall r,
         In r [Scenario.card_row 7 SNull 10; Scenario.card_row 8 (SInt 123) 11] ->
         sql_eq (col r "GrpId") (SInt 9223372036854775808) = false)
  /\ get_card_by_id [] Scenario.cards_reader (SInt 9223372036854775808) true
     = Raise (OverflowError "Python int too large to convert to SQLite INTEGER").
Proof.
  repeat split; try reflexivity.
  intros r [<-|[<-|[]]]; reflexivity.
Qed.

(** C6, amended.  Let the identifier be a value that can be bound to the
    statement (None, a text, an integer of 64 bits).  When no row of the
    Cards table carries it (the rows compared with it as they are: no
    number with a text), [get_card_by_id] returns None and does not
    raise.  An integer beyond 64 bits makes it raise OverflowError.  When
    the row it finds has its art reference NULL (and a column of its own
    called "art", should the table have one, NULL as well), the art field
    of the record is None, also with art requested. *)
Theorem get_card_by_id_absent_or_without_art :
  (forall (fs : filesystem) (self : reader) (card_id : sqlval) (get_art : bool)
          (db : database) (cards : table),
      cursor self = Ok db -> from_table db "Cards" = Ok cards ->
      storable card_id = true ->
      (forall r, In r cards ->
                 sql_eq (col r "GrpId") card_id = false
                 /\ Notions.same_class (col r "GrpId") card_id = true) ->
      get_card_by_id fs self card_id get_art = Ok None)
  /\ (forall (fs : filesystem) (self : reader) (card_id : sqlval) (get_art : bool)
             (db : database) (cards : table),
         cursor self = Ok db -> from_table db "Cards" = Ok cards ->
         storable card_id = false ->
         get_card_by_id fs self card_id get_art
         = Raise (OverflowError "Python int too large to convert to SQLite INTEGER"))
  /\ (forall (fs : filesystem) (self : reader) (card_id : sqlval)
             (db : database) (cards : table) (r : row) (rest : list row),
         cursor self = Ok db -> from_table db "Cards" = Ok cards ->
         filter (fun r => sql_eq (col r "GrpId") card_id) cards = r :: rest ->
         (exists key, In (key, SNull) (dict_factory r)
                      /\ Notions.classify key = Notions.ArtReference) ->
         (forall key v, In (key, v) (dict_factory r) ->
                        Notions.classify key = Notions.ArtReference -> v = SNull) ->
         (forall v, In ("art", v) (dict_factory r) -> v = SNull) ->
         exists record,
           get_card_by_id fs self card_id true = Ok (Some record)
           /\ Py.dict_get String.eqb record "art" = Some (Plain SNull)).
Proof.
  split; [|split; [exact get_card_by_id_overflow|]].
  { intros fs self card_id get_art db cards Hc Ht Hbind Habs.
    apply (get_card_by_id_none fs self card_id get_art db cards Hc Ht Hbind).
    intros r Hr. exact (proj1 (Habs r Hr)). }
  intros fs self card_id db cards r rest Hc Ht Hf [key [Hkey Hkind]] Hnull Hname.
  destruct (for_each_set_get (card_field fs self true)
              (fun kv => Notions.record_key (fst kv)) "art" (Plain SNull)
              (dict_factory r)) with (d := @nil (string * field_value))
    as (tmp & Htmp & Hart).
  - intros d [k v] Hin.
    destruct (card_field_writes fs self true d k v) as (w & Hw & Hartw & Hplain).
    exists w. split; [exact Hw|]. cbn [fst]. intros E.
    destruct (record_key_art k E) as [Hk| ->].
    + apply Hartw; [exact Hk|]. eapply Hnull; eassumption.
    + rewrite (Hplain eq_refl), (Hname v Hin). reflexivity.
  - right. exists (key, SNull). split; [exact Hkey|].
    cbn [fst]. unfold Notions.record_key. now rewrite Hkind.
  - exists tmp. split; [|exact Hart].
    eapply get_card_by_id_first; eassumption.
Qed.

Lemma get_card_by_id_absent_or_without_art_witness :
  get_card_by_id [] Scenario.cards_reader (SInt 99) true = Ok None
  /\ get_card_by_id [] Scenario.cards_reader (SInt (-9223372036854775809)) true
     = Raise (OverflowError "Python int too large to convert to SQLite INTEGER")
  /\ exists record,
       get_card_by_id [] Scenario.cards_reader (SInt 7) true = Ok (Some record)
       /\ Py.dict_get String.eqb record "art" = Some (Plain SNull).
Proof.
  split; [|split].
  - apply (proj1 get_card_by_id_absent_or_without_art
             [] Scenario.cards_reader (SInt 99) true Scenario.cards_db
             [Scenario.card_row 7 SNull 10; Scenario.card_row 8 (SInt 123) 11]
             eq_refl eq_refl eq_refl).
    intros r [<-|[<-|[]]]; split; reflexivity.
  - apply (proj1 (proj2 get_card_by_id_absent_or_without_art)
             [] Scenario.cards_reader (SInt (-9223372036854775809)) true Scenario.cards_db
             [Scenario.card_row 7 SNull 10; Scenario.card_row 8 (SInt 123) 11]
             eq_refl eq_refl eq_refl).
  - apply (proj2 (proj2 get_card_by_id_absent_or_without_art)
             [] Scenario.cards_reader (SInt 7) Scenario.cards_db
             [Scenario.card_row 7 SNull 10; Scenario.card_row 8 (SInt 123) 11]
             (Scenario.card_row 7 SNull 10) [] eq_refl eq_refl eq_refl).
    + exists "ArtId". split; [right; now left|reflexivity].
    + intros key v [E|[E|[E|[]]]]; injection E as <- <-;
        try reflexivity; intros H; vm_compute in H; discriminate.
    + intros v [E|[E|[E|[]]]]; discriminate.
Defined.

(* ================================================================== *)
(** ** get_card_by_name *)
(* ================================================================== *)

(** Distinct keys stay distinct when rows are filtered out or cut off. *)
Section DistinctKeys.
Context {R K : Type} (key : R -> K).

Lemma distinct_keys_filter (keep : R -> bool) (rows : list R) :
  NoDup (map key rows) -> NoDup (map key (filter keep rows)).
Proof.
  induction rows as [|r rows IH]; simpl; intros H; [constructor|].
  inversion H as [|? ? Hfresh Hrest]; subst.
  destruct (keep r); simpl; [|apply IH, Hrest].
  constructor; [|apply IH, Hrest].
  intros Hin. apply Hfresh. apply in_map_iff in Hin.
  destruct Hin as (x & <- & Hx). apply in_map. apply filter_In in Hx. tauto.
Qed.

Lemma In_firstn (n : nat) (rows : list R) (x : R) :
  In x (firstn n rows) -> In x rows.
Proof.
  revert rows. induction n as [|n IH]; intros rows; simpl; [contradiction|].
  destruct rows as [|r rows]; simpl; [contradiction|].
  intros [H|H]; [now left|right; apply IH, H].
Qed.

Lemma distinct_keys_firstn (n : nat) (rows : list R) :
  NoDup (map key rows) -> NoDup (map key (firstn n rows)).
Proof.
  revert rows. induction n as [|n IH]; intros rows H; simpl; [constructor|].
  destruct rows as [|r rows]; simpl; [constructor|].
  inversion H as [|? ? Hfresh Hrest]; subst.
  constructor; [|apply IH, Hrest].
  intros Hin. apply Hfresh. apply in_map_iff in Hin.
  destruct Hin as (x & <- & Hx). apply in_map. eapply In_firstn; eassumption.
Qed.

End DistinctKeys.

Lemma Forall2_nth_error_r {A B : Type} (R : A -> B -> Prop) (l : list A) (l' : list B)
  (i : nat) (y : B) :
  Forall2 R l l' -> nth_error l' i = Some y ->
  exists x, nth_error l i = Some x /\ R x y.
Proof.
  intros H. revert i. induction H as [|a b l l' Hab _ IH]; intros i.
  - destruct i; discriminate.
  - destruct i as [|i]; simpl.
    + intros [= <-]. eauto.
    + apply IH.
Qed.

Lemma limited_cards_NoDup (cards loc : table) (card_name : string) (limit : option Z) :
  NoDup (map (fun r => col r "GrpId") cards) ->
  NoDup (map (fun r => col r "GrpId") (limited_cards cards loc card_name limit)).
Proof.
  intros H. unfold limited_cards, sql_limit.
  destruct limit as [n|]; [destruct (n =? 0)%Z; [|destruct (n <? 0)%Z]|];
    try (apply distinct_keys_firstn); apply distinct_keys_filter, H.
Qed.

Lemma limited_cards_length (cards loc : table) (card_name : string) (n : Z) :
  (0 < n)%Z ->
  (List.length (limited_cards cards loc card_name (Some n)) <= Z.to_nat n)%nat.
Proof.
  intros Hn. unfold limited_cards, sql_limit.
  destruct (Z.eqb_spec n 0) as [->|_]; [lia|].
  destruct (Z.ltb_spec n 0); [lia|]. apply firstn_le_length.
Qed.

Lemma get_card_by_name_rows (fs : filesystem) (self : reader) (card_name : string)
  (limit : option Z) (get_art : bool) (l : list (option card_record)) :
  get_card_by_name fs self card_name limit get_art = Ok l ->
  exists db cards loc,
    cursor self = Ok db /\ from_table db "Cards" = Ok cards
    /\ from_table db (str_of_table_name (lang_table self)) = Ok loc
    /\ Forall2 (fun r y => get_card_by_id fs self (col r "GrpId") get_art = Ok y)
         (limited_cards cards loc card_name limit) l.
Proof.
  unfold get_card_by_name, parse_table_name.
  destruct (cursor self) as [db|e] eqn:Hc; cbn [bind]; [|discriminate].
  destruct (is_plain_name (str_of_table_name (lang_table self))); cbn [bind];
    [|destruct (is_hyphenated _); discriminate].
  destruct (from_table db "Cards") as [cards|e] eqn:Ht; cbn [bind]; [|discriminate].
  destruct (from_table db (str_of_table_name (lang_table self))) as [loc|e] eqn:Hl;
    cbn [bind]; [|discriminate].
  destruct (bind_limit limit) as [[]|e]; cbn [bind]; [|discriminate].
  intros H.
  apply (for_each_collect
           (fun linha => get_card_by_id fs self (col linha "GrpId") get_art)) in H.
  destruct H as (ys & -> & Hall). simpl.
  exists db, cards, loc. repeat split; auto.
  unfold select_by_name in Hall.
  clear -Hall. revert ys Hall.
  induction (limited_cards cards loc card_name limit) as [|r rows IH];
    intros ys Hall; inversion Hall; subst; constructor; auto.
Qed.

(** The record of a card carries the identifier it was asked for. *)
Lemma get_card_by_id_GrpId (fs : filesystem) (self : reader) (card_id : sqlval)
  (get_art : bool) (record : card_record) :
  get_card_by_id fs self card_id get_art = Ok (Some record) ->
  Py.dict_get String.eqb record "GrpId" = Some (Plain card_id).
Proof.
  intros H.
  assert (Hshape : exists db cards, cursor self = Ok db /\ from_table db "Cards" = Ok cards).
  { unfold get_card_by_id in H.
    destruct (cursor self) as [db|e]; [|discriminate]. cbn [bind] in H.
    destruct (from_table db "Cards") as [cards|e] eqn:Ht; [|discriminate]. eauto. }
  destruct Hshape as (db & cards & Hc & Ht).
  destruct (storable card_id) eqn:Hbind.
  2:{ rewrite (get_card_by_id_overflow fs self card_id get_art db cards Hc Ht Hbind) in H.
      discriminate. }
  destruct (filter (fun r => sql_eq (col r "GrpId") card_id) cards) as [|r rest] eqn:Hf.
  { rewrite (get_card_by_id_none fs self card_id get_art db cards Hc Ht Hbind) in H;
      [discriminate|].
    intros r Hr. destruct (sql_eq (col r "GrpId") card_id) eqn:E; [|reflexivity].
    assert (Hin : In r (filter (fun r => sql_eq (col r "GrpId") card_id) cards))
      by (apply filter_In; auto).
    rewrite Hf in Hin. destruct Hin. }
  assert (Hr : sql_eq (col r "GrpId") card_id = true).
  { assert (Hin : In r (filter (fun r => sql_eq (col r "GrpId") card_id) cards))
      by (rewrite Hf; now left).
    apply filter_In in Hin. tauto. }
  assert (Hget : Py.dict_get String.eqb (dict_factory r) "GrpId" = Some card_id).
  { pose proof (sql_eq_eq _ _ Hr) as E. unfold col in E, Hr.
    destruct (Py.dict_get String.eqb (dict_factory r) "GrpId") as [v|].
    - now subst.
    - discriminate. }
  destruct (for_each_set_get (card_field fs self get_art)
              (fun kv => Notions.record_key (fst kv)) "GrpId" (Plain card_id)
              (dict_factory r)) with (d := @nil (string * field_value))
    as (tmp & Htmp & Hid).
  - intros d [k v] Hin.
    destruct (card_field_writes fs self get_art d k v) as (w & Hw & _ & Hplain).
    exists w. split; [exact Hw|]. cbn [fst]. intros E.
    destruct (record_key_GrpId k E) as [Hk ->].
    rewrite (Hplain Hk). f_equal.
    pose proof (dict_get_NoDup _ _ _ (dict_factory_NoDup r) Hin) as Hv.
    congruence.
  - right. exists ("GrpId", card_id). split; [apply dict_get_In, Hget|reflexivity].
  - rewrite (get_card_by_id_first fs self card_id get_art db cards r rest tmp
               Hc Ht Hf Htmp) in H.
    injection H as <-. exact Hid.
Qed.

(** C1, as stated, fails twice: a limit of 0 is no limit (both cards named
    "Lightning..." come back), and when the Cards table has two rows of one
    GrpId, both records returned carry that GrpId. *)
Lemma get_card_by_name_limit_zero_and_repeated_ids :
  (exists l,
      get_card_by_name [] Scenario.cards_reader "lightning%" (Some 0%Z) false = Ok l
      /\ List.length l = 2%nat)
  /\ (exists r1 r2,
         get_card_by_name [] Scenario.repeated_reader "lightning%" (Some 2%Z) false
         = Ok [Some r1; Some r2]
         /\ Py.dict_get String.eqb r1 "GrpId" = Some (Plain (SInt 7))
         /\ Py.dict_get String.eqb r2 "GrpId" = Some (Plain (SInt 7))).
Proof.
  split.
  - eexists. split; [vm_compute; reflexivity|reflexivity].
  - eexists. eexists. split; [vm_compute; reflexivity|]. split; reflexivity.
Qed.

(** C1, amended.  With a limit N > 0, [get_card_by_name] returns at most N
    entries.  When no two rows of the Cards table have the same GrpId, the
    records returned carry pairwise different GrpIds, whatever the limit.
    A limit of 0 is taken as no limit. *)
Theorem get_card_by_name_limit_and_distinct :
  (forall (fs : filesystem) (self : reader) (card_name : string) (n : Z)
          (get_art : bool) (l : list (option card_record)),
      (0 < n)%Z ->
      get_card_by_name fs self card_name (Some n) get_art = Ok l ->
      (List.length l <= Z.to_nat n)%nat)
  /\ (forall (fs : filesystem) (self : reader) (card_name : string) (limit : option Z)
             (get_art : bool) (l : list (option card_record))
             (db : database) (cards : table),
         cursor self = Ok db -> from_table db "Cards" = Ok cards ->
         NoDup (map (fun r => col r "GrpId") cards) ->
         get_card_by_name fs self card_name limit get_art = Ok l ->
         forall (i j : nat) (ri rj : card_record),
           i <> j ->
           nth_error l i = Some (Some ri) -> nth_error l j = Some (Some rj) ->
           exists gi gj,
             Py.dict_get String.eqb ri "GrpId" = Some (Plain gi)
             /\ Py.dict_get String.eqb rj "GrpId" = Some (Plain gj)
             /\ gi <> gj)
  /\ (forall (fs : filesystem) (self : reader) (card_name : string) (get_art : bool),
         get_card_by_name fs self card_name (Some 0%Z) get_art
         = get_card_by_name fs self card_name None get_art).
Proof.
  split; [|split].
  - intros fs self card_name n get_art l Hn H.
    destruct (get_card_by_name_rows _ _ _ _ _ _ H) as (db & cards & loc & _ & _ & _ & Hall).
    rewrite <- (Forall2_length Hall). apply limited_cards_length, Hn.
  - intros fs self card_name limit get_art l db cards Hc Ht Hkey H i j ri rj Hij Hi Hj.
    destruct (get_card_by_name_rows _ _ _ _ _ _ H)
      as (db' & cards' & loc & Hc' & Ht' & _ & Hall).
    rewrite Hc in Hc'. injection Hc' as <-.
    rewrite Ht in Ht'. injection Ht' as <-.
    destruct (Forall2_nth_error_r _ _ _ _ _ Hall Hi) as (xi & Hxi & Hgi).
    destruct (Forall2_nth_error_r _ _ _ _ _ Hall Hj) as (xj & Hxj & Hgj).
    exists (col xi "GrpId"), (col xj "GrpId").
    split; [eapply get_card_by_id_GrpId; eassumption|].
    split; [eapply get_card_by_id_GrpId; eassumption|].
    intros E. apply Hij.
    pose proof (limited_cards_NoDup cards loc card_name limit Hkey) as Hnd.
    rewrite NoDup_nth_error in Hnd. apply Hnd.
    + rewrite length_map. apply nth_error_Some. rewrite Hxi. discriminate.
    + rewrite !nth_error_map, Hxi, Hxj. simpl. now rewrite E.
  - reflexivity.
Qed.

Lemma get_card_by_name_limit_and_distinct_witness :
  get_card_by_name [] Scenario.cards_reader "lightning%" (Some 1%Z) false
  = Ok [Some Scenario.bolt_record]
  /\ (List.length [Some Scenario.bolt_record] <= Z.to_nat 1)%nat
  /\ get_card_by_name [] Scenario.cards_reader "lightning%" None false
     = Ok [Some Scenario.bolt_record; Some Scenario.helix_record]
  /\ exists gi gj,
       Py.dict_get String.eqb Scenario.bolt_record "GrpId" = Some (Plain gi)
       /\ Py.dict_get String.eqb Scenario.helix_record "GrpId" = Some (Plain gj)
       /\ gi <> gj.
Proof.
  split; [reflexivity|]. split; [|split; [reflexivity|]].
  - exact (proj1 get_card_by_name_limit_and_distinct
             [] Scenario.cards_reader "lightning%" 1%Z false
             [Some Scenario.bolt_record] eq_refl eq_refl).
  - apply (proj1 (proj2 get_card_by_name_limit_and_distinct)
             [] Scenario.cards_reader "lightning%" None false
             [Some Scenario.bolt_record; Some Scenario.helix_record]
             Scenario.cards_db
             [Scenario.card_row 7 SNull 10; Scenario.card_row 8 (SInt 123) 11]
             eq_refl eq_refl) with (i := 0%nat) (j := 1%nat).
    + vm_compute. repeat constructor; simpl; intuition discriminate.
    + reflexivity.
    + discriminate.
    + reflexivity.
    + reflexivity.
Defined.

(* ================================================================== *)
(** ** find_card_art_file *)
(* ================================================================== *)

(** A run of steps that each assign under some roles: the keys grow by the
    roles, and a key outside all roles keeps its value. *)
Lemma fold_roles {X V : Type} (step : list (string * V) -> X -> list (string * V))
  (roles : X -> list string) (l : list X) :
  (forall d x, In x l ->
     (forall k, In k (Py.dict_keys (step d x)) <-> In k (Py.dict_keys d) \/ In k (roles x))
     /\ (forall k, ~ In k (roles x) ->
                   Py.dict_get String.eqb (step d x) k = Py.dict_get String.eqb d k)) ->
  forall d,
    (forall k, In k (Py.dict_keys (fold_left step l d)) <->
               In k (Py.dict_keys d) \/ exists x, In x l /\ In k (roles x))
    /\ (forall k, (forall x, In x l -> ~ In k (roles x)) ->
                  Py.dict_get String.eqb (fold_left step l d) k
                  = Py.dict_get String.eqb d k).
Proof.
  induction l as [|x l IH]; intros Hstep d; simpl.
  - split; [|reflexivity]. intros k. split; [auto|].
    intros [H|(x & [] & _)]. exact H.
  - destruct (Hstep d x (or_introl eq_refl)) as [Hkeys Hget].
    destruct (IH (fun d0 y Hy => Hstep d0 y (or_intror Hy)) (step d x)) as [IHkeys IHget].
    split.
    + intros k. rewrite IHkeys, Hkeys. split.
      * intros [[H|H]|(y & Hy & Hk)]; eauto.
      * intros [H|(y & [->|Hy] & Hk)]; eauto.
    + intros k Hk. rewrite IHget by (intros y Hy; apply Hk; now right).
      apply Hget. apply Hk. now left.
Qed.

Lemma label_asset_roles (card_id : sqlval) (d : list (string * option image)) (a : asset) :
  (forall k, In k (Py.dict_keys (label_asset card_id d a)) <->
             In k (Py.dict_keys d) \/ In k (asset_roles card_id a))
  /\ (forall k, ~ In k (asset_roles card_id a) ->
                Py.dict_get String.eqb (label_asset card_id d a) k
                = Py.dict_get String.eqb d k).
Proof.
  unfold label_asset, asset_roles.
  destruct (is_image_type (asset_type a)); [|split; [intros k; simpl; tauto|reflexivity]].
  destruct (Py.contains "Util" (asset_path a));
    destruct (Py.contains (py_str card_id ++ "_AIF.") (asset_path a)); simpl;
    (split;
     [intros k; rewrite ?dict_set_keys; intuition
     |intros k Hk; rewrite ?dict_get_set_other by (intros E; apply Hk; auto);
      reflexivity]).
Qed.

Lemma find_card_art_file_roles (fs : filesystem) (self : reader) (card_id : sqlval) :
  (forall k, In k (Py.dict_keys (find_card_art_file fs self card_id)) <->
             (k = "image" \/ k = "util")
             \/ exists f a, In f (glob fs (art_pattern self card_id))
                            /\ In a (container_items f)
                            /\ In k (asset_roles card_id a))
  /\ (forall k, (forall f a, In f (glob fs (art_pattern self card_id)) ->
                             In a (container_items f) ->
                             ~ In k (asset_roles card_id a)) ->
                Py.dict_get String.eqb (find_card_art_file fs self card_id) k
                = Py.dict_get String.eqb [("image", None); ("util", None)] k).
Proof.
  unfold find_card_art_file.
  destruct (fold_roles
              (fun ret f => fold_left (label_asset card_id) (container_items f) ret)
              (fun f => flat_map (asset_roles card_id) (container_items f))
              (glob fs (art_pattern self card_id))) with
    (d := [("image", @None image); ("util", @None image)]) as [Hkeys Hget].
  - intros d f _.
    destruct (fold_roles (label_asset card_id) (asset_roles card_id) (container_items f)
                (fun d0 a _ => label_asset_roles card_id d0 a) d) as [Hk Hg].
    split.
    + intros k. rewrite Hk, in_flat_map. tauto.
    + intros k Hnot. apply Hg. intros a Ha Hin. apply Hnot.
      apply in_flat_map. eauto.
  - split.
    + intros k. rewrite Hkeys. simpl. split.
      * intros [[H|[H|[]]]|(f & Hf & Hk)]; auto.
        apply in_flat_map in Hk. destruct Hk as (a & Ha & Hk). right. eauto.
      * intros [[H|H]|(f & a & Hf & Ha & Hk)]; auto.
        right. exists f. split; [exact Hf|]. apply in_flat_map. eauto.
    + intros k Hnot. apply Hget. intros f Hf Hin.
      apply in_flat_map in Hin. destruct Hin as (a & Ha & Hk).
      exact (Hnot f a Hf Ha Hk).
Qed.

(** C7, as stated, fails: with no bundle at all, the roles "image" and
    "util", for which nothing was found, are keys of the result. *)
Lemma absent_roles_are_keys :
  glob [] (art_pattern Scenario.cards_reader (SInt 123)) = []
  /\ find_card_art_file [] Scenario.cards_reader (SInt 123)
     = [("image", None); ("util", None)]
  /\ In "image" (Py.dict_keys (find_card_art_file [] Scenario.cards_reader (SInt 123)))
  /\ In "util" (Py.dict_keys (find_card_art_file [] Scenario.cards_reader (SInt 123))).
Proof.
  repeat split; simpl; auto.
Qed.

(** C7, amended.  The result of [find_card_art_file] always has the keys
    "image" and "util"; each of the two holds None when no image of the
    matching bundles is filed under it.  Every other key is a role under
    which some image of a matching bundle is filed. *)
Theorem find_card_art_file_keys :
  forall (fs : filesystem) (self : reader) (card_id : sqlval),
    In "image" (Py.dict_keys (find_card_art_file fs self card_id))
    /\ In "util" (Py.dict_keys (find_card_art_file fs self card_id))
    /\ (forall role,
           role = "image" \/ role = "util" ->
           (forall f a, In f (glob fs (art_pattern self card_id)) ->
                        In a (container_items f) ->
                        ~ In role (asset_roles card_id a)) ->
           Py.dict_get String.eqb (find_card_art_file fs self card_id) role = Some None)
    /\ (forall role,
           In role (Py.dict_keys (find_card_art_file fs self card_id)) ->
           role <> "image" -> role <> "util" ->
           exists f a, In f (glob fs (art_pattern self card_id))
                       /\ In a (container_items f)
                       /\ is_image_type (asset_type a) = true
                       /\ In role (asset_roles card_id a)).
Proof.
  intros fs self card_id.
  destruct (find_card_art_file_roles fs self card_id) as [Hkeys Hget].
  repeat split.
  - apply Hkeys. auto.
  - apply Hkeys. auto.
  - intros role Hrole Hnone. rewrite (Hget role Hnone).
    destruct Hrole as [->| ->]; reflexivity.
  - intros role Hin Hi Hu. apply Hkeys in Hin.
    destruct Hin as [[H|H]|(f & a & Hf & Ha & Hk)]; [contradiction|contradiction|].
    exists f, a. repeat split; auto.
    unfold asset_roles in Hk. destruct (is_image_type (asset_type a)); [reflexivity|].
    destruct Hk.
Qed.

Lemma find_card_art_file_keys_witness :
  Py.dict_get String.eqb
    (find_card_art_file Scenario.glued_fs Scenario.cards_reader (SInt 123)) "util"
  = Some None
  /\ Py.dict_get String.eqb
       (find_card_art_file Scenario.glued_fs Scenario.cards_reader (SInt 123)) "image"
     = Some (Some [[(0, 0, 0)%Z]]).
Proof.
  split; [|reflexivity].
  apply (proj1 (proj2 (proj2
           (find_card_art_file_keys Scenario.glued_fs Scenario.cards_reader (SInt 123))))).
  - now right.
  - intros f a Hf Ha. vm_compute in Hf. destruct Hf as [<-|[]].
    simpl in Ha. destruct Ha as [<-|[]].
    vm_compute. intros [H|[]]. discriminate.
Defined.

(** *** The pattern of the art extractor *)

Lemma count_sep_app (a b : list ascii) :
  count_sep (a ++ b)%list = (count_sep a + count_sep b)%nat.
Proof.
  induction a as [|c a IH]; simpl; [reflexivity|]. rewrite IH. lia.
Qed.

Lemma list_ascii_app (a b : string) :
  list_ascii_of_string (a ++ b)
  = (list_ascii_of_string a ++ list_ascii_of_string b)%list.
Proof.
  induction a as [|c a IH]; simpl; [reflexivity|]. now rewrite IH.
Qed.

(** A path that a pattern matches has as many separators as the pattern:
    neither [*] nor [?] stands for one. *)
Lemma glob_chars_count_sep (p : list ascii) :
  forall s, Py.glob_chars p s = true -> count_sep p = count_sep s.
Proof.
  induction p as [|c p IH]; intros s; cbn [Py.glob_chars].
  - destruct s; [reflexivity|discriminate].
  - destruct (Ascii.eqb_spec c "*") as [->|Hstar].
    + induction s as [|d s IHs]; intros H.
      * rewrite orb_false_r in H. simpl. apply IH in H. exact H.
      * apply orb_true_iff in H. destruct H as [H|H].
        -- simpl. apply IH in H. exact H.
        -- destruct (Ascii.eqb d "/") eqn:Ed; [discriminate|].
           apply IHs in H. simpl in *. rewrite Ed. exact H.
    + destruct s as [|d s]; [discriminate|].
      intros H. apply andb_true_iff in H. destruct H as [Hc Hrest].
      apply IH in Hrest. simpl. rewrite Hrest. f_equal.
      destruct (Ascii.eqb_spec c "?") as [->|Hq].
      * apply negb_true_iff in Hc. rewrite Hc. reflexivity.
      * apply Ascii.eqb_eq in Hc. now subst.
Qed.

Lemma count_sep_zeros (n : nat) : count_sep (list_ascii_of_string (Py.zeros n)) = 0%nat.
Proof. induction n as [|n IH]; simpl; [reflexivity|exact IH]. Qed.

Lemma count_sep_zfill (s : string) (width : nat) :
  count_sep (list_ascii_of_string (Py.zfill s width))
  = count_sep (list_ascii_of_string s).
Proof.
  unfold Py.zfill. destruct (width <=? String.length s)%nat; [reflexivity|].
  destruct s as [|c s].
  - apply count_sep_zeros.
  - destruct (Ascii.eqb c "+" || Ascii.eqb c "-").
    + simpl. rewrite list_ascii_app, count_sep_app, count_sep_zeros. reflexivity.
    + rewrite list_ascii_app, count_sep_app, count_sep_zeros. reflexivity.
Qed.

Lemma count_sep_uint (d : Decimal.uint) :
  count_sep (list_ascii_of_string (NilEmpty.string_of_uint d)) = 0%nat.
Proof. induction d; simpl; auto. Qed.

Lemma count_sep_str_of_Z (n : Z) :
  count_sep (list_ascii_of_string (Py.str_of_Z n)) = 0%nat.
Proof.
  unfold Py.str_of_Z, NilZero.string_of_int, NilZero.string_of_uint.
  destruct (Z.to_int n) as [d|d]; destruct d; simpl; auto using count_sep_uint.
Qed.

(** C8: the code does not do what the claim says.  The pattern is the
    assets directory, the padded identifier and "*.mtga" put together
    without a separator, so no file inside the assets directory matches it,
    whatever its name; the bundle of card art 123 is not found there, and a
    file next to the directory whose name is "AssetBundle" followed by the
    padded identifier is. *)
Theorem bundles_in_assets_dir_never_match :
  (forall (self : reader) (n : Z) (name : string),
      Py.glob_match (art_pattern self (SInt n)) (mtga_assets_dir self ++ "/" ++ name)
      = false)
  /\ art_pattern (new_reader "/games/MTGA" "enUS") (SInt 123)
     = "/games/MTGA/MTGA_Data/Downloads/AssetBundle000123*.mtga"
  /\ glob Scenario.art_fs (art_pattern Scenario.cards_reader (SInt 123)) = []
  /\ find_card_art_file Scenario.art_fs Scenario.cards_reader (SInt 123)
     = [("image", None); ("util", None)]
  /\ glob Scenario.glued_fs (art_pattern Scenario.cards_reader (SInt 123))
     = Scenario.glued_fs.
Proof.
  split; [|repeat split].
  intros self n name.
  destruct (Py.glob_match (art_pattern self (SInt n)) (mtga_assets_dir self ++ "/" ++ name))
    eqn:E; [exfalso|reflexivity].
  unfold Py.glob_match in E. apply glob_chars_count_sep in E.
  unfold art_pattern in E.
  rewrite !list_ascii_app, !count_sep_app, count_sep_zfill in E.
  cbn [py_str] in E. rewrite count_sep_str_of_Z in E. simpl in E. lia.
Qed.

(* ================================================================== *)
(** ** discover_databases *)
(* ================================================================== *)

Import Inspect.

Lemma path_eqb_eq (p q : path) : path_eqb p q = true <-> p = q.
Proof.
  revert q. induction p as [|a p IH]; intros [|b q]; simpl;
    try (split; [discriminate|discriminate]); [tauto|].
  rewrite andb_true_iff, String.eqb_eq, IH. split.
  - intros [-> ->]. reflexivity.
  - intros [= -> ->]. auto.
Qed.

Lemma path_leb_total (p q : path) : path_leb p q = true \/ path_leb q p = true.
Proof.
  revert q. induction p as [|a p IH]; intros [|b q]; simpl; auto.
  rewrite (String.compare_antisym b a).
  destruct (String.compare a b); simpl; auto.
Qed.

Lemma string_compare_refl (a : string) : String.compare a a = Eq.
Proof.
  induction a as [|c a IH]; simpl; [reflexivity|].
  assert (E : Ascii.compare c c = Eq).
  { unfold Ascii.compare. apply N.compare_refl. }
  now rewrite E.
Qed.

Lemma string_compare_lt_trans (a b c : string) :
  String.compare a b = Lt -> String.compare b c = Lt -> String.compare a c = Lt.
Proof.
  intros H1 H2.
  apply OrderedTypeEx.String_as_OT.cmp_lt in H1, H2.
  apply OrderedTypeEx.String_as_OT.cmp_lt.
  eapply OrderedTypeEx.String_as_OT.lt_trans; eassumption.
Qed.

Lemma path_leb_trans (p q r : path) :
  path_leb p q = true -> path_leb q r = true -> path_leb p r = true.
Proof.
  revert q r. induction p as [|a p IH]; intros [|b q] [|c r]; simpl; auto;
    try discriminate.
  destruct (String.compare a b) eqn:E1; try discriminate;
    destruct (String.compare b c) eqn:E2; try discriminate.
  - apply String.compare_eq_iff in E1, E2. subst.
    rewrite string_compare_refl. apply IH.
  - apply String.compare_eq_iff in E1. subst. now rewrite E2.
  - apply String.compare_eq_iff in E2. subst. now rewrite E1.
  - now rewrite (string_compare_lt_trans a b c E1 E2).
Qed.

Lemma existsb_path_eqb (p : path) (seen : list path) :
  existsb (path_eqb p) seen = true <-> In p seen.
Proof.
  rewrite existsb_exists. split.
  - intros (q & Hq & E). apply path_eqb_eq in E. now subst.
  - intros H. exists p. split; [exact H|]. now apply path_eqb_eq.
Qed.

(** The second loop: what it appends to [unique_paths]. *)
Lemma unique_loop_spec (fs : filesystem) (discovered : list path) :
  forall seen unique_paths,
  exists news,
    unique_loop fs discovered seen unique_paths = (unique_paths ++ news)%list
    /\ NoDup (map (resolve fs) news)
    /\ (forall p, In p news ->
                  In p discovered /\ is_mtga p = true /\ ~ In (resolve fs p) seen)
    /\ (forall p, In p discovered -> is_mtga p = true ->
                  In (resolve fs p) seen \/ In (resolve fs p) (map (resolve fs) news)).
Proof.
  induction discovered as [|p rest IH]; intros seen unique_paths; cbn [unique_loop].
  - exists []. rewrite app_nil_r.
    split; [reflexivity|]. split; [simpl; constructor|].
    split; intros ? [].
  - destruct (is_mtga p) eqn:Hm; cbn [negb].
    + destruct (existsb (path_eqb (resolve fs p)) seen) eqn:Hs.
      * destruct (IH seen unique_paths) as (news & E & Hnd & Hnew & Hall).
        exists news. repeat split; auto.
        -- right. now apply Hnew.
        -- now apply Hnew.
        -- now apply Hnew.
        -- intros q [<-|Hq] Hq'; [|now apply Hall].
           left. now apply existsb_path_eqb.
      * destruct (IH (resolve fs p :: seen) (unique_paths ++ [p])%list)
          as (news & E & Hnd & Hnew & Hall).
        exists (p :: news). rewrite E, <- app_assoc. split; [reflexivity|].
        assert (Hfresh : ~ In (resolve fs p) seen).
        { intros Hin. apply existsb_path_eqb in Hin. congruence. }
        repeat split.
        -- simpl. constructor; [|exact Hnd].
           intros Hin. apply in_map_iff in Hin. destruct Hin as (q & Eq & Hq).
           destruct (Hnew q Hq) as (_ & _ & Hnot). apply Hnot. left. now symmetry.
        -- destruct H as [<-|H]; [now left|right; now apply Hnew].
        -- destruct H as [<-|H]; [exact Hm|now apply Hnew].
        -- destruct H as [<-|H]; [exact Hfresh|].
           intros Hin. destruct (Hnew p0 H) as (_ & _ & Hnot). apply Hnot. now right.
        -- intros q [<-|Hq] Hq'; [right; now left|].
           destruct (Hall q Hq Hq') as [[E'|Hin]|Hin]; auto.
           ++ right. left. exact E'.
           ++ right. now right.
    + destruct (IH seen unique_paths) as (news & E & Hnd & Hnew & Hall).
      exists news. repeat split; auto.
      * right. now apply Hnew.
      * now apply Hnew.
      * now apply Hnew.
      * intros q [<-|Hq] Hq'; [congruence|now apply Hall].
Qed.

Lemma path_glob_in_directory (fs : filesystem) (p : path) (recursive : bool) :
  path_glob fs p (if recursive then "**/*.mtga" else "*.mtga")
  = Ok (glob fs p (if recursive then "**/*.mtga" else "*.mtga")).
Proof. destruct recursive; reflexivity. Qed.

(** The first loop: the paths that the targets stand for. *)
Lemma discover_targets_spec (fs : filesystem) (recursive : bool) (targets : list string) :
  forall acc discovered,
    for_each (discover_target fs recursive) targets acc = Ok discovered ->
    forall p, In p discovered <->
              In p acc \/ exists target, In target targets /\ reaches fs recursive target p.
Proof.
  induction targets as [|target targets IH]; intros acc discovered; cbn [for_each].
  - intros [= <-] p. split; [auto|]. intros [H|(t & [] & _)]. exact H.
  - destruct (discover_target fs recursive acc target) as [acc'|e] eqn:E;
      cbn [bind]; [|discriminate].
    intros H p. rewrite (IH _ _ H p). clear IH H.
    assert (Hstep : In p acc' <-> In p acc \/ reaches fs recursive target p).
    { unfold discover_target, reaches in *.
      cbv zeta in *.
      destruct (no_home fs (Path target)); [discriminate|].
      destruct (is_file fs (expanduser fs (Path target))
                && is_mtga (expanduser fs (Path target))).
      - injection E as <-. rewrite in_app_iff. simpl. intuition.
      - destruct (is_dir fs (expanduser fs (Path target))).
        + rewrite path_glob_in_directory in E. cbn [bind] in E. injection E as <-.
          rewrite in_app_iff, sorted_In. reflexivity.
        + unfold path_glob in E.
          destruct (String.eqb target ""); [discriminate|].
          destruct (String.prefix "/" target); [discriminate|].
          destruct (misplaced_recursion target); [discriminate|].
          simpl in E. injection E as <-.
          rewrite in_app_iff, sorted_In. reflexivity. }
    rewrite Hstep. split.
    + intros [[H|H]|(t & Ht & Hr)].
      * now left.
      * right. exists target. split; [now left|exact H].
      * right. exists t. split; [now right|exact Hr].
    + intros [H|(t & [->|Ht] & Hr)].
      * left. now left.
      * left. now right.
      * right. exists t. split; assumption.
Qed.

(** C9. The list that [discover_databases] returns is sorted (each path
    is below all the paths after it); no two of
    its paths resolve to the same file; each of its paths is a .mtga path
    that one of the targets stands for; and every .mtga path that a target
    stands for has its resolved file in the list (so that a file reached in
    two ways is listed once). *)
Theorem discover_databases_unique_sorted :
  forall (fs : filesystem) (targets : list string) (recursive : bool) (l : list path),
    discover_databases fs targets recursive = Ok l ->
    StronglySorted (fun p q => path_leb p q = true) l
    /\ NoDup (map (resolve fs) l)
    /\ (forall p, In p l ->
                  is_mtga p = true
                  /\ exists target, In target targets /\ reaches fs recursive target p)
    /\ (forall target p,
           In target targets -> reaches fs recursive target p -> is_mtga p = true ->
           In (resolve fs p) (map (resolve fs) l)).
Proof.
  intros fs targets recursive l. unfold discover_databases.
  destruct (for_each (discover_target fs recursive) targets []) as [discovered|e] eqn:E;
    cbn [bind]; [|discriminate].
  intros [= <-].
  pose proof (discover_targets_spec fs recursive targets [] discovered E) as Hdisc.
  destruct (unique_loop_spec fs discovered [] []) as (news & -> & Hnd & Hnew & Hall).
  cbn [app].
  pose proof (sorted_perm path_leb news) as Hperm.
  repeat split.
  - apply Sorted_StronglySorted.
    + intros p q r. apply path_leb_trans.
    + apply sorted_Sorted, path_leb_total.
  - eapply Permutation_NoDup; [apply Permutation_map, Hperm|exact Hnd].
  - apply sorted_In in H. now apply Hnew.
  - apply sorted_In in H. destruct (Hnew p H) as (Hd & _ & _).
    apply Hdisc in Hd. destruct Hd as [[]|Hd]. exact Hd.
  - intros target p Ht Hr Hm.
    assert (Hd : In p discovered) by (apply Hdisc; right; eauto).
    destruct (Hall p Hd Hm) as [[]|Hin].
    eapply Permutation_in; [apply Permutation_map, Hperm|exact Hin].
Qed.

Lemma discover_databases_unique_sorted_witness :
  discover_databases Scenario.two_ways_fs ["a.mtga"; "data/../a.mtga"] false
  = Ok [["a.mtga"]]
  /\ NoDup (map (resolve Scenario.two_ways_fs) [["a.mtga"]])
  /\ In (resolve Scenario.two_ways_fs ["data"; ".."; "a.mtga"])
       (map (resolve Scenario.two_ways_fs) [["a.mtga"]]).
Proof.
  split; [reflexivity|].
  pose proof (discover_databases_unique_sorted
                Scenario.two_ways_fs ["a.mtga"; "data/../a.mtga"] false [["a.mtga"]]
                eq_refl) as (_ & Hnd & _ & Hall).
  split; [exact Hnd|].
  apply (Hall "data/../a.mtga"); [right; now left|reflexivity|reflexivity].
Defined.

(* ================================================================== *)
(** ** The model at work *)
(* ================================================================== *)

Example lower_mixed_case : Py.lower "en_US" = "en_us".
Proof. reflexivity. Qed.

Example replace_drops_Id : renamed "AbilityIds" = "abilitys".
Proof. reflexivity. Qed.

Example split_table_name :
  Py.split "Localizations_enUS" "Localizations_" = [""; "enUS"].
Proof. reflexivity. Qed.

Example zfill_pads : Py.zfill (Py.str_of_Z 123) 6 = "000123".
Proof. reflexivity. Qed.

Example zfill_keeps_sign : Py.zfill (Py.str_of_Z (-12)) 6 = "-00012".
Proof. reflexivity. Qed.

Example join_directories :
  mtga_raw_dir (new_reader "/games/MTGA" "enUS") = "/games/MTGA/MTGA_Data/Downloads/Raw".
Proof. reflexivity. Qed.

Example glob_star_stays_in_directory :
  Py.glob_match "/d/Raw_CardDatabase_*.mtga" "/d/Raw_CardDatabase_ab1.mtga" = true
  /\ Py.glob_match "/d/Raw*.mtga" "/d/Raw/x.mtga" = false.
Proof. split; reflexivity. Qed.

Example like_is_a_pattern_match :
  like "lightning%" "Lightning Bolt" = true
  /\ like "Localizations_%" "localizationsXfr" = true
  /\ like "lightning" "Lightning Bolt" = false.
Proof. repeat split; reflexivity. Qed.

Example normalize_language : normalize "en-US" = "enus" /\ normalize "EN_us" = "enus".
Proof. split; reflexivity. Qed.

Example default_table_is_enUS :
  default_lang_table (fst (set_language Scenario.two_languages_reader "ja-JP"))
  = Some "Localizations_enUS"
  /\ snd (set_language Scenario.two_languages_reader "ja-JP") = Ok "Localizations_jaJP".
Proof. split; reflexivity. Qed.

Example card_without_art :
  get_card_by_id [] Scenario.cards_reader (SInt 7) true = Ok (Some Scenario.bolt_record).
Proof. reflexivity. Qed.

Example suffix_of_path :
  suffix (Path "/w/data/cards.MTGA") = ".MTGA"
  /\ is_mtga (Path "/w/data/cards.MTGA") = true
  /\ suffix (Path "/w/data/.mtga") = "".
Proof. repeat split; reflexivity. Qed.

Example absolute_pattern_raises :
  discover_databases Scenario.two_ways_fs ["/nowhere/*.mtga"] false
  = Raise (NotImplementedError "Non-relative patterns are unsupported").
Proof. reflexivity. Qed.

(* ================================================================== *)
(** ** get_databases *)
(* ================================================================== *)

Lemma max_by_ctime_spec (l : list file) :
  forall best,
    In (max_by_ctime best l) (best :: l)
    /\ forall g, In g (best :: l) -> (file_ctime g <= file_ctime (max_by_ctime best l))%Z.
Proof.
  induction l as [|f l IH]; intros best; cbn [max_by_ctime].
  - split; [now left|]. intros g [<-|[]]. lia.
  - destruct (Z.ltb_spec (file_ctime best) (file_ctime f)) as [Hlt|Hge].
    + destruct (IH f) as [Hin Hmax]. split.
      * right. exact Hin.
      * intros g [<-|Hg]; [|now apply Hmax].
        pose proof (Hmax f (or_introl eq_refl)). lia.
    + destruct (IH best) as [Hin Hmax]. split.
      * destruct Hin as [<-|Hin]; [now left|right; now right].
      * intros g [<-|[<-|Hg]].
        -- apply Hmax. now left.
        -- pose proof (Hmax best (or_introl eq_refl)). lia.
        -- apply Hmax. now right.
Qed.

Lemma max_ctime_spec (l : list file) :
  match max_ctime l with
  | Ok f => In f l /\ forall g, In g l -> (file_ctime g <= file_ctime f)%Z
  | Raise _ => l = []
  end.
Proof.
  destruct l as [|f l]; [reflexivity|]. cbn [max_ctime]. apply max_by_ctime_spec.
Qed.

Lemma connect_or_unavailable (fs : Mtga.filesystem) (self : reader) (db : string) :
  match
    f <- max_ctime
           (Mtga.glob fs (Py.path_join (mtga_raw_dir self) ["Raw_" ++ db ++ "_*.mtga"])) ;;
    sqlite3_connect f
  with
  | Ok c =>
      ~ Derived.unavailable fs self db
      /\ exists f,
           sqlite3_connect f = Ok c
           /\ In f (Mtga.glob fs (Py.path_join (mtga_raw_dir self) ["Raw_" ++ db ++ "_*.mtga"]))
           /\ forall g,
               In g (Mtga.glob fs (Py.path_join (mtga_raw_dir self)
                                     ["Raw_" ++ db ++ "_*.mtga"])) ->
               (file_ctime g <= file_ctime f)%Z
  | Raise _ => Derived.unavailable fs self db
  end.
Proof.
  unfold Derived.unavailable.
  pose proof (max_ctime_spec
                (Mtga.glob fs (Py.path_join (mtga_raw_dir self) ["Raw_" ++ db ++ "_*.mtga"])))
    as Hmax.
  destruct (max_ctime _) as [f|e]; cbn [bind]; [|now left].
  unfold sqlite3_connect at 1. destruct (file_opens f) eqn:Hopen.
  - split.
    + intros [E|(g & [= <-] & Hg)]; [|congruence].
      rewrite E in Hmax. destruct Hmax as [[] _].
    + exists f. split; [|exact Hmax]. unfold sqlite3_connect. now rewrite Hopen.
  - right. exists f. split; [reflexivity|exact Hopen].
Qed.

Lemma get_databases_loop (fs : Mtga.filesystem) (self : reader) (l : list string) :
  forall conns,
    match
      for_each
        (fun conns db =>
           f <- max_ctime
                  (Mtga.glob fs (Py.path_join (mtga_raw_dir self) ["Raw_" ++ db ++ "_*.mtga"])) ;;
           c <- sqlite3_connect f ;;
           Ok (Py.dict_set String.eqb conns db c))
        l conns
    with
    | Ok _ => forall db, In db l -> ~ Derived.unavailable fs self db
    | Raise _ => exists db, In db l /\ Derived.unavailable fs self db
    end.
Proof.
  induction l as [|db l IH]; intros conns; cbn [for_each].
  - intros db [].
  - pose proof (connect_or_unavailable fs self db) as Hc.
    destruct (max_ctime _) as [f|e]; cbn [bind] in *.
    + destruct (sqlite3_connect f) as [c|e]; cbn [bind].
      * specialize (IH (Py.dict_set String.eqb conns db c)).
        destruct (for_each _ l _) as [c'|e].
        -- intros db' [<-|Hin]; [exact (proj1 Hc)|now apply IH].
        -- destruct IH as (db' & Hin & E). exists db'. split; [now right|exact E].
      * exists db. split; [now left|exact Hc].
    + exists db. split; [now left|exact Hc].
Qed.

Lemma get_databases_spec :
  forall (fs : Mtga.filesystem) (self : reader),
    (snd (get_databases fs self) = false <->
     exists db, In db dbs /\ Derived.unavailable fs self db)
    /\ (snd (get_databases fs self) = false ->
        connections (fst (get_databases fs self)) = [])
    /\ (snd (get_databases fs self) = true ->
        forall db, In db dbs ->
          exists f c,
            Py.dict_get String.eqb (connections (fst (get_databases fs self))) db = Some c
            /\ sqlite3_connect f = Ok c
            /\ In f (Mtga.glob fs (Py.path_join (mtga_raw_dir self) ["Raw_" ++ db ++ "_*.mtga"]))
            /\ forall g,
                In g (Mtga.glob fs (Py.path_join (mtga_raw_dir self) ["Raw_" ++ db ++ "_*.mtga"])) ->
                (file_ctime g <= file_ctime f)%Z).
Proof.
  intros fs self.
  pose proof (get_databases_loop fs self dbs (connections self)) as Hloop.
  unfold get_databases.
  set (body := fun (conns : list (string * connection)) (db : string) =>
         f <- max_ctime
                (Mtga.glob fs (Py.path_join (mtga_raw_dir self) ["Raw_" ++ db ++ "_*.mtga"])) ;;
         c <- sqlite3_connect f ;;
         Ok (Py.dict_set String.eqb conns db c)) in *.
  assert (Hbody : forall d a,
             body d a
             = (c <- (f <- max_ctime
                             (Mtga.glob fs (Py.path_join (mtga_raw_dir self)
                                              ["Raw_" ++ a ++ "_*.mtga"])) ;;
                      sqlite3_connect f) ;;
                Ok (Py.dict_set String.eqb d a c))).
  { intros d a. unfold body. destruct (max_ctime _); reflexivity. }
  destruct (for_each body dbs (connections self)) as [conns|e] eqn:E; cbn [fst snd].
  - split; [split; [discriminate|]|split; [discriminate|]].
    + intros (db & Hin & Hnone). exfalso. exact (Hloop db Hin Hnone).
    + intros _ db Hin.
      pose proof (connect_or_unavailable fs self db) as Hdb.
      destruct (f <- max_ctime _ ;; sqlite3_connect f) as [c|e] eqn:Ec;
        [|exfalso; exact (Hloop db Hin Hdb)].
      destruct Hdb as (_ & f & Hf). exists f, c. split; [|exact Hf].
      destruct (for_each_set_get body (fun db => db) db c dbs)
        with (d := connections self) as (d' & Hd' & Hget).
      * intros d a Ha. rewrite Hbody.
        pose proof (connect_or_unavailable fs self a) as Ha'.
        destruct (f <- max_ctime
                         (Mtga.glob fs (Py.path_join (mtga_raw_dir self)
                                          ["Raw_" ++ a ++ "_*.mtga"])) ;;
                  sqlite3_connect f) as [ca|ea] eqn:Ea;
          [|exfalso; exact (Hloop a Ha Ha')].
        cbn [bind]. eexists. split; [reflexivity|].
        intros ->. rewrite Ec in Ea. now injection Ea as <-.
      * right. exists db. auto.
      * rewrite E in Hd'. injection Hd' as <-. exact Hget.
  - split; [split; [intros _; exact Hloop|reflexivity]|].
    split; [reflexivity|discriminate].
Qed.

(** X1. [get_databases] is all or nothing.  Let the path of the Raw
    directory hold no character that [glob] reads as a pattern (the
    pattern is then the one star that the method writes).  The method
    returns False exactly when, for one of the six databases, there is no
    file Raw_<name>_*.mtga in the Raw directory or the newest of these
    files cannot be opened; the reader is then left without any
    connection.  When it returns True, each of the six names is connected
    to a matching file that no other matching file exceeds in creation
    time. *)
Theorem get_databases_all_or_nothing :
  forall (fs : Mtga.filesystem) (self : reader),
    Py.has_magic (mtga_raw_dir self) = false ->
    (snd (get_databases fs self) = false <->
     exists db, In db dbs
       /\ (Mtga.glob fs (Py.path_join (mtga_raw_dir self) ["Raw_" ++ db ++ "_*.mtga"]) = []
           \/ exists f,
                max_ctime (Mtga.glob fs (Py.path_join (mtga_raw_dir self)
                                           ["Raw_" ++ db ++ "_*.mtga"])) = Ok f
                /\ file_opens f = false))
    /\ (snd (get_databases fs self) = false ->
        connections (fst (get_databases fs self)) = [])
    /\ (snd (get_databases fs self) = true ->
        forall db, In db dbs ->
          exists f c,
            Py.dict_get String.eqb (connections (fst (get_databases fs self))) db = Some c
            /\ sqlite3_connect f = Ok c
            /\ In f (Mtga.glob fs (Py.path_join (mtga_raw_dir self) ["Raw_" ++ db ++ "_*.mtga"]))
            /\ forall g,
                In g (Mtga.glob fs (Py.path_join (mtga_raw_dir self) ["Raw_" ++ db ++ "_*.mtga"])) ->
                (file_ctime g <= file_ctime f)%Z).
Proof.
  intros fs self _. exact (get_databases_spec fs self).
Qed.

Lemma get_databases_all_or_nothing_witness :
  snd (get_databases Samples.incomplete_fs (new_reader "/games/MTGA" "enUS")) = false
  /\ snd (get_databases Samples.locked_fs (new_reader "/games/MTGA" "enUS")) = false
  /\ exists f c,
       Py.dict_get String.eqb
         (connections (fst (get_databases Samples.updated_fs (new_reader "/games/MTGA" "enUS"))))
         "CardDatabase"
       = Some c
       /\ sqlite3_connect f = Ok c
       /\ file_ctime f = 5%Z.
Proof.
  split; [|split].
  - apply (proj1 (get_databases_all_or_nothing
                    Samples.incomplete_fs (new_reader "/games/MTGA" "enUS") eq_refl)).
    exists "credits". split; [vm_compute; tauto|left; reflexivity].
  - apply (proj1 (get_databases_all_or_nothing
                    Samples.locked_fs (new_reader "/games/MTGA" "enUS") eq_refl)).
    exists "CardDatabase". split; [vm_compute; tauto|right].
    eexists. split; reflexivity.
  - destruct (proj2 (proj2 (get_databases_all_or_nothing
                              Samples.updated_fs (new_reader "/games/MTGA" "enUS") eq_refl))
                eq_refl "CardDatabase")
      as (f & c & Hget & Hc & Hin & Hmax).
    + vm_compute. tauto.
    + exists f, c. split; [exact Hget|]. split; [exact Hc|].
      vm_compute in Hin. destruct Hin as [<-|[<-|[]]].
      * exfalso.
        pose proof (Hmax (Samples.raw_at "Raw_CardDatabase_new.mtga" 5 Scenario.cards_db)) as H.
        vm_compute in H. apply H; [right; now left|reflexivity].
      * reflexivity.
Defined.

(* ================================================================== *)
(** ** set_language: what it stores *)
(* ================================================================== *)

(** Every entry of the dict of available languages is a table of the
    catalog under the normalized form of its language code. *)
Lemma available_langs_entries (tables : list string) :
  forall acc d,
    for_each
      (fun d name =>
         match nth_error (Py.split name "Localizations_") 1 with
         | Some code => Ok (Py.dict_set String.eqb d (normalize code) name)
         | None => Raise IndexError
         end) tables acc = Ok d ->
    forall k name,
      In (k, name) d ->
      In (k, name) acc
      \/ (In name tables
          /\ exists code, nth_error (Py.split name "Localizations_") 1 = Some code
                          /\ normalize code = k).
Proof.
  induction tables as [|t tables IH]; intros acc d; cbn [for_each].
  - intros [= <-] k name H. now left.
  - destruct (nth_error (Py.split t "Localizations_") 1) as [code|] eqn:E;
      cbn [bind]; [|discriminate].
    intros H k name Hin.
    destruct (IH _ _ H k name Hin) as [Hacc|(Ht & c & Hc & Hk)].
    + apply dict_set_In in Hacc. destruct Hacc as [[= -> ->]|Hacc]; [|now left].
      right. split; [now left|]. exists code. auto.
    + right. split; [now right|]. exists c. auto.
Qed.

Lemma hd_error_In {A : Type} (l : list A) (x : A) : hd_error l = Some x -> In x l.
Proof. destruct l; simpl; [discriminate|]. intros [= ->]. now left. Qed.

Lemma set_language_ok_spec :
  forall (self : reader) (language t : string) (db : database),
    cursor self = Ok db ->
    snd (set_language self language) = Ok t ->
    In t (localization_tables db)
    /\ (exists code, nth_error (Py.split t "Localizations_") 1 = Some code
                     /\ normalize code = normalize language)
    /\ lang (fst (set_language self language)) = language
    /\ lang_table (fst (set_language self language)) = Some t
    /\ exists d, default_lang_table (fst (set_language self language)) = Some d
                 /\ In d (localization_tables db).
Proof.
  intros self language t db Hc. unfold set_language. rewrite Hc.
  unfold available_langs_of.
  destruct (for_each _ (localization_tables db) []) as [[|kv d]|e] eqn:E;
    try discriminate.
  pose proof (available_langs_entries _ _ _ E) as Hentries.
  destruct (Py.dict_get String.eqb (kv :: d) (normalize "enUS")) as [t1|] eqn:Hen.
  - destruct (Py.dict_get String.eqb (kv :: d) (normalize language)) as [t0|] eqn:Hget.
    + assert (Hdef : exists d0,
                 (if String.eqb t1 "" then hd_error (localization_tables db) else Some t1)
                 = Some d0 /\ In d0 (localization_tables db)
                 \/ (if String.eqb t1 "" then hd_error (localization_tables db) else Some t1)
                    = None).
      { destruct (String.eqb t1 "").
        - destruct (hd_error (localization_tables db)) as [h|] eqn:Hh.
          + exists h. left. split; [reflexivity|now apply hd_error_In].
          + exists "". now right.
        - exists t1. left. split; [reflexivity|].
          apply dict_get_In in Hen.
          destruct (Hentries _ _ Hen) as [[]|[H _]]. exact H. }
      destruct Hdef as (d0 & [[-> Hd0]| ->]); [|discriminate].
      destruct (String.eqb t0 "") eqn:Ht0; [discriminate|].
      cbn [fst snd]. intros [= <-].
      apply dict_get_In in Hget.
      destruct (Hentries _ _ Hget) as [[]|[Ht Hcode]].
      repeat split; auto. exists d0. split; [reflexivity|exact Hd0].
    + destruct (if String.eqb t1 "" then hd_error (localization_tables db) else Some t1);
        discriminate.
  - destruct (hd_error (localization_tables db)) as [h|] eqn:Hh; [|discriminate].
    destruct (Py.dict_get String.eqb (kv :: d) (normalize language)) as [t0|] eqn:Hget;
      [|discriminate].
    destruct (String.eqb t0 "") eqn:Ht0; [discriminate|].
    cbn [fst snd]. intros [= <-].
    apply dict_get_In in Hget.
    destruct (Hentries _ _ Hget) as [[]|[Ht Hcode]].
    repeat split; auto. exists h. split; [reflexivity|now apply hd_error_In].
Qed.

(** A request that matches the code of a catalog table is granted. *)
Lemma set_language_resolves (self : reader) (language : string) (db : database)
  (name code : string) :
  cursor self = Ok db ->
  (forall n, In n (localization_tables db) -> String.prefix "Localizations_" n = true) ->
  In name (localization_tables db) ->
  nth_error (Py.split name "Localizations_") 1 = Some code ->
  normalize code = normalize language ->
  exists t, snd (set_language self language) = Ok t.
Proof.
  intros Hc Hschema Hname Hcode Hmatch. unfold set_language. rewrite Hc.
  unfold available_langs_of.
  destruct (available_langs_keys (localization_tables db)
              (fun n Hn => split_localizations n (Hschema n Hn)) [])
    as (d & Hd & Hkeys).
  rewrite Hd.
  pose proof (available_langs_entries _ _ _ Hd) as Hentries.
  assert (Hkey : In (normalize language) (Py.dict_keys d)).
  { apply Hkeys. right. exists name, code. auto. }
  destruct (dict_get_of_key d _ Hkey) as [t0 Hget].
  assert (Hvalue : forall k t, Py.dict_get String.eqb d k = Some t -> String.eqb t "" = false).
  { intros k t Hk. apply dict_get_In in Hk.
    destruct (Hentries _ _ Hk) as [[]|[Ht _]].
    apply Hschema in Ht. destruct t; [discriminate|reflexivity]. }
  destruct d as [|kv d]; [destruct Hkey|].
  rewrite Hget, (Hvalue _ _ Hget).
  destruct (Py.dict_get String.eqb (kv :: d) (normalize "enUS")) as [t1|] eqn:Hen.
  - rewrite (Hvalue _ _ Hen). cbn [snd]. eauto.
  - destruct (localization_tables db) as [|h rest]; [destruct Hname|].
    cbn [hd_error snd]. eauto.
Qed.

(** C5. Two language identifiers that differ only in letter case or in
    hyphen and underscore separators select the same localization table.
    When [set_language] returns a table for one, it returns that table for
    the other; the table is a localization table of the catalog, its
    language code has the normalized form of both identifiers, and either
    call stores it as the active table.  With tables named
    Localizations_<code>, a request that matches the code of a table in
    this way is granted, for the one identifier as for the other.  With
    the tables Localizations_enUS and Localizations_jaJP, "en_us" selects
    Localizations_enUS. *)
Theorem set_language_case_and_separators :
  (forall (self : reader) (l1 l2 t : string) (db : database),
      Notions.same_language l1 l2 ->
      cursor self = Ok db ->
      (snd (set_language self l1) = Ok t <-> snd (set_language self l2) = Ok t)
      /\ (snd (set_language self l1) = Ok t ->
          In t (localization_tables db)
          /\ (exists code,
                 nth_error (Py.split t "Localizations_") 1 = Some code
                 /\ normalize code = normalize l1
                 /\ normalize code = normalize l2)
          /\ lang_table (fst (set_language self l1)) = Some t
          /\ lang_table (fst (set_language self l2)) = Some t))
  /\ (forall (self : reader) (l1 l2 name code : string) (db : database),
         Notions.same_language l1 l2 ->
         cursor self = Ok db ->
         (forall n, In n (localization_tables db) ->
                    String.prefix "Localizations_" n = true) ->
         In name (localization_tables db) ->
         nth_error (Py.split name "Localizations_") 1 = Some code ->
         normalize code = normalize l1 ->
         exists t,
           snd (set_language self l1) = Ok t /\ snd (set_language self l2) = Ok t)
  /\ localization_tables Scenario.two_languages_db
     = ["Localizations_enUS"; "Localizations_jaJP"]
  /\ snd (set_language Scenario.two_languages_reader "en_us") = Ok "Localizations_enUS"
  /\ lang_table (fst (set_language Scenario.two_languages_reader "en_us"))
     = Some "Localizations_enUS".
Proof.
  split; [|split; [|repeat split]].
  - intros self l1 l2 t db Hsame Hc.
    pose proof (same_language_normalize l1 l2 Hsame) as Hn.
    split; [split|].
    + intros H. now apply (set_language_normalized self l1 l2 t Hn).
    + intros H. now apply (set_language_normalized self l2 l1 t (eq_sym Hn)).
    + intros H.
      destruct (set_language_ok_spec self l1 t db Hc H)
        as (Hin & (code & Hcode & Hmatch) & _ & Htable & _).
      destruct (set_language_normalized self l1 l2 t Hn H) as (_ & _ & Htable2).
      split; [exact Hin|]. split; [|split; assumption].
      exists code. repeat split; congruence.
  - intros self l1 l2 name code db Hsame Hc Hschema Hname Hcode Hmatch.
    pose proof (same_language_normalize l1 l2 Hsame) as Hn.
    destruct (set_language_resolves self l1 db name code Hc Hschema Hname Hcode Hmatch)
      as [t Ht].
    exists t. split; [exact Ht|].
    now apply (set_language_normalized self l1 l2 t Hn).
Qed.

Lemma set_language_case_and_separators_witness :
  Notions.same_language "en_us" "EN-US"
  /\ snd (set_language Scenario.two_languages_reader "EN-US") = Ok "Localizations_enUS"
  /\ In "Localizations_enUS" (localization_tables Scenario.two_languages_db)
  /\ exists t,
       snd (set_language Scenario.two_languages_reader "ja_jp") = Ok t
       /\ snd (set_language Scenario.two_languages_reader "JA-JP") = Ok t.
Proof.
  assert (H : Notions.same_language "en_us" "EN-US").
  { apply Notions.same_letter; [reflexivity|].
    apply Notions.same_letter; [reflexivity|].
    apply Notions.same_separator_left; [reflexivity|].
    apply Notions.same_separator_right; [reflexivity|].
    apply Notions.same_letter; [reflexivity|].
    apply Notions.same_letter; [reflexivity|].
    apply Notions.same_empty. }
  assert (H' : Notions.same_language "ja_jp" "JA-JP").
  { apply Notions.same_letter; [reflexivity|].
    apply Notions.same_letter; [reflexivity|].
    apply Notions.same_separator_left; [reflexivity|].
    apply Notions.same_separator_right; [reflexivity|].
    apply Notions.same_letter; [reflexivity|].
    apply Notions.same_letter; [reflexivity|].
    apply Notions.same_empty. }
  destruct (proj1 set_language_case_and_separators
              Scenario.two_languages_reader "en_us" "EN-US"
              "Localizations_enUS" Scenario.two_languages_db H eq_refl)
    as [Hiff Hfacts].
  split; [exact H|]. split; [exact (proj1 Hiff eq_refl)|].
  split; [exact (proj1 (Hfacts eq_refl))|].
  apply (proj1 (proj2 set_language_case_and_separators)
           Scenario.two_languages_reader "ja_jp" "JA-JP" "Localizations_jaJP" "jaJP"
           Scenario.two_languages_db H' eq_refl).
  - intros n Hn. vm_compute in Hn. destruct Hn as [<-|[<-|[]]]; reflexivity.
  - vm_compute. tauto.
  - reflexivity.
  - reflexivity.
Defined.

(** X2. The table that [set_language] returns is a localization table of
    the catalog whose language code has the normalized form of the
    requested language; the call stores it as the active table together
    with the requested language, and stores a catalog table as the default
    table. *)
Theorem set_language_selects_catalog_table :
  forall (self : reader) (language t : string) (db : database),
    cursor self = Ok db ->
    snd (set_language self language) = Ok t ->
    In t (localization_tables db)
    /\ (exists code, nth_error (Py.split t "Localizations_") 1 = Some code
                     /\ normalize code = normalize language)
    /\ lang (fst (set_language self language)) = language
    /\ lang_table (fst (set_language self language)) = Some t
    /\ exists d, default_lang_table (fst (set_language self language)) = Some d
                 /\ In d (localization_tables db).
Proof. exact set_language_ok_spec. Qed.

Lemma set_language_selects_catalog_table_witness :
  In "Localizations_jaJP" (localization_tables Scenario.two_languages_db)
  /\ lang_table (fst (set_language Scenario.two_languages_reader "JA-jp"))
     = Some "Localizations_jaJP".
Proof.
  pose proof (set_language_selects_catalog_table
                Scenario.two_languages_reader "JA-jp" "Localizations_jaJP"
                Scenario.two_languages_db eq_refl eq_refl) as (Hin & _ & _ & Ht & _).
  split; [exact Hin|exact Ht].
Defined.

Lemma cursor_raises (self : reader) (e : exn) :
  cursor self = Raise e -> forall msg, e <> ValueError msg.
Proof.
  unfold cursor.
  destruct (Py.dict_get String.eqb (connections self) "CardDatabase") as [c|];
    [destruct (conn_open c);
     [destruct (conn_db c) as [db|]; [destruct (well_formed db)|]|]|];
    try discriminate; intros [= <-] msg; discriminate.
Qed.

Lemma available_langs_of_raises (tables : list string) (e : exn) :
  available_langs_of tables = Raise e -> e = IndexError.
Proof.
  unfold available_langs_of. generalize (@nil (string * string)).
  induction tables as [|t tables IH]; intros acc; cbn [for_each]; [discriminate|].
  destruct (nth_error (Py.split t "Localizations_") 1); cbn [bind].
  - apply IH.
  - intros [= <-]. reflexivity.
Qed.

(** X3. A call of [set_language] that raises leaves the language, the
    active table, the connections and the enum table of the reader as they
    were.  The default table is another matter: when the language is
    refused although the catalog has localization tables, the default
    table has been set all the same. *)
Theorem set_language_failure_keeps_language :
  forall (self : reader) (language : string) (e : exn),
    snd (set_language self language) = Raise e ->
    lang (fst (set_language self language)) = lang self
    /\ lang_table (fst (set_language self language)) = lang_table self
    /\ connections (fst (set_language self language)) = connections self
    /\ enums (fst (set_language self language)) = enums self
    /\ (forall msg, e = ValueError msg ->
                    msg <> "No localization tables found in CardDatabase." ->
                    default_lang_table (fst (set_language self language)) <> None).
Proof.
  intros self language e. unfold set_language.
  destruct (cursor self) as [db|e0] eqn:Hc; cbn [fst snd].
  2:{ intros [= <-]. repeat split. intros msg E _.
      exfalso. exact (cursor_raises self e0 Hc msg E). }
  destruct (available_langs_of (localization_tables db)) as [[|kv d]|e0] eqn:Ha;
    cbn [fst snd].
  - intros [= <-]. repeat split. intros msg [= <-] Hne. now contradiction Hne.
  - destruct (match Py.dict_get String.eqb (kv :: d) (normalize "enUS") with
              | Some t => if String.eqb t "" then hd_error (localization_tables db) else Some t
              | None => hd_error (localization_tables db)
              end) as [d0|]; cbn [fst snd].
    2:{ intros [= <-]. repeat split. intros msg E. discriminate. }
    destruct (Py.dict_get String.eqb (kv :: d) (normalize language)) as [t0|];
      [destruct (String.eqb t0 "")|]; cbn [fst snd]; try discriminate;
      intros [= <-]; repeat split; intros msg _ _; discriminate.
  - intros [= <-]. repeat split. intros msg E _.
    apply available_langs_of_raises in Ha. subst. discriminate.
Qed.

Lemma set_language_failure_keeps_language_witness :
  lang_table (fst (set_language Scenario.bolt_reader "xx")) = lang_table Scenario.bolt_reader
  /\ default_lang_table (fst (set_language Scenario.two_languages_reader "xx")) <> None.
Proof.
  split.
  - exact (proj1 (proj2 (set_language_failure_keeps_language
                           Scenario.bolt_reader "xx" _ eq_refl))).
  - apply (proj2 (proj2 (proj2 (proj2
             (set_language_failure_keeps_language
                Scenario.two_languages_reader "xx" _ eq_refl))))
             "Language 'xx' not available. Options: enus, jajp" eq_refl).
    discriminate.
Defined.

Lemma string_of_list_ascii_app (a b : list ascii) :
  string_of_list_ascii (a ++ b)%list = string_of_list_ascii a ++ string_of_list_ascii b.
Proof. induction a as [|c a IH]; simpl; [reflexivity|now rewrite IH]. Qed.

(** A string that does not hold the separator is not split. *)
Lemma split_from_without_sep (sep : string) (s : string) :
  forall cur,
    Py.contains sep s = false ->
    Py.split_from sep 0 cur s = [string_of_list_ascii (rev cur) ++ s].
Proof.
  induction s as [|c s IH]; intros cur H; cbn [Py.split_from].
  - now rewrite string_app_empty_r.
  - cbn [Py.contains] in H. apply orb_false_iff in H. destruct H as [Hp Hc].
    rewrite Hp, (IH _ Hc). simpl rev.
    rewrite string_of_list_ascii_app, string_app_assoc. reflexivity.
Qed.

Lemma split_without_sep (s sep : string) :
  Py.contains sep s = false -> Py.split s sep = [s].
Proof. intros H. unfold Py.split. now rewrite split_from_without_sep. Qed.

Lemma available_langs_of_index_error (tables : list string) (name : string) :
  In name tables -> Py.contains "Localizations_" name = false ->
  available_langs_of tables = Raise IndexError.
Proof.
  unfold available_langs_of. generalize (@nil (string * string)).
  induction tables as [|t tables IH]; intros acc Hin Hc; [destruct Hin|].
  cbn [for_each].
  destruct (nth_error (Py.split t "Localizations_") 1) as [code|] eqn:E; cbn [bind];
    [|reflexivity].
  destruct Hin as [->|Hin]; [|now apply IH].
  rewrite split_without_sep in E by exact Hc. discriminate.
Qed.

(** X4. When the catalog has a table that the pattern of the catalog
    query lets through but whose name does not hold "Localizations_" as it
    is written (the pattern matches without case, and its underscore
    stands for any character), [set_language] raises IndexError, whatever
    the language asked for, and leaves the reader as it was. *)
Theorem set_language_index_error :
  forall (self : reader) (language name : string) (db : database),
    cursor self = Ok db ->
    In name (map fst db) ->
    like "Localizations_%" name = true ->
    Py.contains "Localizations_" name = false ->
    set_language self language = (self, Raise IndexError).
Proof.
  intros self language name db Hc Hin Hlike Hcontains.
  unfold set_language. rewrite Hc.
  rewrite (available_langs_of_index_error (localization_tables db) name); auto.
  unfold localization_tables. apply filter_In. auto.
Qed.

Lemma set_language_index_error_witness :
  set_language Samples.lowercase_reader "enUS" = (Samples.lowercase_reader, Raise IndexError).
Proof.
  apply (set_language_index_error Samples.lowercase_reader "enUS" "localizations_fr"
           Samples.lowercase_db eq_refl).
  - simpl. tauto.
  - reflexivity.
  - reflexivity.
Defined.

(* ================================================================== *)
(** ** close *)
(* ================================================================== *)

Lemma dict_get_map_snd {V W : Type} (f : V -> W) (d : list (string * V)) (k : string) :
  Py.dict_get String.eqb (map (fun kv => (fst kv, f (snd kv))) d) k
  = option_map f (Py.dict_get String.eqb d k).
Proof.
  induction d as [|[k' v] d IH]; simpl; [reflexivity|].
  destruct (String.eqb k' k); [reflexivity|exact IH].
Qed.

Lemma cursor_closed (self : reader) :
  cursor (fst (close self))
  = match Py.dict_get String.eqb (connections self) "CardDatabase" with
    | Some _ => Raise (ProgrammingError "Cannot operate on a closed database.")
    | None => Raise (KeyError "CardDatabase")
    end.
Proof.
  unfold cursor, close. cbn [fst connections with_connections].
  rewrite (dict_get_map_snd
             (fun c => {| conn_open := false; conn_db := conn_db c |})).
  destruct (Py.dict_get String.eqb (connections self) "CardDatabase"); reflexivity.
Qed.

Lemma lookup_raises (self : reader) (text_id : sqlval) (name : option string) (e : exn) :
  cursor self = Raise e -> _lookup_localization self text_id name = Raise e.
Proof. intros H. unfold _lookup_localization. now rewrite H. Qed.

(** What the methods do on a reader whose cursor raises. *)
Lemma without_cursor (fs : Mtga.filesystem) (self : reader) (e : exn) :
  cursor self = Raise e ->
  (forall card_id get_art, get_card_by_id fs self card_id get_art = Raise e)
  /\ (forall card_name limit get_art,
         get_card_by_name fs self card_name limit get_art = Raise e)
  /\ (forall text_id, get_card_translation_id self text_id = Ok text_id)
  /\ (forall ability_id, get_card_abilities self ability_id = Plain ability_id)
  /\ (forall language, set_language self language = (self, Raise e))
  /\ get_enums self = (self, Raise e).
Proof.
  intros Hc. repeat split.
  - intros. unfold get_card_by_id. now rewrite Hc.
  - intros. unfold get_card_by_name. now rewrite Hc.
  - intros text_id. destruct (sqlval_null_dec text_id) as [->|Hne]; [reflexivity|].
    rewrite (get_card_translation_id_cases self text_id Hne).
    now rewrite (lookup_raises self text_id _ e Hc).
  - intros. unfold get_card_abilities. now rewrite Hc.
  - intros. unfold set_language. now rewrite Hc.
  - unfold get_enums. now rewrite Hc.
Qed.

(** X5. After [close], every query of the card database raises: the card
    lookups [get_card_by_id] and [get_card_by_name] and [set_language]
    raise the error of the closed connection (ProgrammingError when the
    reader had a card database), while [get_card_translation_id] hands
    back the identifier and [get_card_abilities] the ability identifier.
    Closing twice is closing once. *)
Theorem closed_reader_behaviour :
  forall (fs : Mtga.filesystem) (self : reader),
    exists e,
      cursor (fst (close self)) = Raise e
      /\ (forall c, Py.dict_get String.eqb (connections self) "CardDatabase" = Some c ->
                    e = ProgrammingError "Cannot operate on a closed database.")
      /\ (forall card_id get_art,
             get_card_by_id fs (fst (close self)) card_id get_art = Raise e)
      /\ (forall card_name limit get_art,
             get_card_by_name fs (fst (close self)) card_name limit get_art = Raise e)
      /\ (forall language,
             set_language (fst (close self)) language = (fst (close self), Raise e))
      /\ (forall text_id, get_card_translation_id (fst (close self)) text_id = Ok text_id)
      /\ (forall ability_id,
             get_card_abilities (fst (close self)) ability_id = Plain ability_id)
      /\ fst (close (fst (close self))) = fst (close self).
Proof.
  intros fs self.
  pose proof (cursor_closed self) as Hc.
  destruct (Py.dict_get String.eqb (connections self) "CardDatabase") as [c|] eqn:Hget;
    eexists; (split; [exact Hc|]);
    destruct (without_cursor fs (fst (close self)) _ Hc)
      as (Hid & Hname & Htr & Hab & Hlang & _);
    (split; [intros; try reflexivity; discriminate|]);
    repeat (split; [assumption|]);
    (unfold close; cbn [fst]; unfold with_connections; cbn; f_equal;
     rewrite map_map; apply map_ext; intros [k v]; reflexivity).
Qed.

Lemma closed_reader_behaviour_witness :
  get_card_by_id [] (fst (close Scenario.cards_reader)) (SInt 7) false
  = Raise (ProgrammingError "Cannot operate on a closed database.").
Proof.
  destruct (closed_reader_behaviour [] Scenario.cards_reader)
    as (e & _ & He & Hid & _).
  rewrite (Hid (SInt 7) false). f_equal.
  exact (He _ eq_refl).
Defined.

(* ================================================================== *)
(** ** get_card_abilities *)
(* ================================================================== *)

(** The loop of [get_card_abilities] over rows that all have a TextId. *)
Lemma abilities_loop_ok (self : reader) (rows : list row) :
  (forall r, In r rows -> In "TextId" (Py.dict_keys (dict_factory r))) ->
  forall acc,
  exists out,
    for_each
      (fun ret r =>
         match Py.dict_get String.eqb (dict_factory r) "TextId" with
         | None => Raise (KeyError "TextId")
         | Some v =>
             text <- get_card_translation_id self v ;;
             Ok (ret ++ [Py.dict_set String.eqb (dict_factory r) "TextId" text])%list
         end) rows acc
    = Ok (acc ++ out)%list
    /\ Forall2
         (fun r o =>
            exists text,
              get_card_translation_id self (col r "TextId") = Ok text
              /\ o = Py.dict_set String.eqb (dict_factory r) "TextId" text)
         rows out.
Proof.
  induction rows as [|r rows IH]; intros Hall acc; cbn [for_each].
  - exists []. rewrite app_nil_r. split; [reflexivity|constructor].
  - destruct (dict_get_of_key _ _ (Hall r (or_introl eq_refl))) as [v Hv].
    destruct (get_card_translation_id_total self v) as [text Htext].
    destruct (IH (fun r' H => Hall r' (or_intror H))
                 (acc ++ [Py.dict_set String.eqb (dict_factory r) "TextId" text])%list)
      as (out & E & Hout).
    exists (Py.dict_set String.eqb (dict_factory r) "TextId" text :: out).
    split.
    { rewrite Hv, Htext. cbn [bind].
      etransitivity; [exact E|]. now rewrite <- app_assoc. }
    constructor; [|exact Hout].
    exists text. split; [|reflexivity].
    unfold col. now rewrite Hv.
Qed.

(** The same loop when a row has no TextId: the subscript raises. *)
Lemma abilities_loop_raises (self : reader) (rows : list row) :
  (exists r, In r rows /\ ~ In "TextId" (Py.dict_keys (dict_factory r))) ->
  forall acc,
  exists e,
    for_each
      (fun ret r =>
         match Py.dict_get String.eqb (dict_factory r) "TextId" with
         | None => Raise (KeyError "TextId")
         | Some v =>
             text <- get_card_translation_id self v ;;
             Ok (ret ++ [Py.dict_set String.eqb (dict_factory r) "TextId" text])%list
         end) rows acc
    = Raise e.
Proof.
  induction rows as [|r rows IH]; intros (r' & Hin & Hno) acc; [destruct Hin|].
  cbn [for_each].
  destruct (Py.dict_get String.eqb (dict_factory r) "TextId") as [v|] eqn:Hv.
  - destruct (get_card_translation_id_total self v) as [text Htext].
    assert (Hrest : exists r0, In r0 rows
                               /\ ~ In "TextId" (Py.dict_keys (dict_factory r0))).
    { destruct Hin as [->|Hin]; [|eauto].
      exfalso. apply Hno. apply dict_get_In in Hv.
      apply (in_map fst) in Hv. exact Hv. }
    destruct (IH Hrest
                (acc ++ [Py.dict_set String.eqb (dict_factory r) "TextId" text])%list)
      as [e E].
    exists e. rewrite Htext. cbn [bind]. exact E.
  - exists (KeyError "TextId"). reflexivity.
Qed.

(** X6. [get_card_abilities] on an open card database.  For an
    identifier that can be bound to the statement: without a row of the
    identifier in Abilities (the rows compared with it as they are: no
    number with a text) it returns None; when the rows of the identifier
    all have a TextId, it returns the first of them with its TextId
    replaced by the translation (the other columns as they are); when one
    of them has no TextId, the KeyError is swallowed and the identifier
    itself comes back.  An integer beyond 64 bits cannot be bound: the
    OverflowError is swallowed too, and the identifier comes back. *)
Theorem get_card_abilities_cases :
  forall (self : reader) (ability_id : sqlval) (db : database) (t : table),
    cursor self = Ok db -> from_table db "Abilities" = Ok t ->
    (storable ability_id = true ->
     (forall r, In r t -> Notions.same_class (col r "Id") ability_id = true) ->
     filter (fun r => sql_eq (col r "Id") ability_id) t = [] ->
     get_card_abilities self ability_id = Plain SNull)
    /\ (forall r rest,
           filter (fun r => sql_eq (col r "Id") ability_id) t = r :: rest ->
           (forall r', In r' (r :: rest) ->
                       In "TextId" (Py.dict_keys (dict_factory r'))) ->
           exists text,
             get_card_translation_id self (col r "TextId") = Ok text
             /\ get_card_abilities self ability_id
                = AbilityRecord (Py.dict_set String.eqb (dict_factory r) "TextId" text))
    /\ ((exists r, In r (filter (fun r => sql_eq (col r "Id") ability_id) t)
                   /\ ~ In "TextId" (Py.dict_keys (dict_factory r))) ->
        get_card_abilities self ability_id = Plain ability_id)
    /\ (storable ability_id = false ->
        get_card_abilities self ability_id = Plain ability_id).
Proof.
  intros self ability_id db t Hc Ht. unfold get_card_abilities.
  rewrite Hc. cbn [bind]. rewrite Ht. cbn [bind].
  repeat split.
  - intros Hbind _ ->. rewrite (bind_parameter_ok _ Hbind). reflexivity.
  - intros r rest Hf Hall.
    destruct (filter_head_In _ _ _ _ Hf) as [Hr Hid].
    rewrite (bind_parameter_ok _ (found_storable _ _ _ _ _ _ _ Hc Ht Hr Hid)).
    cbn [bind]. rewrite Hf.
    destruct (abilities_loop_ok self (r :: rest) Hall []) as (out & -> & Hout).
    cbn [bind app].
    inversion Hout as [|? o ? outs (text & Htext & ->) _]; subst.
    exists text. split; [exact Htext|reflexivity].
  - intros Hbad.
    destruct (storable ability_id) eqn:Hbind.
    + rewrite (bind_parameter_ok _ Hbind). cbn [bind].
      destruct (abilities_loop_raises self _ Hbad []) as [e ->]. reflexivity.
    + now rewrite (bind_parameter_overflow _ Hbind).
  - intros Hbind. now rewrite (bind_parameter_overflow _ Hbind).
Qed.

Lemma get_card_abilities_cases_witness :
  get_card_abilities Samples.full_reader (SInt 99) = Plain SNull
  /\ get_card_abilities Samples.full_reader (SInt 5)
     = AbilityRecord
         [("Id", SInt 5);
          ("TextId", SText "Lightning Bolt deals 3 damage to any target.")]
  /\ get_card_abilities Samples.full_reader (SInt 9223372036854775808)
     = Plain (SInt 9223372036854775808).
Proof.
  pose proof (get_card_abilities_cases Samples.full_reader (SInt 99) Samples.full_db
                [[("Id", SInt 5); ("TextId", SInt 20)]] eq_refl eq_refl) as (Hnone & _ & _).
  pose proof (get_card_abilities_cases Samples.full_reader (SInt 5) Samples.full_db
                [[("Id", SInt 5); ("TextId", SInt 20)]] eq_refl eq_refl) as (_ & Hsome & _).
  pose proof (get_card_abilities_cases Samples.full_reader (SInt 9223372036854775808)
                Samples.full_db
                [[("Id", SInt 5); ("TextId", SInt 20)]] eq_refl eq_refl)
    as (_ & _ & _ & Hbig).
  split; [|split; [|exact (Hbig eq_refl)]].
  - apply (Hnone eq_refl); [|reflexivity]. intros r [<-|[]]. reflexivity.
  - destruct (Hsome [("Id", SInt 5); ("TextId", SInt 20)] [] eq_refl) as (text & Htext & ->).
    + intros r' [<-|[]]. simpl. tauto.
    + vm_compute in Htext. injection Htext as <-. reflexivity.
Defined.

(* ================================================================== *)
(** ** get_card_by_id: the fields of a record *)
(* ================================================================== *)

Lemma for_each_ext {X S : Type} (f g : S -> X -> result S) (l : list X) :
  (forall acc x, In x l -> f acc x = g acc x) ->
  forall acc, for_each f l acc = for_each g l acc.
Proof.
  induction l as [|x l IH]; intros H acc; cbn [for_each]; [reflexivity|].
  rewrite (H acc x (or_introl eq_refl)).
  destruct (g acc x) as [acc'|e]; cbn [bind]; [|reflexivity].
  apply IH. intros acc0 y Hy. apply H. now right.
Qed.

Lemma card_field_stored (fs : Mtga.filesystem) (self : reader) (get_art : bool)
  (tmp : card_record) (key : string) (val : sqlval) :
  card_field fs self get_art tmp (key, val)
  = Ok (Py.dict_set String.eqb tmp (Notions.record_key key)
          (Derived.stored_value fs self get_art key val)).
Proof.
  unfold card_field, Derived.stored_value, Notions.record_key, Notions.classify.
  cbn [fst snd].
  destruct (is_text_key key).
  - destruct val; [reflexivity| |];
      match goal with
      | |- context [get_card_translation_id self ?v] =>
          destruct (get_card_translation_id_total self v) as [text ->]
      end; reflexivity.
  - destruct (is_ability_key key); [destruct val; reflexivity|].
    destruct (is_art_key key); [|reflexivity].
    destruct val; [reflexivity| |]; destruct get_art; reflexivity.
Qed.

(** The loop over the columns of a row, as a run of assignments. *)
Lemma card_fields_fold (fs : Mtga.filesystem) (self : reader) (get_art : bool)
  (columns : list (string * sqlval)) :
  forall tmp,
    for_each (card_field fs self get_art) columns tmp
    = Ok (fold_left
            (fun t kv => Py.dict_set String.eqb t (Notions.record_key (fst kv))
                           (Derived.stored_value fs self get_art (fst kv) (snd kv)))
            columns tmp).
Proof.
  induction columns as [|[k v] columns IH]; intros tmp; cbn [for_each fold_left];
    [reflexivity|].
  rewrite card_field_stored. cbn [bind fst snd]. apply IH.
Qed.

Lemma fold_set_keys {X V : Type} (fk : X -> string) (fv : X -> V) (l : list X) :
  forall d k,
    In k (Py.dict_keys (fold_left (fun t a => Py.dict_set String.eqb t (fk a) (fv a)) l d))
    <-> In k (Py.dict_keys d) \/ exists a, In a l /\ fk a = k.
Proof.
  induction l as [|a l IH]; intros d k; cbn [fold_left].
  - split; [auto|]. intros [H|(a & [] & _)]. exact H.
  - rewrite IH, dict_set_keys. split.
    + intros [[->|H]|(b & Hb & Hk)].
      * right. exists a. split; [now left|reflexivity].
      * now left.
      * right. exists b. split; [now right|exact Hk].
    + intros [H|(b & [->|Hb] & Hk)].
      * left. now right.
      * left. left. now symmetry.
      * right. exists b. auto.
Qed.

Lemma fold_set_value {X V : Type} (fk : X -> string) (fv : X -> V) (l : list X)
  (a : X) :
  In a l ->
  (forall b, In b l -> fk b = fk a -> b = a) ->
  forall d,
    Py.dict_get String.eqb
      (fold_left (fun t a => Py.dict_set String.eqb t (fk a) (fv a)) l d) (fk a)
    = Some (fv a).
Proof.
  intros Hin Huniq.
  assert (H : forall d,
             (Py.dict_get String.eqb d (fk a) = Some (fv a) \/ In a l) ->
             Py.dict_get String.eqb
               (fold_left (fun t a => Py.dict_set String.eqb t (fk a) (fv a)) l d) (fk a)
             = Some (fv a)).
  { clear Hin. induction l as [|b l IH]; intros d Hd; cbn [fold_left].
    - destruct Hd as [H|[]]. exact H.
    - apply IH.
      + intros c Hc. apply Huniq. now right.
      + destruct (String.eqb_spec (fk b) (fk a)) as [E|E].
        * left. rewrite (Huniq b (or_introl eq_refl) E). apply dict_get_set_same.
        * rewrite dict_get_set_other by exact E.
          destruct Hd as [H|[->|H]]; [now left|contradiction|now right]. }
  intros d. apply H. now right.
Qed.

(** X7. The record that [get_card_by_id] builds from the row it finds:
    its keys are the record keys of the columns (a text, title or ability
    reference under its name without "Id" in lower case, an art reference
    under "art", any other column under its own name); and a column that
    shares its record key with no other column is stored as the
    translation of its text identifier, as the ability record of its
    ability identifier, as its art (the extracted images when art is asked
    for and the identifier is not null, the identifier itself when not), or
    as it is. *)
Theorem get_card_by_id_fields :
  forall (fs : Mtga.filesystem) (self : reader) (card_id : sqlval) (get_art : bool)
         (db : database) (cards : table) (r : row) (rest : list row),
    cursor self = Ok db -> from_table db "Cards" = Ok cards ->
    filter (fun r => sql_eq (col r "GrpId") card_id) cards = r :: rest ->
    exists record,
      get_card_by_id fs self card_id get_art = Ok (Some record)
      /\ (forall k, In k (Py.dict_keys record) <->
                    exists column, In column (Py.dict_keys (dict_factory r))
                                   /\ Notions.record_key column = k)
      /\ (forall key val,
             In (key, val) (dict_factory r) ->
             (forall other, In other (Py.dict_keys (dict_factory r)) ->
                            Notions.record_key other = Notions.record_key key ->
                            other = key) ->
             match Notions.classify key with
             | Notions.TextReference =>
                 exists text,
                   get_card_translation_id self val = Ok text
                   /\ Py.dict_get String.eqb record (renamed key) = Some (Plain text)
             | Notions.AbilityReference =>
                 Py.dict_get String.eqb record (renamed key)
                 = Some match val with
                        | SNull => Plain SNull
                        | _ => get_card_abilities self val
                        end
             | Notions.ArtReference =>
                 Py.dict_get String.eqb record "art"
                 = Some match val with
                        | SNull => Plain SNull
                        | _ => if get_art
                               then ArtResult (find_card_art_file fs self val)
                               else Plain val
                        end
             | Notions.PlainField =>
                 Py.dict_get String.eqb record key = Some (Plain val)
             end).
Proof.
  intros fs self card_id get_art db cards r rest Hc Ht Hf.
  eexists. split.
  { eapply get_card_by_id_first; try eassumption. apply card_fields_fold. }
  split.
  - intros k. rewrite fold_set_keys. cbn [Py.dict_keys map]. split.
    + intros [[]|([c v] & Hin & Hk)]. exists c. split; [|exact Hk].
      apply (in_map fst) in Hin. exact Hin.
    + intros (c & Hin & Hk). right. unfold Py.dict_keys in Hin.
      apply in_map_iff in Hin. destruct Hin as ([c' v] & E & Hin). cbn [fst] in E.
      subst c'. exists (c, v). auto.
  - intros key val Hin Huniq.
    pose proof (fold_set_value
                  (fun kv : string * sqlval => Notions.record_key (fst kv))
                  (fun kv => Derived.stored_value fs self get_art (fst kv) (snd kv))
                  (dict_factory r) (key, val) Hin) as Hval.
    cbn [fst snd] in Hval.
    assert (Hget : Py.dict_get String.eqb
                     (fold_left
                        (fun t kv =>
                           Py.dict_set String.eqb t (Notions.record_key (fst kv))
                             (Derived.stored_value fs self get_art (fst kv) (snd kv)))
                        (dict_factory r) []) (Notions.record_key key)
                   = Some (Derived.stored_value fs self get_art key val)).
    { apply Hval. intros [k' v'] Hin' E. cbn [fst] in E.
      assert (k' = key).
      { apply Huniq; [|exact E]. apply (in_map fst) in Hin'. exact Hin'. }
      subst k'. f_equal.
      pose proof (dict_get_NoDup _ _ _ (dict_factory_NoDup r) Hin) as H1.
      pose proof (dict_get_NoDup _ _ _ (dict_factory_NoDup r) Hin') as H2.
      congruence. }
    unfold Notions.record_key, Derived.stored_value in Hget.
    destruct (Notions.classify key).
    + destruct (get_card_translation_id_total self val) as [text Htext].
      rewrite Htext in Hget. exists text. split; [exact Htext|exact Hget].
    + exact Hget.
    + exact Hget.
    + exact Hget.
Qed.

Lemma get_card_by_id_fields_witness :
  exists record,
    get_card_by_id [] Samples.full_reader (SInt 7) false = Ok (Some record)
    /\ Py.dict_get String.eqb record "title" = Some (Plain (SText "Lightning Bolt"))
    /\ Py.dict_get String.eqb record "art" = Some (Plain (SInt 123))
    /\ Py.dict_get String.eqb record "Power" = Some (Plain (SText "3")).
Proof.
  destruct (get_card_by_id_fields [] Samples.full_reader (SInt 7) false Samples.full_db
              [[("GrpId", SInt 7); ("ArtId", SInt 123); ("TitleId", SInt 10);
                ("AbilityIds", SInt 5); ("Power", SText "3")]]
              [("GrpId", SInt 7); ("ArtId", SInt 123); ("TitleId", SInt 10);
               ("AbilityIds", SInt 5); ("Power", SText "3")] []
              eq_refl eq_refl eq_refl) as (record & Hrec & _ & Hfields).
  assert (Huniq : forall key,
             In key ["ArtId"; "TitleId"; "Power"] ->
             forall other,
               In other (Py.dict_keys
                           (dict_factory
                              [("GrpId", SInt 7); ("ArtId", SInt 123); ("TitleId", SInt 10);
                               ("AbilityIds", SInt 5); ("Power", SText "3")])) ->
               Notions.record_key other = Notions.record_key key -> other = key).
  { intros key Hkey other Hother.
    vm_compute in Hother.
    destruct Hkey as [<-|[<-|[<-|[]]]];
      destruct Hother as [<-|[<-|[<-|[<-|[<-|[]]]]]];
      vm_compute; intros E; try reflexivity; discriminate. }
  assert (Hrow : forall kv,
             In kv [("ArtId", SInt 123); ("TitleId", SInt 10); ("Power", SText "3")] ->
             In kv (dict_factory
                      [("GrpId", SInt 7); ("ArtId", SInt 123); ("TitleId", SInt 10);
                       ("AbilityIds", SInt 5); ("Power", SText "3")])).
  { intros kv Hkv. vm_compute. simpl in Hkv. tauto. }
  exists record. split; [exact Hrec|]. split; [|split].
  - pose proof (Hfields "TitleId" (SInt 10) (Hrow _ (or_intror (or_introl eq_refl)))
                  (Huniq "TitleId" (or_intror (or_introl eq_refl))))
      as (text & Htext & Hget).
    vm_compute in Htext. injection Htext as <-. exact Hget.
  - exact (Hfields "ArtId" (SInt 123) (Hrow _ (or_introl eq_refl))
             (Huniq "ArtId" (or_introl eq_refl))).
  - exact (Hfields "Power" (SText "3") (Hrow _ (or_intror (or_intror (or_introl eq_refl))))
             (Huniq "Power" (or_intror (or_intror (or_introl eq_refl))))).
Defined.

(* ================================================================== *)
(** ** get_card_by_name: how the limit and the lookups compose *)
(* ================================================================== *)

Lemma for_each_collect_ok {X Y : Type} (f : X -> result Y) (l : list X) (ys : list Y) :
  Forall2 (fun x y => f x = Ok y) l ys ->
  forall acc,
    for_each (fun ret x => y <- f x ;; Ok (ret ++ [y])%list) l acc = Ok (acc ++ ys)%list.
Proof.
  induction 1 as [|x y l ys Hxy _ IH]; intros acc; cbn [for_each].
  - now rewrite app_nil_r.
  - rewrite Hxy. cbn [bind]. rewrite IH, <- app_assoc. reflexivity.
Qed.

Lemma Forall2_firstn {X Y : Type} (R : X -> Y -> Prop) (n : nat) (l : list X)
  (l' : list Y) :
  Forall2 R l l' -> Forall2 R (firstn n l) (firstn n l').
Proof.
  intros H. revert n. induction H as [|x y l l' Hxy _ IH]; intros [|n]; simpl;
    constructor; auto.
Qed.

Lemma limited_cards_positive (cards loc : table) (card_name : string) (n : Z) :
  (0 < n)%Z ->
  limited_cards cards loc card_name (Some n)
  = firstn (Z.to_nat n) (limited_cards cards loc card_name None).
Proof.
  intros Hn. unfold limited_cards, sql_limit.
  destruct (Z.eqb_spec n 0) as [->|_]; [lia|].
  destruct (Z.ltb_spec n 0); [lia|reflexivity].
Qed.

Lemma get_card_by_name_plain (fs : Mtga.filesystem) (self : reader) (card_name : string)
  (limit : option Z) (get_art : bool) (l : list (option card_record)) :
  get_card_by_name fs self card_name limit get_art = Ok l ->
  is_plain_name (str_of_table_name (lang_table self)) = true.
Proof.
  unfold get_card_by_name, parse_table_name.
  destruct (cursor self) as [db|e]; cbn [bind]; [|discriminate].
  destruct (is_plain_name (str_of_table_name (lang_table self))); [reflexivity|].
  destruct (is_hyphenated _); discriminate.
Qed.

Lemma int64_bounds (n : Z) :
  int64 n = true <-> (-9223372036854775808 <= n <= 9223372036854775807)%Z.
Proof.
  unfold int64. rewrite andb_true_iff, !Z.leb_le. tauto.
Qed.

Lemma bind_limit_ok (n : Z) : int64 n = true -> bind_limit (Some n) = Ok tt.
Proof.
  intros H. unfold bind_limit, bind_parameter. cbn [storable]. rewrite H.
  destruct (n =? 0)%Z; reflexivity.
Qed.

(** X9. The limit of [get_card_by_name] cuts the result and changes
    nothing else: when the call without a limit returns a list, the call
    with a limit N > 0 of 64 bits returns the first N entries of that
    list.  A negative limit of 64 bits is no limit (the name of the active
    table being a text that the engine reads as a name or refuses).  A
    limit beyond 64 bits cannot be bound to the statement: once the
    statement is accepted (the tables are there, the name of the active
    table is a plain name), the call raises OverflowError. *)
Theorem get_card_by_name_limit_is_prefix :
  forall (fs : Mtga.filesystem) (self : reader) (card_name : string) (get_art : bool),
    (forall l n,
        get_card_by_name fs self card_name None get_art = Ok l ->
        (0 < n <= 9223372036854775807)%Z ->
        get_card_by_name fs self card_name (Some n) get_art
        = Ok (firstn (Z.to_nat n) l))
    /\ (forall n,
           (-9223372036854775808 <= n < 0)%Z ->
           understood (str_of_table_name (lang_table self)) = true ->
           get_card_by_name fs self card_name (Some n) get_art
           = get_card_by_name fs self card_name None get_art)
    /\ (forall n db cards loc,
           int64 n = false ->
           cursor self = Ok db ->
           is_plain_name (str_of_table_name (lang_table self)) = true ->
           from_table db "Cards" = Ok cards ->
           from_table db (str_of_table_name (lang_table self)) = Ok loc ->
           get_card_by_name fs self card_name (Some n) get_art
           = Raise (OverflowError "Python int too large to convert to SQLite INTEGER")).
Proof.
  intros fs self card_name get_art. split; [|split].
  - intros l n H Hn.
    pose proof (get_card_by_name_plain _ _ _ _ _ _ H) as Hplain.
    destruct (get_card_by_name_rows _ _ _ _ _ _ H) as (db & cards & loc & Hc & Ht & Hl & Hall).
    unfold get_card_by_name, parse_table_name. rewrite Hc. cbn [bind].
    rewrite Hplain. cbn [bind]. rewrite Ht. cbn [bind].
    rewrite Hl. cbn [bind].
    rewrite bind_limit_ok by (apply int64_bounds; lia). cbn [bind].
    unfold select_by_name. rewrite (limited_cards_positive _ _ _ _ (proj1 Hn)).
    change (Ok (firstn (Z.to_nat n) l))
      with (@Ok (list (option card_record)) ([] ++ firstn (Z.to_nat n) l)%list).
    apply (for_each_collect_ok
             (fun linha => get_card_by_id fs self (col linha "GrpId") get_art)).
    rewrite <- firstn_map. apply Forall2_firstn.
    clear -Hall. induction Hall; constructor; auto.
  - intros n Hn _. unfold get_card_by_name, select_by_name, limited_cards, sql_limit.
    rewrite bind_limit_ok by (apply int64_bounds; lia). cbn [bind_limit].
    destruct (Z.eqb_spec n 0) as [->|_]; [lia|].
    destruct (Z.ltb_spec n 0); [reflexivity|lia].
  - intros n db cards loc Hn Hc Hplain Ht Hl.
    unfold get_card_by_name, parse_table_name. rewrite Hc. cbn [bind].
    rewrite Hplain. cbn [bind]. rewrite Ht. cbn [bind]. rewrite Hl. cbn [bind].
    unfold bind_limit, bind_parameter. cbn [storable]. rewrite Hn.
    destruct (Z.eqb_spec n 0) as [->|_]; [discriminate|reflexivity].
Qed.

Lemma get_card_by_name_limit_is_prefix_witness :
  get_card_by_name [] Scenario.cards_reader "lightning%" (Some 1%Z) false
  = Ok (firstn 1 [Some Scenario.bolt_record; Some Scenario.helix_record])
  /\ get_card_by_name [] Scenario.cards_reader "lightning%" (Some (-1)%Z) false
     = get_card_by_name [] Scenario.cards_reader "lightning%" None false
  /\ get_card_by_name [] Scenario.cards_reader "lightning%"
       (Some 9223372036854775808%Z) false
     = Raise (OverflowError "Python int too large to convert to SQLite INTEGER").
Proof.
  split; [|split].
  - apply (proj1 (get_card_by_name_limit_is_prefix
                    [] Scenario.cards_reader "lightning%" false)
             [Some Scenario.bolt_record; Some Scenario.helix_record] 1%Z eq_refl).
    lia.
  - apply (proj1 (proj2 (get_card_by_name_limit_is_prefix
                    [] Scenario.cards_reader "lightning%" false))
             (-1)%Z); [lia|reflexivity].
  - exact (proj2 (proj2 (get_card_by_name_limit_is_prefix
                    [] Scenario.cards_reader "lightning%" false))
             9223372036854775808%Z Scenario.cards_db
             [Scenario.card_row 7 SNull 10; Scenario.card_row 8 (SInt 123) 11]
             [Scenario.loc_row 10 "Lightning Bolt" 1; Scenario.loc_row 11 "Lightning Helix" 1]
             eq_refl eq_refl eq_refl eq_refl eq_refl).
Defined.

Lemma sql_eq_refl (v : sqlval) : v <> SNull -> sql_eq v v = true.
Proof.
  destruct v; simpl; [congruence| |]; intros _.
  - apply Z.eqb_refl.
  - apply String.eqb_refl.
Qed.

(** X10. The list that [get_card_by_name] returns follows the matching
    rows of Cards in table order, one entry a row: the record of the card
    of the row's GrpId, which carries that GrpId, or None when the GrpId of
    the row is NULL. *)
Theorem get_card_by_name_entries :
  forall (fs : Mtga.filesystem) (self : reader) (card_name : string)
         (limit : option Z) (get_art : bool) (l : list (option card_record)),
    get_card_by_name fs self card_name limit get_art = Ok l ->
    exists db cards loc,
      cursor self = Ok db /\ from_table db "Cards" = Ok cards
      /\ from_table db (str_of_table_name (lang_table self)) = Ok loc
      /\ Forall2
           (fun r entry =>
              get_card_by_id fs self (col r "GrpId") get_art = Ok entry
              /\ match col r "GrpId" with
                 | SNull => entry = None
                 | g => exists record,
                          entry = Some record
                          /\ Py.dict_get String.eqb record "GrpId" = Some (Plain g)
                 end)
           (limited_cards cards loc card_name limit) l.
Proof.
  intros fs self card_name limit get_art l H.
  destruct (get_card_by_name_rows _ _ _ _ _ _ H) as (db & cards & loc & Hc & Ht & Hl & Hall).
  exists db, cards, loc. repeat split; auto.
  assert (Hsub : forall r, In r (limited_cards cards loc card_name limit) -> In r cards).
  { intros r. unfold limited_cards, sql_limit.
    destruct limit as [n|]; [destruct (n =? 0)%Z; [|destruct (n <? 0)%Z]|];
      intros Hr; try apply In_firstn in Hr; apply filter_In in Hr; tauto. }
  clear H. revert Hsub Hall.
  generalize (limited_cards cards loc card_name limit) as rows.
  intros rows Hsub Hall. revert Hsub.
  induction Hall as [|r entry rows entries Hentry _ IH]; intros Hsub;
    constructor.
  - split; [exact Hentry|].
    destruct (sqlval_null_dec (col r "GrpId")) as [E|Hne].
    + rewrite E in *.
      rewrite (get_card_by_id_none fs self SNull get_art db cards Hc Ht eq_refl) in Hentry.
      * now injection Hentry as <-.
      * intros r' _. apply sql_eq_null_r.
    + assert (exists record, entry = Some record) as [record ->].
      { destruct (filter (fun r0 => sql_eq (col r0 "GrpId") (col r "GrpId")) cards)
          as [|r0 rest] eqn:Hf.
        - exfalso.
          assert (Hin : In r (filter (fun r0 => sql_eq (col r0 "GrpId") (col r "GrpId")) cards)).
          { apply filter_In. split; [apply Hsub; now left|now apply sql_eq_refl]. }
          rewrite Hf in Hin. destruct Hin.
        - rewrite (get_card_by_id_first fs self _ get_art db cards r0 rest _ Hc Ht Hf
                     (card_fields_fold fs self get_art (dict_factory r0) []))
            in Hentry.
          injection Hentry as <-. eauto. }
      pose proof (get_card_by_id_GrpId _ _ _ _ _ Hentry) as Hid.
      destruct (col r "GrpId"); [congruence| |]; eauto.
  - apply IH. intros r' Hr'. apply Hsub. now right.
Qed.

Lemma get_card_by_name_entries_witness :
  exists db cards loc,
    cursor Scenario.cards_reader = Ok db /\ from_table db "Cards" = Ok cards
    /\ from_table db (str_of_table_name (lang_table Scenario.cards_reader)) = Ok loc
    /\ Forall2
         (fun r entry =>
            get_card_by_id [] Scenario.cards_reader (col r "GrpId") false = Ok entry
            /\ match col r "GrpId" with
               | SNull => entry = None
               | g => exists record,
                        entry = Some record
                        /\ Py.dict_get String.eqb record "GrpId" = Some (Plain g)
               end)
         (limited_cards cards loc "lightning%" None)
         [Some Scenario.bolt_record; Some Scenario.helix_record].
Proof.
  exact (get_card_by_name_entries [] Scenario.cards_reader "lightning%" None false
           [Some Scenario.bolt_record; Some Scenario.helix_record] eq_refl).
Defined.

(* ================================================================== *)
(** ** find_card_art_file: which image a role ends up with *)
(* ================================================================== *)

Lemma fold_left_flat_map {X Y S : Type} (g : S -> Y -> S) (h : X -> list Y) (l : list X) :
  forall acc,
    fold_left (fun acc x => fold_left g (h x) acc) l acc = fold_left g (flat_map h l) acc.
Proof.
  induction l as [|x l IH]; intros acc; simpl; [reflexivity|].
  rewrite fold_left_app. apply IH.
Qed.

Lemma label_asset_stores (card_id : sqlval) (d : list (string * option image))
  (a : asset) (role : string) :
  In role (asset_roles card_id a) ->
  Py.dict_get String.eqb (label_asset card_id d a) role = Some (asset_image a).
Proof.
  unfold label_asset, asset_roles.
  destruct (is_image_type (asset_type a)); [|intros []].
  destruct (Py.contains "Util" (asset_path a));
    destruct (Py.contains (py_str card_id ++ "_AIF.") (asset_path a)); simpl;
    intros H; decompose [or] H; subst; try contradiction;
    try apply dict_get_set_same.
  - rewrite dict_get_set_other by discriminate. apply dict_get_set_same.
  - destruct (String.eqb_spec (role_label (asset_path a)) "util") as [->|Hne].
    + apply dict_get_set_same.
    + rewrite dict_get_set_other by exact Hne. apply dict_get_set_same.
Qed.

(** X11. In the result of [find_card_art_file] a role holds the image of
    the last object filed under it, the bundles taken in the order of the
    glob and their objects in the order of the container: earlier images of
    the same role are overwritten. *)
Theorem find_card_art_file_last_wins :
  forall (fs : Mtga.filesystem) (self : reader) (card_id : sqlval)
         (before after : list asset) (a : asset) (role : string),
    flat_map container_items (Mtga.glob fs (art_pattern self card_id))
    = (before ++ a :: after)%list ->
    In role (asset_roles card_id a) ->
    (forall b, In b after -> ~ In role (asset_roles card_id b)) ->
    Py.dict_get String.eqb (find_card_art_file fs self card_id) role
    = Some (asset_image a).
Proof.
  intros fs self card_id before after a role Hflat Hrole Hafter.
  unfold find_card_art_file.
  rewrite (fold_left_flat_map (label_asset card_id) container_items), Hflat.
  rewrite fold_left_app. cbn [fold_left].
  destruct (fold_roles (label_asset card_id) (asset_roles card_id) after
              (fun d x _ => label_asset_roles card_id d x)
              (label_asset card_id
                 (fold_left (label_asset card_id) before [("image", None); ("util", None)])
                 a)) as [_ Hget].
  rewrite (Hget role Hafter). apply label_asset_stores, Hrole.
Qed.

Lemma find_card_art_file_last_wins_witness :
  Py.dict_get String.eqb
    (find_card_art_file Samples.doubled_fs Scenario.cards_reader (SInt 123)) "Art"
  = Some (Some [[(2, 2, 2)%Z]]).
Proof.
  apply (find_card_art_file_last_wins Samples.doubled_fs Scenario.cards_reader (SInt 123)
           [Samples.texture "Assets/000123_Art.tga" 1] []
           (Samples.texture "Assets/999999_Art.tga" 2) "Art").
  - reflexivity.
  - vm_compute. tauto.
  - intros b [].
Defined.

(* ================================================================== *)
(** ** get_enums *)
(* ================================================================== *)

Lemma py_eqb_eq (a b : sqlval) : py_eqb a b = true <-> a = b.
Proof.
  destruct a, b; simpl; split; try discriminate; try reflexivity.
  - intros H. apply Z.eqb_eq in H. now subst.
  - intros [= ->]. apply Z.eqb_refl.
  - intros H. apply String.eqb_eq in H. now subst.
  - intros [= ->]. apply String.eqb_refl.
Qed.

(** Dictionaries whose keys are column values. *)
Section ValueKeys.
Context {V : Type}.
Implicit Types (d : list (sqlval * V)) (k : sqlval) (v : V).

Lemma vdict_get_set_same d k v :
  Py.dict_get py_eqb (Py.dict_set py_eqb d k v) k = Some v.
Proof.
  induction d as [|[k' v'] d IH]; simpl.
  - now rewrite (proj2 (py_eqb_eq k k) eq_refl).
  - destruct (py_eqb k' k) eqn:E; simpl; rewrite E; [reflexivity|exact IH].
Qed.

Lemma vdict_get_set_other d k k0 v :
  k <> k0 -> Py.dict_get py_eqb (Py.dict_set py_eqb d k v) k0 = Py.dict_get py_eqb d k0.
Proof.
  intros Hne.
  assert (Hk : py_eqb k k0 = false).
  { destruct (py_eqb k k0) eqn:E; [|reflexivity]. apply py_eqb_eq in E. contradiction. }
  induction d as [|[k' v'] d IH]; simpl.
  - now rewrite Hk.
  - destruct (py_eqb k' k) eqn:E; simpl.
    + apply py_eqb_eq in E. subst k'. now rewrite Hk.
    + destruct (py_eqb k' k0); [reflexivity|exact IH].
Qed.

Lemma vdict_set_keys_present d k v v0 :
  Py.dict_get py_eqb d k = Some v0 ->
  Py.dict_keys (Py.dict_set py_eqb d k v) = Py.dict_keys d.
Proof.
  unfold Py.dict_keys. induction d as [|[k' v'] d IH]; simpl; [discriminate|].
  destruct (py_eqb k' k) eqn:E; simpl; [reflexivity|].
  intros H. now rewrite IH.
Qed.

Lemma vdict_set_keys_absent d k v :
  Py.dict_get py_eqb d k = None ->
  Py.dict_keys (Py.dict_set py_eqb d k v) = (Py.dict_keys d ++ [k])%list.
Proof.
  unfold Py.dict_keys. induction d as [|[k' v'] d IH]; simpl; [reflexivity|].
  destruct (py_eqb k' k) eqn:E; simpl; [discriminate|].
  intros H. now rewrite IH.
Qed.

Lemma vdict_get_key d k :
  In k (Py.dict_keys d) <-> Py.dict_get py_eqb d k <> None.
Proof.
  unfold Py.dict_keys. induction d as [|[k' v'] d IH]; simpl; [tauto|].
  destruct (py_eqb k' k) eqn:E.
  - apply py_eqb_eq in E. split; [discriminate|auto].
  - rewrite <- IH. split; [|tauto].
    intros [H|H]; [|exact H]. subst. rewrite (proj2 (py_eqb_eq k k) eq_refl) in E.
    discriminate.
Qed.

End ValueKeys.

Lemma sqlval_eq_dec (a b : sqlval) : {a = b} + {a <> b}.
Proof.
  destruct (py_eqb a b) eqn:E.
  - left. now apply py_eqb_eq.
  - right. intros H. apply py_eqb_eq in H. congruence.
Qed.

Lemma distinct_In (l : list sqlval) :
  forall seen v, In v (distinct seen l) <-> In v l /\ ~ In v seen.
Proof.
  induction l as [|a l IH]; intros seen v; cbn [distinct]; [simpl; tauto|].
  destruct (existsb (py_eqb a) seen) eqn:E.
  - rewrite IH. apply existsb_exists in E. destruct E as (x & Hx & Ex).
    apply py_eqb_eq in Ex. subst x. simpl. split; [tauto|].
    intros [[->|H] Hn]; [contradiction|tauto].
  - assert (Ha : ~ In a seen).
    { intros H. assert (existsb (py_eqb a) seen = true); [|congruence].
      apply existsb_exists. exists a. split; [exact H|now apply py_eqb_eq]. }
    simpl. rewrite IH. simpl. split.
    + intros [->|[H Hn]]; [tauto|]. tauto.
    + intros [[->|H] Hn]; [now left|].
      destruct (sqlval_eq_dec a v) as [->|Hne]; [now left|]. right. tauto.
Qed.

Lemma translated_ok (self : reader) (text_id : sqlval) :
  get_card_translation_id self text_id = Ok (Derived.translated self text_id).
Proof.
  unfold Derived.translated.
  destruct (get_card_translation_id_total self text_id) as [v ->]. reflexivity.
Qed.

Lemma load_rows_loop (self : reader) (ty : sqlval) (rows : list row) :
  forall e,
    for_each_assign
      (fun e linha =>
         match get_card_translation_id self (col linha "LocId") with
         | Ok text => (enums_set e ty (col linha "Value") text, Ok tt)
         | Raise x => (e, Raise x)
         end) rows e
    = (Derived.load_rows self ty rows e, Ok tt).
Proof.
  unfold Derived.load_rows.
  induction rows as [|r rows IH]; intros e; cbn [for_each_assign fold_left]; [reflexivity|].
  rewrite translated_ok. apply IH.
Qed.

Lemma load_types_loop (self : reader) (t : table) (types : list sqlval) :
  forall e,
    (forall k, In k types -> storable k = true) ->
    for_each_assign
      (fun e enum_type =>
         match bind_parameter enum_type with
         | Raise x => (e, Raise x)
         | Ok _ =>
             for_each_assign
               (fun e linha =>
                  match get_card_translation_id self (col linha "LocId") with
                  | Ok text => (enums_set e enum_type (col linha "Value") text, Ok tt)
                  | Raise x => (e, Raise x)
                  end)
               (filter (fun r => sql_eq (col r "Type") enum_type) t) e
         end) types e
    = (Derived.load_types self t types e, Ok tt).
Proof.
  unfold Derived.load_types.
  induction types as [|ty types IH]; intros e Hall; cbn [for_each_assign fold_left];
    [reflexivity|].
  rewrite (bind_parameter_ok ty (Hall ty (or_introl eq_refl))).
  rewrite load_rows_loop. apply IH. intros k Hk. apply Hall. now right.
Qed.

Lemma load_types_overflow (self : reader) (t : table) (types : list sqlval) :
  forall e,
    (exists k, In k types /\ storable k = false) ->
    snd (for_each_assign
           (fun e enum_type =>
              match bind_parameter enum_type with
              | Raise x => (e, Raise x)
              | Ok _ =>
                  for_each_assign
                    (fun e linha =>
                       match get_card_translation_id self (col linha "LocId") with
                       | Ok text => (enums_set e enum_type (col linha "Value") text, Ok tt)
                       | Raise x => (e, Raise x)
                       end)
                    (filter (fun r => sql_eq (col r "Type") enum_type) t) e
              end) types e)
    = Raise (OverflowError "Python int too large to convert to SQLite INTEGER").
Proof.
  induction types as [|ty types IH]; intros e (k & Hk & Hbad); [destruct Hk|].
  cbn [for_each_assign].
  destruct (storable ty) eqn:Hty.
  - rewrite (bind_parameter_ok ty Hty). rewrite load_rows_loop.
    apply IH. exists k. split; [|exact Hbad].
    destruct Hk as [->|Hk]; [congruence|exact Hk].
  - rewrite (bind_parameter_overflow ty Hty). reflexivity.
Qed.

Lemma get_enums_loaded (self : reader) (db : database) (t : table) :
  cursor self = Ok db -> from_table db "Enums" = Ok t ->
  (forall k, In k (Py.dict_keys (Derived.reset_types t (enums self))) ->
             storable k = true) ->
  get_enums self
  = (with_enums self
       (Derived.load_types self t
          (Py.dict_keys (Derived.reset_types t (enums self)))
          (Derived.reset_types t (enums self))),
     Ok true).
Proof.
  intros Hc Ht Hbind. unfold get_enums. rewrite Hc. cbn [bind]. rewrite Ht.
  fold (Derived.enum_types t). fold (Derived.reset_types t (enums self)).
  fold (Derived.enum_types t) in Hbind.
  rewrite (load_types_loop self t _ _ Hbind). reflexivity.
Qed.

Lemma get_enums_overflow (self : reader) (db : database) (t : table) :
  cursor self = Ok db -> from_table db "Enums" = Ok t ->
  (exists k, In k (Py.dict_keys (Derived.reset_types t (enums self)))
             /\ storable k = false) ->
  snd (get_enums self)
  = Raise (OverflowError "Python int too large to convert to SQLite INTEGER").
Proof.
  intros Hc Ht Hbad. unfold get_enums. rewrite Hc. cbn [bind]. rewrite Ht.
  fold (Derived.enum_types t). fold (Derived.reset_types t (enums self)).
  fold (Derived.enum_types t) in Hbad.
  pose proof (load_types_overflow self t _ (Derived.reset_types t (enums self)) Hbad) as H.
  destruct (for_each_assign _ _ _) as [e outcome]. cbn [snd] in *. now rewrite H.
Qed.

(** An invariant that every assignment of the loops keeps holds at their
    end. *)
Lemma load_types_invariant (self : reader) (t : table) (I : enum_table -> Prop) :
  (forall e ty linha,
      I e -> In linha t -> sql_eq (col linha "Type") ty = true ->
      I (enums_set e ty (col linha "Value")
           (Derived.translated self (col linha "LocId")))) ->
  forall types e, I e -> I (Derived.load_types self t types e).
Proof.
  intros Hstep. unfold Derived.load_types, Derived.load_rows.
  induction types as [|ty types IH]; intros e He; cbn [fold_left]; [exact He|].
  apply IH.
  assert (Hrows : forall rows e,
             (forall r, In r rows -> In r t /\ sql_eq (col r "Type") ty = true) ->
             I e ->
             I (fold_left
                  (fun e linha =>
                     enums_set e ty (col linha "Value")
                       (Derived.translated self (col linha "LocId"))) rows e)).
  { induction rows as [|r rows IHr]; intros e0 Hr He0; cbn [fold_left]; [exact He0|].
    apply IHr; [intros r' H; apply Hr; now right|].
    destruct (Hr r (or_introl eq_refl)). now apply Hstep. }
  apply Hrows; [|exact He]. intros r Hr. apply filter_In in Hr. exact Hr.
Qed.

Lemma enums_set_keys (e : enum_table) (ty v x : sqlval) :
  Py.dict_keys (enums_set e ty v x) = Py.dict_keys e.
Proof.
  unfold enums_set. destruct (Py.dict_get py_eqb e ty) as [d|] eqn:E; [|reflexivity].
  eapply vdict_set_keys_present. exact E.
Qed.

Lemma enums_set_get (e : enum_table) (ty v x ty' : sqlval) :
  Py.dict_get py_eqb (enums_set e ty v x) ty'
  = match Py.dict_get py_eqb e ty with
    | Some d => if py_eqb ty ty' then Some (Py.dict_set py_eqb d v x)
                else Py.dict_get py_eqb e ty'
    | None => Py.dict_get py_eqb e ty'
    end.
Proof.
  unfold enums_set. destruct (Py.dict_get py_eqb e ty) as [d|] eqn:E; [|reflexivity].
  destruct (py_eqb ty ty') eqn:Et.
  - apply py_eqb_eq in Et. subst. apply vdict_get_set_same.
  - apply vdict_get_set_other. intros H. apply py_eqb_eq in H. congruence.
Qed.

(** After the first loop the categories of the table are keys, with
    nothing in them, and the keys are the old ones and these. *)
Lemma reset_types_spec (types : list sqlval) :
  forall e : enum_table,
    (forall ty, In ty types ->
                Py.dict_get py_eqb
                  (fold_left (fun e ty => Py.dict_set py_eqb e ty []) types e) ty
                = Some [])
    /\ (forall k,
           In k (Py.dict_keys (fold_left (fun e ty => Py.dict_set py_eqb e ty []) types e))
           <-> In k (Py.dict_keys e) \/ In k types).
Proof.
  induction types as [|ty types IH]; intros e; cbn [fold_left].
  - split; [intros ty []|]. intros k. simpl. tauto.
  - destruct (IH (Py.dict_set py_eqb e ty (@nil (sqlval * sqlval)))) as [Hget Hkeys].
    split.
    + intros ty' [<-|Hin]; [|now apply Hget].
      destruct (in_dec sqlval_eq_dec ty types) as [Hin|Hnot]; [now apply Hget|].
      assert (Hkeep : forall l (e0 : enum_table),
                 ~ In ty l ->
                 Py.dict_get py_eqb
                   (fold_left (fun e ty => Py.dict_set py_eqb e ty []) l e0) ty
                 = Py.dict_get py_eqb e0 ty).
      { induction l as [|a l IHl]; intros e0 Hl; cbn [fold_left]; [reflexivity|].
        rewrite IHl by (intros H; apply Hl; now right).
        apply vdict_get_set_other. intros ->. apply Hl. now left. }
      rewrite Hkeep by exact Hnot. apply vdict_get_set_same.
    + intros k. rewrite Hkeys. rewrite !vdict_get_key.
      destruct (sqlval_eq_dec ty k) as [->|Hne].
      * rewrite vdict_get_set_same. simpl. split; [intros _; right; now left|].
        intros _. left. discriminate.
      * rewrite vdict_get_set_other by exact Hne. simpl. split; [tauto|].
        intros [H|[H|H]]; [tauto|contradiction|tauto].
Qed.

Lemma load_rows_preserves (self : reader) (I : enum_table -> Prop) :
  (forall e ty v x, I e -> I (enums_set e ty v x)) ->
  forall ty rows e, I e -> I (Derived.load_rows self ty rows e).
Proof.
  intros Hstep ty. unfold Derived.load_rows.
  induction rows as [|r rows IH]; intros e He; cbn [fold_left]; [exact He|].
  apply IH, Hstep, He.
Qed.

Lemma load_types_preserves (self : reader) (t : table) (I : enum_table -> Prop) :
  (forall e ty v x, I e -> I (enums_set e ty v x)) ->
  forall types e, I e -> I (Derived.load_types self t types e).
Proof.
  intros Hstep. apply load_types_invariant. intros e ty linha He _ _. now apply Hstep.
Qed.

Lemma load_types_app (self : reader) (t : table) (ks1 ks2 : list sqlval) (e : enum_table) :
  Derived.load_types self t (ks1 ++ ks2) e
  = Derived.load_types self t ks2 (Derived.load_types self t ks1 e).
Proof. unfold Derived.load_types. apply fold_left_app. Qed.

Lemma load_rows_app (self : reader) (ty : sqlval) (rs1 rs2 : list row) (e : enum_table) :
  Derived.load_rows self ty (rs1 ++ rs2) e
  = Derived.load_rows self ty rs2 (Derived.load_rows self ty rs1 e).
Proof. unfold Derived.load_rows. apply fold_left_app. Qed.

Lemma enum_types_In (t : table) (ty : sqlval) :
  In ty (Derived.enum_types t) <-> exists r, In r t /\ col r "Type" = ty.
Proof.
  unfold Derived.enum_types. rewrite distinct_In, in_map_iff. simpl. split.
  - intros [(r & E & Hr) _]. eauto.
  - intros (r & Hr & E). split; [eauto|tauto].
Qed.

(** An entry, once made, stays (its text may be replaced). *)
Lemma entry_stays (e : enum_table) (ty v ty' v' x' : sqlval) :
  (exists values text,
      Py.dict_get py_eqb e ty = Some values /\ Py.dict_get py_eqb values v = Some text) ->
  exists values text,
    Py.dict_get py_eqb (enums_set e ty' v' x') ty = Some values
    /\ Py.dict_get py_eqb values v = Some text.
Proof.
  intros (values & text & He & Hv). rewrite enums_set_get.
  destruct (Py.dict_get py_eqb e ty') as [d|] eqn:Ed; [|eauto].
  destruct (py_eqb ty' ty) eqn:Et; [|eauto].
  apply py_eqb_eq in Et. subst ty'. rewrite He in Ed. injection Ed as <-.
  destruct (sqlval_eq_dec v' v) as [->|Hne].
  - exists (Py.dict_set py_eqb values v x'), x'. split; [reflexivity|].
    apply vdict_get_set_same.
  - exists (Py.dict_set py_eqb values v' x'), text. split; [reflexivity|].
    now rewrite vdict_get_set_other.
Qed.

(** X12. [get_enums] on an open card database.  When the keys that the
    enum table already has can be bound to a statement (as the keys of an
    earlier load can), the method returns True and leaves an enum table
    whose keys are the keys it had and the categories of the Enums table.
    Under a category of the table, every entry is the translation of the
    text identifier of a row of that category and value, and every row of
    a category that is not NULL has an entry for its value.  When one of
    the keys it had is an integer beyond 64 bits, the statement of the
    second loop cannot be given that key and the method raises
    OverflowError. *)
Theorem get_enums_loads :
  forall (self : reader) (db : database) (t : table),
    cursor self = Ok db -> from_table db "Enums" = Ok t ->
    ((forall k, In k (Py.dict_keys (enums self)) -> storable k = true) ->
     exists e,
       get_enums self = (with_enums self e, Ok true)
       /\ (forall k, In k (Py.dict_keys e) <->
                     In k (Py.dict_keys (enums self))
                     \/ exists r, In r t /\ col r "Type" = k)
       /\ (forall ty values v text,
              (exists r, In r t /\ col r "Type" = ty) ->
              Py.dict_get py_eqb e ty = Some values ->
              Py.dict_get py_eqb values v = Some text ->
              exists row,
                In row t /\ col row "Type" = ty /\ col row "Value" = v
                /\ get_card_translation_id self (col row "LocId") = Ok text)
       /\ (forall row,
              In row t -> col row "Type" <> SNull ->
              exists values text,
                Py.dict_get py_eqb e (col row "Type") = Some values
                /\ Py.dict_get py_eqb values (col row "Value") = Some text))
    /\ ((exists k, In k (Py.dict_keys (enums self)) /\ storable k = false) ->
        snd (get_enums self)
        = Raise (OverflowError "Python int too large to convert to SQLite INTEGER")).
Proof.
  intros self db t Hc Ht.
  set (e0 := Derived.reset_types t (enums self)).
  destruct (reset_types_spec (Derived.enum_types t) (enums self)) as [Hreset Hkeys0].
  fold (Derived.reset_types t (enums self)) in Hreset, Hkeys0. fold e0 in Hreset, Hkeys0.
  split.
  2:{ intros (k & Hk & Hbad). apply (get_enums_overflow self db t Hc Ht).
      exists k. split; [|exact Hbad]. fold e0. apply Hkeys0. now left. }
  intros Hold.
  exists (Derived.load_types self t (Py.dict_keys e0) e0).
  split.
  { apply (get_enums_loaded self db t Hc Ht). fold e0.
    intros k Hk. apply Hkeys0 in Hk. destruct Hk as [Hk|Hk]; [now apply Hold|].
    apply enum_types_In in Hk. destruct Hk as (r & Hr & <-).
    eapply stored_storable; eassumption. }
  assert (Hkeys : forall types e,
             Py.dict_keys (Derived.load_types self t types e) = Py.dict_keys e).
  { intros types e.
    apply (load_types_preserves self t (fun e' => Py.dict_keys e' = Py.dict_keys e));
      [|reflexivity].
    intros e' ty v x He'. now rewrite enums_set_keys. }
  split; [|split].
  - intros k. rewrite Hkeys, Hkeys0, enum_types_In. reflexivity.
  - intros ty values v text Hty.
    apply enum_types_In in Hty. revert values v text.
    apply (load_types_invariant self t
             (fun e =>
                forall values v text,
                  Py.dict_get py_eqb e ty = Some values ->
                  Py.dict_get py_eqb values v = Some text ->
                  exists row,
                    In row t /\ col row "Type" = ty /\ col row "Value" = v
                    /\ get_card_translation_id self (col row "LocId") = Ok text)).
    + intros e ty0 linha He Hin Hty0 values v text.
      rewrite enums_set_get.
      destruct (Py.dict_get py_eqb e ty0) as [d|] eqn:Ed; [|apply He].
      destruct (py_eqb ty0 ty) eqn:Et; [|apply He].
      apply py_eqb_eq in Et. subst ty0. intros [= <-].
      destruct (sqlval_eq_dec (col linha "Value") v) as [<-|Hne].
      * rewrite vdict_get_set_same. intros [= <-].
        exists linha. repeat split; auto using translated_ok.
        now apply sql_eq_eq.
      * rewrite vdict_get_set_other by exact Hne. now apply He.
    + intros values v text. rewrite (Hreset ty Hty). intros [= <-]. discriminate.
  - intros row Hrow Hne.
    set (ty := col row "Type") in *.
    assert (Hty : In ty (Py.dict_keys e0)).
    { apply Hkeys0. right. apply enum_types_In. eauto. }
    destruct (in_split _ _ Hty) as (ks1 & ks2 & Eks). rewrite Eks.
    rewrite load_types_app.
    change (Derived.load_types self t (ty :: ks2) (Derived.load_types self t ks1 e0))
      with (Derived.load_types self t ks2
              (Derived.load_rows self ty (filter (fun r => sql_eq (col r "Type") ty) t)
                 (Derived.load_types self t ks1 e0))).
    apply (load_types_preserves self t
             (fun e =>
                exists values text,
                  Py.dict_get py_eqb e ty = Some values
                  /\ Py.dict_get py_eqb values (col row "Value") = Some text)).
    { intros e ty' v' x'. apply entry_stays. }
    assert (Hin : In row (filter (fun r => sql_eq (col r "Type") ty) t)).
    { apply filter_In. split; [exact Hrow|]. now apply sql_eq_refl. }
    destruct (in_split _ _ Hin) as (rs1 & rs2 & Ers). rewrite Ers.
    rewrite load_rows_app.
    change (Derived.load_rows self ty (row :: rs2)
              (Derived.load_rows self ty rs1 (Derived.load_types self t ks1 e0)))
      with (Derived.load_rows self ty rs2
              (enums_set
                 (Derived.load_rows self ty rs1 (Derived.load_types self t ks1 e0))
                 ty (col row "Value") (Derived.translated self (col row "LocId")))).
    apply (load_rows_preserves self
             (fun e =>
                exists values text,
                  Py.dict_get py_eqb e ty = Some values
                  /\ Py.dict_get py_eqb values (col row "Value") = Some text)).
    { intros e ty' v' x'. apply entry_stays. }
    set (e2 := Derived.load_rows self ty rs1 (Derived.load_types self t ks1 e0)).
    assert (Hk2 : In ty (Py.dict_keys e2)).
    { unfold e2.
      rewrite (load_rows_preserves self
                 (fun e => Py.dict_keys e = Py.dict_keys e0)
                 (fun e ty' v x He => eq_trans (enums_set_keys e ty' v x) He)
                 ty rs1 _ (Hkeys ks1 e0)).
      exact Hty. }
    apply vdict_get_key in Hk2.
    destruct (Py.dict_get py_eqb e2 ty) as [d|] eqn:Ed; [|congruence].
    exists (Py.dict_set py_eqb d (col row "Value")
              (Derived.translated self (col row "LocId"))),
      (Derived.translated self (col row "LocId")).
    split.
    + rewrite enums_set_get, Ed, (proj2 (py_eqb_eq ty ty) eq_refl). reflexivity.
    + apply vdict_get_set_same.
Qed.

Lemma get_enums_loads_witness :
  exists e values text,
    get_enums Samples.full_reader = (with_enums Samples.full_reader e, Ok true)
    /\ Py.dict_get py_eqb e (SText "CardType") = Some values
    /\ Py.dict_get py_eqb values (SInt 2) = Some text.
Proof.
  destruct (get_enums_loads Samples.full_reader Samples.full_db
              [[("Type", SText "CardType"); ("Value", SInt 1); ("LocId", SInt 30)];
               [("Type", SText "Color"); ("Value", SInt 4); ("LocId", SInt 32)];
               [("Type", SText "CardType"); ("Value", SInt 2); ("LocId", SInt 31)]]
              eq_refl eq_refl) as (Hload & _).
  destruct (Hload (fun k (H : In k []) => match H with end)) as (e & He & _ & _ & Hall).
  destruct (Hall [("Type", SText "CardType"); ("Value", SInt 2); ("LocId", SInt 31)])
    as (values & text & Hv & Ht).
  - simpl. tauto.
  - discriminate.
  - exists e, values, text. auto.
Defined.

(** A key that the enum table already has and that is an integer beyond
    64 bits: the second loop of [get_enums] reaches it and raises. *)
Example get_enums_key_beyond_64_bits :
  snd (get_enums (with_enums Samples.full_reader [(SInt 9223372036854775808, [])]))
  = Raise (OverflowError "Python int too large to convert to SQLite INTEGER").
Proof. vm_compute. reflexivity. Qed.

(* ================================================================== *)
(** ** The constructor *)
(* ================================================================== *)

Lemma get_enums_frame (self : reader) :
  lang (fst (get_enums self)) = lang self
  /\ lang_table (fst (get_enums self)) = lang_table self
  /\ default_lang_table (fst (get_enums self)) = default_lang_table self
  /\ connections (fst (get_enums self)) = connections self
  /\ mtga_assets_dir (fst (get_enums self)) = mtga_assets_dir self.
Proof.
  unfold get_enums.
  destruct (db <- cursor self ;; from_table db "Enums") as [t|e]; [|repeat split].
  destruct (for_each_assign _ _ _) as [e outcome]. repeat split.
Qed.

Lemma set_language_frame (self : reader) (language : string) :
  connections (fst (set_language self language)) = connections self
  /\ enums (fst (set_language self language)) = enums self
  /\ mtga_assets_dir (fst (set_language self language)) = mtga_assets_dir self.
Proof.
  unfold set_language.
  destruct (cursor self) as [db|e]; [|repeat split].
  destruct (available_langs_of (localization_tables db)) as [[|kv d]|e];
    [repeat split| |repeat split].
  destruct (match Py.dict_get String.eqb (kv :: d) (normalize "enUS") with
            | Some t => if String.eqb t "" then hd_error (localization_tables db) else Some t
            | None => hd_error (localization_tables db)
            end) as [d0|]; [|repeat split].
  destruct (Py.dict_get String.eqb (kv :: d) (normalize language)) as [t0|];
    [destruct (String.eqb t0 "")|]; repeat split.
Qed.

Lemma cursor_connections (self self' : reader) :
  connections self' = connections self -> cursor self' = cursor self.
Proof. intros H. unfold cursor. now rewrite H. Qed.

Lemma catalog_table_exists (db : database) (t : string) :
  In t (localization_tables db) -> exists rows, from_table db t = Ok rows.
Proof.
  intros H. unfold localization_tables in H. apply filter_In in H. destruct H as [H _].
  destruct (dict_get_of_key db t H) as [rows Hrows].
  exists rows. unfold from_table. now rewrite Hrows.
Qed.

(** X13. A reader that the constructor returns is ready for use: the six
    databases are connected, the requested language is stored, and the
    active and the default language table are tables of the card database,
    so that no lookup of a text fails for want of a table.  The assets
    directory is Downloads/AssetBundle under MTGA_Data. *)
Theorem mtga_reader_ready :
  forall (fs : Mtga.filesystem) (root_dir language : string) (self : reader),
    mtga_reader fs root_dir language = Ok self ->
    lang self = language
    /\ mtga_assets_dir self
       = Py.path_join root_dir ["MTGA_Data"; "Downloads"; "AssetBundle"]
    /\ (forall name, In name dbs ->
                     Py.dict_get String.eqb (connections self) name <> None)
    /\ exists db t rows d default_rows,
         cursor self = Ok db
         /\ lang_table self = Some t /\ from_table db t = Ok rows
         /\ default_lang_table self = Some d /\ from_table db d = Ok default_rows.
Proof.
  intros fs root_dir language self. unfold mtga_reader.
  set (self1 := fst (get_databases fs (new_reader root_dir language))).
  destruct (set_language self1 language) as [self2 matched] eqn:Hset.
  destruct matched as [t|e]; cbn [bind]; [|discriminate].
  destruct (get_enums self2) as [self3 loaded] eqn:Henums.
  destruct loaded as [b|e]; cbn [bind]; [|discriminate].
  intros [= <-].
  pose proof (get_enums_frame self2) as (Hl3 & Ht3 & Hd3 & Hc3 & Ha3).
  rewrite Henums in Hl3, Ht3, Hd3, Hc3, Ha3. cbn [fst] in *.
  pose proof (set_language_frame self1 language) as (Hc2 & _ & Ha2).
  rewrite Hset in Hc2, Ha2. cbn [fst] in *.
  assert (Hok : snd (set_language self1 language) = Ok t) by now rewrite Hset.
  assert (Hcur : exists db, cursor self1 = Ok db).
  { destruct (cursor self1) as [db|e] eqn:E; [eauto|].
    unfold set_language in Hok. rewrite E in Hok. discriminate. }
  destruct Hcur as [db Hcur].
  destruct (set_language_ok_spec self1 language t db Hcur Hok)
    as (Hin & _ & Hlang & Htable & d & Hdef & Hd).
  rewrite Hset in Hlang, Htable, Hdef. cbn [fst] in *.
  destruct (catalog_table_exists db t Hin) as [rows Hrows].
  destruct (catalog_table_exists db d Hd) as [drows Hdrows].
  split; [congruence|]. split.
  { rewrite Ha3, Ha2. unfold self1, get_databases.
    destruct (for_each _ dbs _); reflexivity. }
  split.
  - intros name Hname. rewrite Hc3, Hc2.
    destruct (get_databases_spec fs (new_reader root_dir language)) as (_ & Hfalse & Htrue).
    destruct (snd (get_databases fs (new_reader root_dir language))) eqn:Hsnd.
    + destruct (Htrue eq_refl name Hname) as (f & c & Hget & _).
      fold self1 in Hget. rewrite Hget. discriminate.
    + exfalso. specialize (Hfalse eq_refl). fold self1 in Hfalse.
      unfold cursor in Hcur. rewrite Hfalse in Hcur. discriminate.
  - exists db, t, rows, d, drows.
    rewrite (cursor_connections self1 self3) by congruence.
    repeat split; congruence.
Qed.

Lemma mtga_reader_ready_witness :
  exists self db,
    mtga_reader Samples.installed_fs "/games/MTGA" "en-US" = Ok self
    /\ lang self = "en-US"
    /\ cursor self = Ok db
    /\ exists t rows, lang_table self = Some t /\ from_table db t = Ok rows.
Proof.
  destruct (mtga_reader Samples.installed_fs "/games/MTGA" "en-US") as [self|e] eqn:E.
  - destruct (mtga_reader_ready _ _ _ _ E)
      as (Hlang & _ & _ & db & t & rows & _ & _ & Hcur & Ht & Hrows & _).
    exists self, db. repeat split; try assumption. now exists t, rows.
  - vm_compute in E. discriminate.
Defined.

(** X14. When one of the six databases has no file in the Raw directory,
    whichever it is, the constructor raises KeyError for the card
    database: get_databases has given up all connections and returned
    False, the constructor does not look at that result, and set_language
    then asks for the connection of the card database. *)
Theorem mtga_reader_incomplete_installation :
  forall (fs : Mtga.filesystem) (root_dir language db : string),
    In db dbs ->
    Mtga.glob fs (Py.path_join (mtga_raw_dir (new_reader root_dir language))
                    ["Raw_" ++ db ++ "_*.mtga"]) = [] ->
    mtga_reader fs root_dir language = Raise (KeyError "CardDatabase").
Proof.
  intros fs root_dir language db Hdb Hnone.
  destruct (get_databases_spec fs (new_reader root_dir language)) as (Hiff & Hfalse & _).
  assert (Hsnd : snd (get_databases fs (new_reader root_dir language)) = false).
  { apply Hiff. exists db. split; [assumption|left; assumption]. }
  specialize (Hfalse Hsnd).
  unfold mtga_reader.
  set (self1 := fst (get_databases fs (new_reader root_dir language))) in *.
  assert (Hcur : cursor self1 = Raise (KeyError "CardDatabase")).
  { unfold cursor. rewrite Hfalse. reflexivity. }
  unfold set_language. rewrite Hcur. reflexivity.
Qed.

Lemma mtga_reader_incomplete_installation_witness :
  mtga_reader Samples.incomplete_fs "/games/MTGA" "enUS" = Raise (KeyError "CardDatabase").
Proof.
  apply (mtga_reader_incomplete_installation
           Samples.incomplete_fs "/games/MTGA" "enUS" "credits").
  - vm_compute. tauto.
  - reflexivity.
Defined.

(* ================================================================== *)
(** ** discover_databases: when it raises, and the recursive flag *)
(* ================================================================== *)

(** One target, by what it is. *)
Lemma discover_target_cases (fs : filesystem) (recursive : bool)
  (discovered : list path) (target : string) :
  (no_home fs (Path target) = true ->
   discover_target fs recursive discovered target
   = Raise (RuntimeError "Could not determine home directory."))
  /\ (no_home fs (Path target) = false ->
      (is_file fs (expanduser fs (Path target))
       && is_mtga (expanduser fs (Path target))
       || is_dir fs (expanduser fs (Path target))) = true ->
      exists found, discover_target fs recursive discovered target = Ok found)
  /\ (no_home fs (Path target) = false ->
      (is_file fs (expanduser fs (Path target))
       && is_mtga (expanduser fs (Path target))
       || is_dir fs (expanduser fs (Path target))) = false ->
      discover_target fs recursive discovered target
      = found <- path_glob fs [] target ;;
        Ok (discovered ++ Py.sorted path_leb found)%list).
Proof.
  unfold discover_target. repeat split.
  - intros ->. reflexivity.
  - intros -> H.
    destruct (is_file fs (expanduser fs (Path target))
              && is_mtga (expanduser fs (Path target))); [eauto|].
    cbn [orb] in H. rewrite H. rewrite path_glob_in_directory. cbn [bind]. eauto.
  - intros -> H. apply orb_false_iff in H. destruct H as [-> ->]. reflexivity.
Qed.

Lemma discover_target_accepted (fs : filesystem) (recursive : bool)
  (discovered found : list path) (target : string) :
  discover_target fs recursive discovered target = Ok found ->
  Derived.accepted fs target = true.
Proof.
  unfold discover_target, Derived.accepted, path_glob.
  destruct (no_home fs (Path target)); [discriminate|].
  destruct (is_file fs (expanduser fs (Path target)) && is_mtga (expanduser fs (Path target)));
    [reflexivity|].
  destruct (is_dir fs (expanduser fs (Path target))); [reflexivity|].
  destruct (String.eqb target EmptyString); [discriminate|].
  destruct (String.prefix "/" target); [discriminate|].
  destruct (misplaced_recursion target); [discriminate|reflexivity].
Qed.

(** X15. The targets that [discover_databases] does not take.  A target
    whose home directory is not known makes it raise RuntimeError.  A
    target that is no database file and no directory is taken as a
    pattern relative to the working directory, and refused when it is
    empty (ValueError), absolute, as the path of a file that does not
    exist is (NotImplementedError), or has ** inside a component
    (ValueError).  The call raises at the first such target, once the
    targets before it have been taken, whatever comes after it; and when
    it returns a list, no target was one of these. *)
Theorem discover_databases_raises :
  (forall (fs : filesystem) (targets : list string) (recursive : bool) (l : list path),
      discover_databases fs targets recursive = Ok l ->
      Forall (fun target => Derived.accepted fs target = true) targets)
  /\ (forall (fs : filesystem) (before after : list string) (target : string)
             (recursive : bool) (discovered : list path),
         for_each (discover_target fs recursive) before [] = Ok discovered ->
         (no_home fs (Path target) = true ->
          discover_databases fs (before ++ target :: after) recursive
          = Raise (RuntimeError "Could not determine home directory."))
         /\ (no_home fs (Path target) = false ->
             (is_file fs (expanduser fs (Path target))
              && is_mtga (expanduser fs (Path target))
              || is_dir fs (expanduser fs (Path target))) = false ->
             (target = EmptyString ->
              discover_databases fs (before ++ target :: after) recursive
              = Raise (ValueError "Unacceptable pattern: ''"))
             /\ (String.prefix "/" target = true ->
                 discover_databases fs (before ++ target :: after) recursive
                 = Raise (NotImplementedError "Non-relative patterns are unsupported"))
             /\ (target <> EmptyString -> String.prefix "/" target = false ->
                 misplaced_recursion target = true ->
                 discover_databases fs (before ++ target :: after) recursive
                 = Raise (ValueError
                            "Invalid pattern: '**' can only be an entire path component")))).
Proof.
  split.
  - intros fs targets recursive l. unfold discover_databases.
    destruct (for_each (discover_target fs recursive) targets []) as [found|e] eqn:E;
      cbn [bind]; [intros _|discriminate].
    revert E. generalize (@nil path) as acc.
    induction targets as [|target targets IH]; intros acc; cbn [for_each].
    + constructor.
    + destruct (discover_target fs recursive acc target) as [acc'|e] eqn:Et;
        cbn [bind]; [|discriminate].
      intros E. constructor; [eapply discover_target_accepted; eassumption|].
      eapply IH; eassumption.
  - intros fs before after target recursive discovered Hbefore.
    assert (Hsplit : forall e,
               discover_target fs recursive discovered target = Raise e ->
               discover_databases fs (before ++ target :: after) recursive = Raise e).
    { intros e He. unfold discover_databases.
      assert (Happ : forall l acc acc',
                 for_each (discover_target fs recursive) l acc = Ok acc' ->
                 for_each (discover_target fs recursive) (l ++ target :: after)%list acc
                 = (a <- discover_target fs recursive acc' target ;;
                    for_each (discover_target fs recursive) after a)).
      { induction l as [|x l IHl]; intros acc acc'; cbn [for_each app].
        - now intros [= <-].
        - destruct (discover_target fs recursive acc x) as [a|e0]; cbn [bind];
            [apply IHl|discriminate]. }
      rewrite (Happ _ _ _ Hbefore), He. reflexivity. }
    destruct (discover_target_cases fs recursive discovered target) as (Hhome & _ & Hglob).
    split.
    + intros H. apply Hsplit, Hhome, H.
    + intros Hknown Hnot. specialize (Hglob Hknown Hnot).
      unfold path_glob in Hglob. repeat split.
      * intros ->. apply Hsplit. rewrite Hglob. reflexivity.
      * intros Habs. apply Hsplit. rewrite Hglob, Habs.
        destruct (String.eqb_spec target "") as [E|_]; [|reflexivity].
        rewrite E in Habs. discriminate.
      * intros Hne Hrel Hrec. apply Hsplit. rewrite Hglob, Hrel, Hrec.
        destruct (String.eqb_spec target ""); [contradiction|reflexivity].
Qed.

Lemma discover_databases_raises_witness :
  discover_databases Scenario.two_ways_fs ["a.mtga"; "/nowhere/b.mtga"; "data"] false
  = Raise (NotImplementedError "Non-relative patterns are unsupported")
  /\ discover_databases Scenario.two_ways_fs ["a.mtga"; "**.mtga"] true
     = Raise (ValueError "Invalid pattern: '**' can only be an entire path component")
  /\ Forall (fun target => Derived.accepted Scenario.two_ways_fs target = true)
       ["a.mtga"; "data/../a.mtga"].
Proof.
  split; [|split].
  - destruct (proj2 discover_databases_raises Scenario.two_ways_fs
                ["a.mtga"] ["data"] "/nowhere/b.mtga" false [["a.mtga"]] eq_refl)
      as (_ & H).
    destruct (H eq_refl eq_refl) as (_ & Habs & _). exact (Habs eq_refl).
  - destruct (proj2 discover_databases_raises Scenario.two_ways_fs
                ["a.mtga"] [] "**.mtga" true [["a.mtga"]] eq_refl)
      as (_ & H).
    destruct (H eq_refl eq_refl) as (_ & _ & Hrec).
    apply Hrec; [discriminate|reflexivity|reflexivity].
  - exact (proj1 discover_databases_raises Scenario.two_ways_fs
             ["a.mtga"; "data/../a.mtga"] false [["a.mtga"]] eq_refl).
Defined.

(** X16. The recursive flag matters for directories only: when no target
    is a directory, the two settings give the same result. *)
Theorem discover_databases_recursive_only_in_directories :
  forall (fs : filesystem) (targets : list string),
    (forall target, In target targets ->
                    is_dir fs (expanduser fs (Path target)) = false) ->
    discover_databases fs targets true = discover_databases fs targets false.
Proof.
  intros fs targets Hnodir. unfold discover_databases.
  rewrite (for_each_ext (discover_target fs true) (discover_target fs false) targets);
    [reflexivity|].
  intros acc target Hin. unfold discover_target.
  rewrite (Hnodir target Hin). reflexivity.
Qed.

Lemma discover_databases_recursive_only_in_directories_witness :
  discover_databases Scenario.two_ways_fs ["a.mtga"; "*.mtga"] true
  = discover_databases Scenario.two_ways_fs ["a.mtga"; "*.mtga"] false.
Proof.
  apply (discover_databases_recursive_only_in_directories
           Scenario.two_ways_fs ["a.mtga"; "*.mtga"]).
  intros target H. vm_compute in H. destruct H as [<-|[<-|[]]]; reflexivity.
Defined.

(* ================================================================== *)
(** ** quote_identifier *)
(* ================================================================== *)

Lemma prefix_one (q c : ascii) (s : string) :
  String.prefix (String q EmptyString) (String c s) = Ascii.eqb c q.
Proof.
  cbn. destruct (ascii_dec q c) as [E|E].
  - subst c. rewrite Ascii.eqb_refl. destruct s; reflexivity.
  - symmetry. apply Ascii.eqb_neq. congruence.
Qed.

Lemma replace_quotes (name : string) :
  Py.replace name Summary.quote_string (Summary.quote_string ++ Summary.quote_string)
  = match name with
    | EmptyString => EmptyString
    | String c name' =>
        if Ascii.eqb c Summary.quote_char
        then String Summary.quote_char
               (String Summary.quote_char
                  (Py.replace name' Summary.quote_string
                     (Summary.quote_string ++ Summary.quote_string)))
        else String c (Py.replace name' Summary.quote_string
                         (Summary.quote_string ++ Summary.quote_string))
    end.
Proof.
  destruct name as [|c name']; [reflexivity|].
  unfold Py.replace, Summary.quote_string. cbn [Py.replace_from].
  rewrite prefix_one.
  destruct (Ascii.eqb c Summary.quote_char); reflexivity.
Qed.

Lemma read_quoted_replace (name rest : string) :
  String.prefix Summary.quote_string rest = false ->
  Summary.read_quoted
    (Py.replace name Summary.quote_string (Summary.quote_string ++ Summary.quote_string)
     ++ Summary.quote_string ++ rest)
  = Some (name, rest).
Proof.
  intros Hrest. induction name as [|c name IH]; rewrite replace_quotes.
  - cbn [append Summary.quote_string Summary.read_quoted].
    rewrite Ascii.eqb_refl.
    destruct rest as [|d rest]; [reflexivity|].
    destruct (Ascii.eqb d Summary.quote_char) eqn:Hd; [|reflexivity].
    unfold Summary.quote_string in Hrest. rewrite prefix_one in Hrest. congruence.
  - destruct (Ascii.eqb c Summary.quote_char) eqn:Hc.
    + cbn [append Summary.read_quoted].
      rewrite (Ascii.eqb_refl Summary.quote_char). rewrite IH.
      apply Ascii.eqb_eq in Hc. now subst c.
    + cbn [append Summary.read_quoted]. rewrite Hc. rewrite IH. reflexivity.
Qed.

(** X17. An identifier that [quote_identifier] has quoted is read back by
    SQLite as the name it was made from, whatever characters the name
    holds, and the reading stops at the closing quote: the text that the
    statement puts after the identifier is left as it is.  That text does
    not begin with a double quote (in the statements of the script it is a
    closing parenthesis or nothing). *)
Theorem quote_identifier_read_back :
  forall name rest : string,
    String.prefix Summary.quote_string rest = false ->
    Summary.read_identifier (Summary.quote_identifier name ++ rest) = Some (name, rest).
Proof.
  intros name rest Hrest.
  unfold Summary.quote_identifier.
  change ((Summary.quote_string ++ ?x) ++ rest)
    with (String Summary.quote_char (x ++ rest)).
  unfold Summary.read_identifier at 1.
  cbn [append Summary.quote_string].
  rewrite Ascii.eqb_refl.
  assert (E : forall a b c : string, (a ++ b) ++ c = a ++ b ++ c).
  { intros a b c. induction a as [|x a IHa]; cbn [append]; [reflexivity|now rewrite IHa]. }
  rewrite E. apply read_quoted_replace. exact Hrest.
Qed.

Lemma quote_identifier_read_back_witness :
  Summary.read_identifier
    (Summary.quote_identifier (String "a" (String Summary.quote_char "b")) ++ ")")
  = Some (String "a" (String Summary.quote_char "b"), ")").
Proof.
  apply (quote_identifier_read_back (String "a" (String Summary.quote_char "b")) ")").
  reflexivity.
Defined.

(* ================================================================== *)
(** ** inspect_database: the tables and views it inspects *)
(* ================================================================== *)

Lemma like_letter (c : ascii) (p l : list ascii) :
  Ascii.eqb c "%" = false -> Ascii.eqb c "_" = false ->
  like_chars (c :: p) l
  = match l with
    | [] => false
    | d :: l' => Ascii.eqb (Py.lower_ascii c) (Py.lower_ascii d) && like_chars p l'
    end.
Proof.
  intros Hp Hu. cbn [like_chars]. rewrite Hp, Hu. destruct l; reflexivity.
Qed.

Lemma like_any_run (l : list ascii) : like_chars ["%"%char] l = true.
Proof.
  induction l as [|d l IH]; [reflexivity|].
  cbn in *. exact IH.
Qed.

Lemma lower_letter (c d : ascii) :
  Py.lower_ascii c = c ->
  Ascii.eqb (Py.lower_ascii c) (Py.lower_ascii d) = true <-> Py.lower_ascii d = c.
Proof.
  intros Hc. rewrite Hc. rewrite Ascii.eqb_eq. split; congruence.
Qed.

Lemma like_sqlite (name : string) :
  like "sqlite_%" name = true
  <-> exists p c rest, name = p ++ String c rest /\ Py.lower p = "sqlite".
Proof.
  unfold like. cbn [list_ascii_of_string]. split.
  - intros H. rewrite <- (string_of_list_ascii_of_string name).
    destruct (list_ascii_of_string name) as [|c1 l];
      rewrite like_letter in H by reflexivity; [discriminate|].
    apply andb_true_iff in H. destruct H as [H1 H].
    destruct l as [|c2 l]; rewrite like_letter in H by reflexivity; [discriminate|].
    apply andb_true_iff in H. destruct H as [H2 H].
    destruct l as [|c3 l]; rewrite like_letter in H by reflexivity; [discriminate|].
    apply andb_true_iff in H. destruct H as [H3 H].
    destruct l as [|c4 l]; rewrite like_letter in H by reflexivity; [discriminate|].
    apply andb_true_iff in H. destruct H as [H4 H].
    destruct l as [|c5 l]; rewrite like_letter in H by reflexivity; [discriminate|].
    apply andb_true_iff in H. destruct H as [H5 H].
    destruct l as [|c6 l]; rewrite like_letter in H by reflexivity; [discriminate|].
    apply andb_true_iff in H. destruct H as [H6 H].
    destruct l as [|c l]; [discriminate|].
    apply lower_letter in H1, H2, H3, H4, H5, H6; try reflexivity.
    exists (String c1 (String c2 (String c3 (String c4 (String c5 (String c6 EmptyString)))))),
      c, (string_of_list_ascii l).
    split; [reflexivity|].
    cbn [Py.lower]. rewrite H1, H2, H3, H4, H5, H6. reflexivity.
  - intros (p & c & rest & -> & Hp).
    destruct p as [|c1 [|c2 [|c3 [|c4 [|c5 [|c6 [|c7 p]]]]]]];
      cbn [Py.lower] in Hp; try discriminate.
    injection Hp as H1 H2 H3 H4 H5 H6.
    cbn [append list_ascii_of_string].
    rewrite !like_letter by reflexivity.
    rewrite H1, H2, H3, H4, H5, H6.
    cbn [like_chars]. apply like_any_run.
Qed.

Lemma fetch_sql_found (master : list Summary.master_row) (kind : string)
  (r : Summary.master_row) :
  In r master -> Summary.m_type r = kind ->
  exists sql, Summary.fetch_sql master kind (Summary.m_name r) = Some sql.
Proof.
  intros Hin Hkind. unfold Summary.fetch_sql.
  destruct (find (fun r0 => String.eqb (Summary.m_type r0) kind
                            && String.eqb (Summary.m_name r0) (Summary.m_name r)) master)
    as [r'|] eqn:E.
  - eauto.
  - exfalso. pose proof (find_none _ _ E r Hin) as H. cbn beta in H.
    rewrite Hkind, !String.eqb_refl in H. discriminate.
Qed.

(** X18. The tables that [inspect_database] inspects are the objects of
    kind table in sqlite_master whose name does not begin with the six
    letters of sqlite, in any case, followed by at least one more
    character: the underscore of the pattern stands for any character, so
    a table named Sqlite3Cache is left out as the tables of the engine
    are.  They come in the order of their names, and for each of them, as
    for each view, the statement that [inspect_table] or [inspect_view]
    then selects is found, so that the subscript on [fetchone()] does not
    fail. *)
Theorem inspect_database_tables :
  forall master : list Summary.master_row,
    (forall name,
        In name (Summary.tables master)
        <-> exists r, In r master /\ Summary.m_type r = "table" /\ Summary.m_name r = name
                      /\ ~ exists p c rest,
                             name = p ++ String c rest /\ Py.lower p = "sqlite")
    /\ StronglySorted (fun a b => String.leb a b = true) (Summary.tables master)
    /\ (forall name, In name (Summary.tables master) ->
                     exists sql, Summary.fetch_sql master "table" name = Some sql)
    /\ (forall name, In name (Summary.views master) ->
                     exists sql, Summary.fetch_sql master "view" name = Some sql).
Proof.
  intros master.
  assert (Hin : forall name,
             In name (Summary.tables master)
             <-> exists r, In r master /\ Summary.m_type r = "table"
                           /\ Summary.m_name r = name
                           /\ ~ exists p c rest,
                                  name = p ++ String c rest /\ Py.lower p = "sqlite").
  { intros name. unfold Summary.tables.
    rewrite (sorted_In String.leb). rewrite in_map_iff. split.
    - intros (r & <- & Hr). apply filter_In in Hr. destruct Hr as [Hr Hf].
      apply andb_true_iff in Hf. destruct Hf as [Hk Hl].
      apply String.eqb_eq in Hk. apply negb_true_iff in Hl.
      exists r. repeat split; try assumption.
      intros Hex. apply like_sqlite in Hex. congruence.
    - intros (r & Hr & Hk & <- & Hno). exists r. split; [reflexivity|].
      apply filter_In. split; [exact Hr|].
      rewrite Hk. cbn [String.eqb Ascii.eqb Bool.eqb andb].
      apply negb_true_iff.
      destruct (like "sqlite_%" (Summary.m_name r)) eqn:E; [|reflexivity].
      exfalso. apply Hno. now apply like_sqlite. }
  split; [exact Hin|]. split; [|split].
  - apply Sorted_StronglySorted.
    + intros a b c. apply string_leb_trans.
    + apply sorted_Sorted. intros a b. apply String.leb_total.
  - intros name H. apply Hin in H. destruct H as (r & Hr & Hk & <- & _).
    now apply fetch_sql_found.
  - intros name H. unfold Summary.views in H.
    rewrite (sorted_In String.leb) in H. apply in_map_iff in H.
    destruct H as (r & <- & Hr). apply filter_In in Hr. destruct Hr as [Hr Hk].
    apply String.eqb_eq in Hk. now apply fetch_sql_found.
Qed.

Lemma inspect_database_tables_witness :
  Summary.tables Summary.sample_master = ["Abilities"; "Cards"]
  /\ (exists sql, Summary.fetch_sql Summary.sample_master "table" "Cards" = Some sql)
  /\ ~ In "Sqlite3Cache" (Summary.tables Summary.sample_master).
Proof.
  destruct (inspect_database_tables Summary.sample_master) as (Hin & _ & Hsql & _).
  split; [reflexivity|]. split.
  - apply Hsql. vm_compute. tauto.
  - intros H. apply Hin in H. destruct H as (_ & _ & _ & _ & Hno).
    apply Hno. exists "Sqlite", "3"%char, "Cache". split; reflexivity.
Defined.
